(** * Project-root discovery and tool resolution of the Java hooks

    A shallow embedding of [java/test.py] and [java/spotless_apply.py].

    Both scripts walk up from a starting directory looking for a build
    descriptor ([find_project_root_with]), resolve a wrapper or a tool
    ([which_in_dir]), run it ([run_cmd]) and exit with a status.

    - Paths are [string]s (byte strings); [os.path] is the POSIX flavour
      ([posixpath]): [join], [dirname], [normpath] and [abspath] are
      transcribed from it.
    - The filesystem, the search path and the child process are an
      environment [World] of oracles that the scripts only read.
    - Every interaction (a filesystem probe, a search-path lookup, a printed
      line, a launched process) is recorded in a trace of [event]s, so that
      "no process was launched" and "the search path was never consulted"
      are statements about the trace.
    - [while True] is a loop with fuel; [OutOfFuel] is a result of its own
      and the walk is shown never to produce it. *)

From Stdlib Require Import String Ascii List ZArith Lia Bool PeanoNat.
Import ListNotations.
Local Open Scope string_scope.

Set Implicit Arguments.

(** ** Strings as Python uses them here *)

Module Str.

(** [s.startswith(c)] for a one-character [c]. *)
Definition startswith_char (c : ascii) (s : string) : bool :=
  match s with
  | String c0 _ => Ascii.eqb c0 c
  | EmptyString => false
  end.

(** [s.endswith(c)] for a one-character [c]. *)
Fixpoint endswith_char (c : ascii) (s : string) : bool :=
  match s with
  | EmptyString => false
  | String c0 EmptyString => Ascii.eqb c0 c
  | String _ s' => endswith_char c s'
  end.

(** [s.endswith(suf)]. *)
Definition endswith (s suf : string) : bool :=
  let ls := String.length s in
  let lf := String.length suf in
  if Nat.leb lf ls then String.eqb (substring (ls - lf) lf s) suf else false.

(** [s.endswith((a, b, ...))]: a tuple of suffixes. *)
Definition endswith_any (s : string) (sufs : list string) : bool :=
  existsb (endswith s) sufs.

(** [c.lower()] on the ASCII range; other bytes are left alone. *)
Definition lower_char (c : ascii) : ascii :=
  let n := nat_of_ascii c in
  if Nat.leb 65 n && Nat.leb n 90 then ascii_of_nat (n + 32) else c.

(** [s.lower()]. *)
Fixpoint lower (s : string) : string :=
  match s with
  | EmptyString => EmptyString
  | String c s' => String (lower_char c) (lower s')
  end.

(** [s.rfind(c) + 1]: one past the last occurrence of [c], 0 if none. *)
Fixpoint rfind_succ (c : ascii) (s : string) : nat :=
  match s with
  | EmptyString => 0
  | String c0 s' =>
      match rfind_succ c s' with
      | 0 => if Ascii.eqb c0 c then 1 else 0
      | S i => S (S i)
      end
  end.

(** [s[:i]]. *)
Definition slice_to (i : nat) (s : string) : string := substring 0 i s.

(** [s == c * len(s)]. *)
Fixpoint all_char (c : ascii) (s : string) : bool :=
  match s with
  | EmptyString => true
  | String c0 s' => Ascii.eqb c0 c && all_char c s'
  end.

(** [s.rstrip(c)]. *)
Fixpoint rstrip (c : ascii) (s : string) : string :=
  match s with
  | EmptyString => EmptyString
  | String c0 s' =>
      match rstrip c s' with
      | EmptyString => if Ascii.eqb c0 c then EmptyString else String c0 EmptyString
      | r => String c0 r
      end
  end.

(** [s.split(c)]. *)
Fixpoint split (c : ascii) (s : string) : list string :=
  match s with
  | EmptyString => [EmptyString]
  | String c0 s' =>
      if Ascii.eqb c0 c then EmptyString :: split c s'
      else match split c s' with
           | h :: t => String c0 h :: t
           | [] => [String c0 EmptyString]
           end
  end.

(** [c * n]. *)
Fixpoint replicate (n : nat) (c : ascii) : string :=
  match n with
  | O => EmptyString
  | S n' => String c (replicate n' c)
  end.

(** Truth value of a [str]: non-empty. *)
Definition nonempty (s : string) : bool :=
  match s with
  | EmptyString => false
  | String _ _ => true
  end.

(** [a] is an initial segment of [s]. *)
Definition is_prefix (a s : string) : Prop := exists t, s = a ++ t.

End Str.

(** Truth value of an [Optional[str]]: [None] and [''] are false. *)
Definition truthy (o : option string) : bool :=
  match o with
  | Some s => Str.nonempty s
  | None => false
  end.

(** ** [os.path] (posixpath) *)

Module Path.

Definition sep : ascii := "/"%char.

(** [os.path.isabs(p)]. *)
Definition isabs (p : string) : bool := Str.startswith_char sep p.

(** [os.path.join(a, b)]. *)
Definition join (a b : string) : string :=
  if Str.startswith_char sep b then b
  else if negb (Str.nonempty a) || Str.endswith_char sep a then a ++ b
  else a ++ String sep b.

(** [os.path.dirname(p)]. *)
Definition dirname (p : string) : string :=
  let i := Str.rfind_succ sep p in
  let head := Str.slice_to i p in
  if Str.nonempty head && negb (Str.all_char sep head)
  then Str.rstrip sep head
  else head.

(** One turn of the component loop of [normpath]: [new_comps] after
    [comp] has been looked at. *)
Definition normpath_step (initial_slashes : nat) (new_comps : list string)
           (comp : string) : list string :=
  if String.eqb comp "" || String.eqb comp "." then new_comps
  else if negb (String.eqb comp "..")
          || (Nat.eqb initial_slashes 0 && Nat.eqb (List.length new_comps) 0)
          || (negb (Nat.eqb (List.length new_comps) 0)
              && String.eqb (List.last new_comps "") "..")
  then new_comps ++ [comp]
  else if negb (Nat.eqb (List.length new_comps) 0)
  then List.removelast new_comps
  else new_comps.

(** [os.path.normpath(path)]. *)
Definition normpath (path : string) : string :=
  if String.eqb path "" then "."
  else
    let initial_slashes :=
      if Str.startswith_char sep path then
        if String.prefix "//" path && negb (String.prefix "///" path)
        then 2 else 1
      else 0 in
    let comps := Str.split sep path in
    let new_comps := fold_left (normpath_step initial_slashes) comps [] in
    let path' := String.concat "/" new_comps in
    let path'' := Str.replicate initial_slashes sep ++ path' in
    if Str.nonempty path'' then path'' else ".".

(** [os.path.abspath(path)], with [cwd] the value of [os.getcwd()]. *)
Definition abspath (cwd path : string) : string :=
  normpath (if isabs path then path else join cwd path).

(** The ancestor [k] levels above [p]: [dirname] applied [k] times. *)
Fixpoint ancestor (k : nat) (p : string) : string :=
  match k with
  | O => p
  | S k' => ancestor k' (dirname p)
  end.

End Path.

(** ** The environment and the effects *)

(** What [subprocess.run] can raise, by the [except] clause that takes it. *)
Inductive exn : Type :=
| FileNotFoundError                 (* an [Exception]: the executable is missing *)
| KeyboardInterrupt                 (* a [BaseException], not an [Exception] *)
| OtherException (msg : string)     (* any other [Exception]; [msg] is [str(e)] *)
| OtherBaseException (msg : string) (* any other [BaseException] *).

(** The outcome of [subprocess.run(cmd, cwd=cwd)]. *)
Inductive proc_result : Type :=
| Completed (returncode : Z)
| Failed (e : exn).

(** Everything outside the scripts that they read. *)
Record World : Type := {
  getcwd : string;                                      (* [os.getcwd()] *)
  path_exists : string -> bool;                         (* [os.path.exists] *)
  access_x_ok : string -> bool;                         (* [os.access(_, os.X_OK)] *)
  shutil_which : string -> option string;               (* [shutil.which] *)
  subprocess_run : list string -> string -> proc_result (* [subprocess.run] *)
}.

(** What the scripts do to the outside, in order. *)
Inductive event : Type :=
| EvExists (p : string)                    (* [os.path.exists(p)] was asked *)
| EvAccess (p : string)                    (* [os.access(p, os.X_OK)] was asked *)
| EvWhich (name : string)                  (* [shutil.which(name)] was asked *)
| EvStdout (line : string)                 (* [print(...)] *)
| EvStderr (line : string)                 (* [print(..., file=sys.stderr)] *)
| EvSpawn (cmd : list string) (cwd : string) (* [subprocess.run(cmd, cwd=cwd)] *).

Definition trace : Type := list event.

Inductive res (A : Type) : Type :=
| Ret (a : A)
| Raise (e : exn)
| OutOfFuel.
Arguments Raise {A} e.
Arguments OutOfFuel {A}.

(** A computation reads the world, leaves a trace and ends in a [res]. *)
Definition M (A : Type) : Type := World -> trace * res A.

Definition ret {A} (a : A) : M A := fun _ => ([], Ret a).

Definition bind {A B} (m : M A) (k : A -> M B) : M B :=
  fun w =>
    match m w with
    | (t, Ret a) => let (t', r) := k a w in ((t ++ t')%list, r)
    | (t, Raise e) => (t, Raise e)
    | (t, OutOfFuel) => (t, OutOfFuel)
    end.

Declare Scope py_scope.
Delimit Scope py_scope with py.
Notation "x <- m ;; k" := (bind m (fun x => k))
  (at level 61, m at next level, right associativity) : py_scope.
Notation "m ;; k" := (bind m (fun _ => k))
  (at level 61, right associativity) : py_scope.
Local Open Scope py_scope.

Definition raise {A} (e : exn) : M A := fun _ => ([], Raise e).
Definition out_of_fuel {A} : M A := fun _ => ([], OutOfFuel).

(** [try: m  except ...: h]: [h e] is the body of the first clause that
    takes [e], [None] when no clause does. *)
Definition try_except {A} (m : M A) (h : exn -> option (M A)) : M A :=
  fun w =>
    match m w with
    | (t, Raise e) =>
        match h e with
        | Some k => let (t', r) := k w in ((t ++ t')%list, r)
        | None => (t, Raise e)
        end
    | other => other
    end.

Definition os_getcwd : M string := fun w => ([], Ret (getcwd w)).
Definition os_path_exists (p : string) : M bool :=
  fun w => ([EvExists p], Ret (path_exists w p)).
Definition os_access_x_ok (p : string) : M bool :=
  fun w => ([EvAccess p], Ret (access_x_ok w p)).
Definition which (name : string) : M (option string) :=
  fun w => ([EvWhich name], Ret (shutil_which w name)).
Definition print (line : string) : M unit := fun _ => ([EvStdout line], Ret tt).
Definition print_err (line : string) : M unit := fun _ => ([EvStderr line], Ret tt).
Definition run_process (cmd : list string) (cwd : string) : M Z :=
  fun w =>
    ([EvSpawn cmd cwd],
     match subprocess_run w cmd cwd with
     | Completed rc => Ret rc
     | Failed e => Raise e
     end).

(** [cmd[0]]. *)
Definition index0 (cmd : list string) : M string :=
  match cmd with
  | c :: _ => ret c
  | [] => raise (OtherException "list index out of range")
  end.

(** [a or b] on an optional string. *)
Definition or_else (a : option string) (b : string) : string :=
  match a with
  | Some s => if Str.nonempty s then s else b
  | None => b
  end.

(** [if o: k(o) else: els]. *)
Definition if_truthy {A} (o : option string) (k : string -> M A) (els : M A) : M A :=
  match o with
  | Some s => if Str.nonempty s then k s else els
  | None => els
  end.

(** How the process ends: [sys.exit(rc)] with the value of [main()], an
    exception nobody caught, or not at all. *)
Inductive ending : Type :=
| SysExit (rc : Z)
| Uncaught (e : exn)
| Hangs.

(** [rc = main(); sys.exit(rc)]. *)
Definition script (main : M Z) (w : World) : trace * ending :=
  match main w with
  | (t, Ret rc) => (t, SysExit rc)
  | (t, Raise e) => (t, Uncaught e)
  | (t, OutOfFuel) => (t, Hangs)
  end.

Definition spawned (e : event) : bool :=
  match e with EvSpawn _ _ => true | _ => false end.
Definition searched_path (e : event) : bool :=
  match e with EvWhich _ => true | _ => false end.

(** No process was launched along [t]. *)
Definition no_spawn (t : trace) : Prop := forallb (fun e => negb (spawned e)) t = true.
(** The search path was not consulted along [t]. *)
Definition no_which (t : trace) : Prop := forallb (fun e => negb (searched_path e)) t = true.

(** A marker file of [markers] exists directly under [dir]. *)
Definition marker_at (w : World) (markers : list string) (dir : string) : bool :=
  existsb (fun m => path_exists w (Path.join dir m)) markers.

(** [e] asks whether a marker of [markers] exists under one of the first
    [d + 1] ancestors of [cur] ([cur] itself is the first). *)
Definition marker_probe (markers : list string) (cur : string) (d : nat)
           (e : event) : Prop :=
  exists k m, k <= d /\ In m markers /\ e = EvExists (Path.join (Path.ancestor k cur) m).

(** [e] only asks the filesystem something. *)
Definition fs_probe (e : event) : bool :=
  match e with EvExists _ | EvAccess _ => true | _ => false end.

(** ** What the two scripts share, word for word *)

Module Common.

Definition MAVEN_MARKERS : list string := ["pom.xml"].
Definition GRADLE_MARKERS : list string := ["build.gradle"; "build.gradle.kts"].
Definition MAVEN_WRAPPERS : list string := ["mvnw"; "mvnw.cmd"; "mvn"].
Definition GRADLE_WRAPPERS : list string :=
  ["gradlew"; "gradlew.bat"; "gradle"; "gradle.bat"].

(** [for m in markers: if os.path.exists(os.path.join(cur, m)): return cur]:
    [true] when the [return] was taken. *)
Fixpoint marker_here (cur : string) (markers : list string) : M bool :=
  match markers with
  | [] => ret false
  | m :: rest =>
      found <- os_path_exists (Path.join cur m) ;;
      if found then ret true else marker_here cur rest
  end.

(** The [while True] of [find_project_root_with], entered with [cur]. *)
Fixpoint find_loop (fuel : nat) (markers : list string) (cur : string)
  : M (option string) :=
  match fuel with
  | O => out_of_fuel
  | S fuel' =>
      found <- marker_here cur markers ;;
      if found then ret (Some cur)
      else
        let parent := Path.dirname cur in
        if String.eqb parent cur then ret None
        else find_loop fuel' markers parent
  end.

(** Turns of the loop that [cur] can need: each turn that goes on makes
    [cur] shorter ([find_loop_enough_fuel] below). *)
Definition turns (cur : string) : nat := S (String.length cur).

(** The second [for] of [which_in_dir]: the search path, in list order. *)
Fixpoint path_pass (names : list string) : M (option string) :=
  match names with
  | [] => ret None
  | name :: rest =>
      exe <- which name ;;
      if truthy exe then ret exe else path_pass rest
  end.

End Common.

(** ** [java/test.py] *)

Module TestPy.
Import Common.

Definition find_project_root_with (markers : list string) (start : option string)
  : M (option string) :=
  cwd <- os_getcwd ;;
  let cur := Path.abspath cwd (or_else start cwd) in
  find_loop (turns cur) markers cur.

(** The first [for] of [which_in_dir]: inside [dirpath], in list order. *)
Fixpoint dir_pass (names : list string) (dirpath : string) : M (option string) :=
  match names with
  | [] => ret None
  | name :: rest =>
      let candidate := Path.join dirpath name in
      e <- os_path_exists candidate ;;
      if e then
        x <- os_access_x_ok candidate ;;
        if x || Str.endswith_any (Str.lower candidate) [".bat"; ".cmd"]
        then ret (Some candidate)
        else dir_pass rest dirpath
      else dir_pass rest dirpath
  end.

Definition which_in_dir (names : list string) (dirpath : string) : M (option string) :=
  found <- dir_pass names dirpath ;;
  match found with
  | Some candidate => ret (Some candidate)
  | None => path_pass names
  end.

Definition run_cmd (cmd : list string) (cwd : string) : M Z :=
  print ("Executando: " ++ String.concat " " cmd) ;;
  try_except (run_process cmd cwd)
    (fun e =>
       match e with
       | FileNotFoundError =>
           Some (c <- index0 cmd ;;
                 print_err ("Comando não encontrado: " ++ c) ;;
                 ret 127%Z)
       | KeyboardInterrupt =>
           Some (print_err "Interrompido pelo usuário." ;; ret 130%Z)
       | OtherException msg =>
           Some (print_err ("Erro ao executar comando: " ++ msg) ;; ret 1%Z)
       | OtherBaseException _ => None
       end).

Definition detect_and_run_tests (start_dir : option string) (task : string)
           (dry_run : bool) : M Z :=
  mroot <- find_project_root_with MAVEN_MARKERS start_dir ;;
  if_truthy mroot
    (fun mroot =>
       print ("Projeto Maven detectado em: " ++ mroot) ;;
       mvn <- which_in_dir MAVEN_WRAPPERS mroot ;;
       if_truthy mvn
         (fun mvn =>
            let cmd := [mvn; task] in
            if dry_run then
              print ("[dry-run] Comando: " ++ String.concat " " cmd
                     ++ " cwd= " ++ mroot) ;;
              ret 0%Z
            else run_cmd cmd mroot)
         (print_err "Maven (mvn/mvnw) não encontrado. Abortando." ;;
          ret 127%Z))
    (groot <- find_project_root_with GRADLE_MARKERS start_dir ;;
     if_truthy groot
       (fun groot =>
          print ("Projeto Gradle detectado em: " ++ groot) ;;
          gradle <- which_in_dir GRADLE_WRAPPERS groot ;;
          if_truthy gradle
            (fun gradle =>
               let cmd := [gradle; task] in
               if dry_run then
                 print ("[dry-run] Comando: " ++ String.concat " " cmd
                        ++ " cwd= " ++ groot) ;;
                 ret 0%Z
               else run_cmd cmd groot)
            (print_err "Gradle (gradle/gradlew) não encontrado. Abortando." ;;
             ret 127%Z))
       (cwd <- os_getcwd ;;
        print ("Nenhum projeto Maven/Gradle encontrado a partir de "
               ++ or_else start_dir cwd) ;;
        ret 0%Z)).

(** What [parse_args] hands to [main]: the [argparse.Namespace]. *)
Record Namespace : Type := {
  task : string;          (* [--task/-t], default ["test"] *)
  cwd : option string;    (* [--cwd/-C], default [None] *)
  dry_run : bool          (* [--dry-run] *)
}.

Definition default_args : Namespace :=
  {| task := "test"; cwd := None; dry_run := false |}.

(** [main], from the parsed arguments on. *)
Definition main (args : Namespace) : M Z :=
  detect_and_run_tests (cwd args) (task args) (dry_run args).

End TestPy.

(** ** [java/spotless_apply.py] *)

Module SpotlessApply.
Import Common.

Definition find_project_root_with (markers : list string) : M (option string) :=
  cwd <- os_getcwd ;;
  let cur := Path.abspath cwd cwd in
  find_loop (turns cur) markers cur.

(** The first [for] of [which_in_dir]: inside [dirpath], in list order. *)
Fixpoint dir_pass (names : list string) (dirpath : string) : M (option string) :=
  match names with
  | [] => ret None
  | name :: rest =>
      let candidate := Path.join dirpath name in
      e <- os_path_exists candidate ;;
      if e then
        x <- os_access_x_ok candidate ;;
        if x then ret (Some candidate) else dir_pass rest dirpath
      else dir_pass rest dirpath
  end.

Definition which_in_dir (names : list string) (dirpath : string) : M (option string) :=
  found <- dir_pass names dirpath ;;
  match found with
  | Some candidate => ret (Some candidate)
  | None => path_pass names
  end.

Definition run_cmd (cmd : list string) (cwd : string) : M Z :=
  print ("Executando: " ++ String.concat " " cmd) ;;
  try_except (run_process cmd cwd)
    (fun e =>
       match e with
       | FileNotFoundError =>
           Some (c <- index0 cmd ;;
                 print_err ("Comando não encontrado: " ++ c) ;;
                 ret 127%Z)
       | OtherException msg =>
           Some (print_err ("Erro ao executar comando: " ++ msg) ;; ret 1%Z)
       | KeyboardInterrupt => None
       | OtherBaseException _ => None
       end).

Definition main : M Z :=
  mroot <- find_project_root_with MAVEN_MARKERS ;;
  if_truthy mroot
    (fun mroot =>
       print ("Projeto Maven detectado em: " ++ mroot) ;;
       mvn <- which_in_dir MAVEN_WRAPPERS mroot ;;
       if_truthy mvn
         (fun mvn => run_cmd [mvn; "spotless:apply"] mroot)
         (print_err "Maven (mvn/mvnw) não encontrado. Abortando." ;;
          ret 127%Z))
    (groot <- find_project_root_with GRADLE_MARKERS ;;
     if_truthy groot
       (fun groot =>
          print ("Projeto Gradle detectado em: " ++ groot) ;;
          gradle <- which_in_dir GRADLE_WRAPPERS groot ;;
          if_truthy gradle
            (fun gradle => run_cmd [gradle; "spotlessApply"] groot)
            (print_err "Gradle (gradle/gradlew) não encontrado. Abortando." ;;
             ret 127%Z))
       (print "Nenhum projeto Maven/Gradle encontrado. Nenhuma ação necessária." ;;
        ret 0%Z)).

End SpotlessApply.

(** ** Vocabulary of the statements *)

(** [os.getcwd()] is an absolute path. *)
Definition World_ok (w : World) : Prop := Path.isabs (getcwd w) = true.

(** What a computation returns and what it does, in a given world. *)
Definition outcome {A} (m : M A) (w : World) : res A := snd (m w).
Definition effects {A} (m : M A) (w : World) : trace := fst (m w).

(** The test under which the first [for] of [which_in_dir] returns
    [candidate], in each script. *)
Definition invocable_test_py (w : World) (candidate : string) : bool :=
  path_exists w candidate
  && (access_x_ok w candidate
      || Str.endswith_any (Str.lower candidate) [".bat"; ".cmd"]).

Definition invocable_spotless (w : World) (candidate : string) : bool :=
  path_exists w candidate && access_x_ok w candidate.

(** The first name of [names] that the search path knows, with its answer. *)
Definition first_on_path (w : World) (names : list string) : option string :=
  match find (fun n => truthy (shutil_which w n)) names with
  | Some n => shutil_which w n
  | None => None
  end.

(** [e] asks the search path for one of [names]. *)
Definition path_lookup (names : list string) (e : event) : Prop :=
  exists n, In n names /\ e = EvWhich n.

(** [e] looks for a file called [name] in some directory, or for [name] on
    the search path. *)
Definition asks_for (name : string) (e : event) : Prop :=
  e = EvWhich name
  \/ exists dir, e = EvExists (Path.join dir name) \/ e = EvAccess (Path.join dir name).

(** [os.path.basename(p)]. *)
Definition basename (p : string) : string :=
  let i := Str.rfind_succ Path.sep p in
  substring i (String.length p - i) p.

(** [name] has no separator in it and is not empty. *)
Definition plain_name (name : string) : bool :=
  Str.nonempty name && Nat.eqb (Str.rfind_succ Path.sep name) 0.

(** [e] asks for a Gradle build file or a Gradle tool. *)
Definition gradle_lookup (e : event) : Prop :=
  exists n, In n (Common.GRADLE_MARKERS ++ Common.GRADLE_WRAPPERS)%list /\ asks_for n e.

(** [e] asks for the Maven build file or a Maven tool. *)
Definition maven_lookup (e : event) : Prop :=
  exists n, In n (Common.MAVEN_MARKERS ++ Common.MAVEN_WRAPPERS)%list /\ asks_for n e.

(** A run [p] that launches nothing, or launches only what one call of
    [run] launches, as its last step. *)
Definition launches_at_most (run : list string -> string -> M Z) (w : World)
           (p : trace * res Z) : Prop :=
  no_spawn (fst p)
  \/ exists pre cmd cwd,
       no_spawn pre /\ p = ((pre ++ fst (run cmd cwd w))%list, snd (run cmd cwd w)).

(** Where each script starts its walk. *)
Definition test_py_start (w : World) (start : option string) : string :=
  Path.abspath (getcwd w) (or_else start (getcwd w)).
Definition spotless_start (w : World) : string :=
  Path.abspath (getcwd w) (getcwd w).

(** ** Sample worlds *)

Module Sample.

Definition mem (p : string) (l : list string) : bool := existsb (String.eqb p) l.

Fixpoint lookup (n : string) (l : list (string * string)) : option string :=
  match l with
  | [] => None
  | (k, v) :: rest => if String.eqb n k then Some v else lookup n rest
  end.

(** A world from the files that exist, those that carry the execute bit,
    the search path as name/answer pairs, and what any child does. *)
Definition world (cwd : string) (files execs : list string)
           (onpath : list (string * string)) (child : proc_result) : World :=
  {| getcwd := cwd;
     path_exists := fun p => mem p files;
     access_x_ok := fun p => mem p execs;
     shutil_which := fun n => lookup n onpath;
     subprocess_run := fun _ _ => child |}.

(** A Maven project two levels above the working directory, with its
    wrapper, a second [pom.xml] further up, and [mvn] installed. *)
Definition nested_maven (child : proc_result) : World :=
  world "/home/u/proj/src/main"
        ["/home/u/proj/pom.xml"; "/home/pom.xml"; "/home/u/proj/mvnw"]
        ["/home/u/proj/mvnw"]
        [("mvn", "/usr/bin/mvn")]
        child.

(** [mvnw] is on the search path only, [mvn] is in the project and on the
    search path. *)
Definition local_mvn : World :=
  world "/proj"
        ["/proj/pom.xml"; "/proj/mvn"]
        ["/proj/mvn"]
        [("mvnw", "/usr/bin/mvnw"); ("mvn", "/usr/bin/mvn")]
        (Completed 0).

(** A Gradle project whose only wrapper is [gradlew.bat], without the
    execute bit, and no Gradle on the search path. *)
Definition bat_only (child : proc_result) : World :=
  world "/proj" ["/proj/build.gradle"; "/proj/gradlew.bat"] [] [] child.

(** A Gradle project with an executable [gradlew]. *)
Definition gradle_wrapper (child : proc_result) : World :=
  world "/proj/app" ["/proj/build.gradle.kts"; "/proj/gradlew"] ["/proj/gradlew"] [] child.

(** A [pom.xml] and a [build.gradle] side by side, no Maven anywhere, and
    Gradle installed. *)
Definition maven_without_tool : World :=
  world "/proj/sub" ["/proj/pom.xml"; "/proj/build.gradle"] []
        [("gradle", "/usr/bin/gradle")] (Completed 0).

(** A [build.gradle.kts] and no Gradle anywhere. *)
Definition gradle_without_tool : World :=
  world "/proj" ["/proj/build.gradle.kts"] [] [] (Completed 0).

(** No build file anywhere; both tools installed. *)
Definition no_project : World :=
  world "/tmp/scratch" ["/tmp/scratch/README"] []
        [("mvn", "/usr/bin/mvn"); ("gradle", "/usr/bin/gradle")] (Completed 0).

Definition dry_args : TestPy.Namespace :=
  {| TestPy.task := "test"; TestPy.cwd := None; TestPy.dry_run := true |}.

End Sample.

(** ** Vocabulary of the further properties *)

(** [e] asks whether a marker of [markers] exists under some ancestor of
    [cur]. *)
Definition upward_probe (markers : list string) (cur : string) (e : event) : Prop :=
  exists k m, In m markers /\ e = EvExists (Path.join (Path.ancestor k cur) m).

(** [e] is a printed line. *)
Definition printed (e : event) : bool :=
  match e with EvStdout _ | EvStderr _ => true | _ => false end.

(** How many processes were launched along [t]. *)
Definition launches (t : trace) : nat := List.length (filter spawned t).

(** A run [p] that launches nothing and returns 0 or 127, or whose last step
    is one call of [run] on a command of two words. *)
Definition run_shape (run : list string -> string -> M Z) (w : World)
           (p : trace * res Z) : Prop :=
  (no_spawn (fst p) /\ (snd p = Ret 0%Z \/ snd p = Ret 127%Z))
  \/ exists pre tool task cwd,
       no_spawn pre
       /\ p = ((pre ++ fst (run [tool; task] cwd w))%list,
               snd (run [tool; task] cwd w)).

(** How the process ends for what [main] came to. *)
Definition ending_of (r : res Z) : ending :=
  match r with
  | Ret rc => SysExit rc
  | Raise e => Uncaught e
  | OutOfFuel => Hangs
  end.

(** [e] neither asks the filesystem nor the search path. *)
Definition quiet (e : event) : bool := negb (fs_probe e) && negb (searched_path e).

(** ** More sample worlds *)

Module MoreSamples.

(** A Maven project with no tool inside; the search path knows [mvnw.cmd]
    and [mvn], listed here in the other order. *)
Definition path_only : World :=
  Sample.world "/proj" ["/proj/pom.xml"] []
               [("mvn", "/usr/bin/mvn"); ("mvnw.cmd", "/opt/bin/mvnw.cmd")]
               (Completed 0).

(** A wrapper whose name is in capitals, without the execute bit. *)
Definition capital_bat : World :=
  Sample.world "/proj" ["/proj/build.gradle"; "/proj/GRADLEW.BAT"] [] [] (Completed 0).

(** A Gradle module, with its wrapper, inside a Maven project. *)
Definition gradle_inside_maven (child : proc_result) : World :=
  Sample.world "/repo/app"
               ["/repo/pom.xml"; "/repo/mvnw"; "/repo/app/build.gradle"; "/repo/app/gradlew"]
               ["/repo/mvnw"; "/repo/app/gradlew"]
               [("gradle", "/usr/bin/gradle")]
               child.

(** [--task integrationTest], no [--cwd], no [--dry-run]. *)
Definition integration_args : TestPy.Namespace :=
  {| TestPy.task := "integrationTest"; TestPy.cwd := None; TestPy.dry_run := false |}.

End MoreSamples.

(** * Facts *)

Unset Implicit Arguments.

(** ** The path functions on sample paths *)

Example dirname_ex1 : Path.dirname "/home/u/proj" = "/home/u". Proof. reflexivity. Qed.
Example dirname_ex2 : Path.dirname "/home" = "/". Proof. reflexivity. Qed.
Example dirname_ex3 : Path.dirname "/" = "/". Proof. reflexivity. Qed.
Example dirname_ex4 : Path.dirname "//" = "//". Proof. reflexivity. Qed.
Example dirname_ex5 : Path.dirname "a//b" = "a". Proof. reflexivity. Qed.
Example join_ex1 : Path.join "/" "pom.xml" = "/pom.xml". Proof. reflexivity. Qed.
Example join_ex2 : Path.join "/a" "pom.xml" = "/a/pom.xml". Proof. reflexivity. Qed.
Example abspath_ex1 : Path.abspath "/home/u" "proj/../x/./y/" = "/home/u/x/y". Proof. reflexivity. Qed.
Example abspath_ex2 : Path.abspath "/home/u" "//a/../../b" = "//b". Proof. reflexivity. Qed.
Example abspath_ex3 : Path.abspath "/home/u" "///a//b" = "/a/b". Proof. reflexivity. Qed.
Example abspath_ex4 : Path.abspath "/" ".." = "/". Proof. reflexivity. Qed.
Example lower_ex1 : Str.endswith_any (Str.lower "/p/GradleW.BAT") [".bat"; ".cmd"] = true.
Proof. reflexivity. Qed.

(** ** Strings and paths *)

Module StrFacts.

Lemma length_append (a b : string) :
  String.length (a ++ b) = String.length a + String.length b.
Proof. induction a as [|c a IH]; simpl; [reflexivity | now rewrite IH]. Qed.

Lemma append_empty_r (a : string) : a ++ "" = a.
Proof. induction a as [|c a IH]; simpl; [reflexivity | now rewrite IH]. Qed.

Lemma append_assoc (a b c : string) : (a ++ b) ++ c = a ++ (b ++ c).
Proof. induction a as [|x a IH]; simpl; [reflexivity | now rewrite IH]. Qed.

Lemma is_prefix_trans a b c : Str.is_prefix a b -> Str.is_prefix b c -> Str.is_prefix a c.
Proof.
  intros [t Ht] [u Hu]. exists (t ++ u). now rewrite Hu, Ht, append_assoc.
Qed.

Lemma is_prefix_length a s : Str.is_prefix a s -> String.length a <= String.length s.
Proof. intros [t ->]. rewrite length_append. lia. Qed.

Lemma is_prefix_same_length a s :
  Str.is_prefix a s -> String.length a = String.length s -> a = s.
Proof.
  intros [t ->] H. rewrite length_append in H.
  destruct t; [now rewrite append_empty_r | simpl in H; lia].
Qed.

Lemma slice_to_prefix i s : Str.is_prefix (Str.slice_to i s) s.
Proof.
  revert i. induction s as [|c s IH]; intros [|i]; unfold Str.slice_to; simpl.
  - now exists "".
  - now exists "".
  - now exists (String c s).
  - destruct (IH i) as [t Ht]. exists t. unfold Str.slice_to in Ht.
    simpl. f_equal. exact Ht.
Qed.

Lemma rstrip_prefix c s : Str.is_prefix (Str.rstrip c s) s.
Proof.
  induction s as [|c0 s IH]; simpl.
  - now exists "".
  - destruct IH as [t Ht]. destruct (Str.rstrip c s) as [|r0 r].
    + destruct (Ascii.eqb c0 c); [now exists (String c0 s) | now exists s].
    + exists t. simpl. f_equal. exact Ht.
Qed.

Lemma rstrip_empty_all c s : Str.rstrip c s = "" -> Str.all_char c s = true.
Proof.
  induction s as [|c0 s IH]; simpl; [reflexivity|].
  destruct (Str.rstrip c s) as [|r0 r].
  - destruct (Ascii.eqb c0 c); [intros _; now rewrite IH | discriminate].
  - discriminate.
Qed.

Lemma rfind_succ_head c s : Str.rfind_succ c (String c s) <> 0.
Proof.
  simpl. destruct (Str.rfind_succ c s); [now rewrite Ascii.eqb_refl | discriminate].
Qed.

End StrFacts.

Module PathFacts.
Import StrFacts.

Lemma dirname_prefix p : Str.is_prefix (Path.dirname p) p.
Proof.
  unfold Path.dirname.
  destruct (Str.nonempty _ && negb _).
  - eapply is_prefix_trans; [apply rstrip_prefix | apply slice_to_prefix].
  - apply slice_to_prefix.
Qed.

(** A turn of the walk that goes on makes the path strictly shorter. *)
Lemma dirname_shorter p :
  Path.dirname p <> p -> String.length (Path.dirname p) < String.length p.
Proof.
  intros Hne. pose proof (dirname_prefix p) as Hp.
  pose proof (is_prefix_length _ _ Hp) as Hle.
  destruct (Nat.eq_dec (String.length (Path.dirname p)) (String.length p)) as [E|E].
  - exfalso. apply Hne. now apply is_prefix_same_length.
  - lia.
Qed.

Lemma isabs_inv p : Path.isabs p = true -> exists r, p = String Path.sep r.
Proof.
  destruct p as [|c r]; simpl; [discriminate|].
  unfold Path.isabs; simpl. intros H. apply Ascii.eqb_eq in H. subst. now exists r.
Qed.

Lemma isabs_nonempty p : Path.isabs p = true -> Str.nonempty p = true.
Proof. intros H. destruct (isabs_inv _ H) as [r ->]. reflexivity. Qed.

Lemma dirname_isabs p : Path.isabs p = true -> Path.isabs (Path.dirname p) = true.
Proof.
  intros H. destruct (isabs_inv _ H) as [r ->]. unfold Path.dirname.
  pose proof (rfind_succ_head Path.sep r) as Hi.
  destruct (Str.rfind_succ Path.sep (String Path.sep r)) as [|i]; [congruence|].
  unfold Str.slice_to. simpl substring. simpl Str.nonempty.
  cbn [andb Str.all_char]. rewrite Ascii.eqb_refl. cbn [andb].
  destruct (Str.all_char Path.sep (substring 0 i r)) eqn:Hall; cbn [negb]; [reflexivity|].
  cbn [Str.rstrip].
  destruct (Str.rstrip Path.sep (substring 0 i r)) eqn:Hr.
  - apply rstrip_empty_all in Hr. congruence.
  - reflexivity.
Qed.

Lemma ancestor_isabs k p : Path.isabs p = true -> Path.isabs (Path.ancestor k p) = true.
Proof.
  revert p. induction k as [|k IH]; intros p H; simpl; [assumption|].
  apply IH. now apply dirname_isabs.
Qed.

Lemma normpath_isabs p : Path.isabs p = true -> Path.isabs (Path.normpath p) = true.
Proof.
  intros H. destruct (isabs_inv _ H) as [r ->]. unfold Path.normpath.
  cbn [String.eqb Str.startswith_char]. rewrite Ascii.eqb_refl.
  destruct (String.prefix "//" _ && negb _); reflexivity.
Qed.

Lemma join_isabs a b : Path.isabs a = true -> Path.isabs (Path.join a b) = true.
Proof.
  intros H. unfold Path.join.
  destruct (Str.startswith_char Path.sep b) eqn:Hb; [exact Hb|].
  destruct (isabs_inv _ H) as [r ->].
  destruct (negb _ || _); reflexivity.
Qed.

Lemma abspath_isabs cwd p : Path.isabs cwd = true -> Path.isabs (Path.abspath cwd p) = true.
Proof.
  intros H. unfold Path.abspath. apply normpath_isabs.
  destruct (Path.isabs p) eqn:Hp; [exact Hp | now apply join_isabs].
Qed.

Lemma ancestor_fixed k p : Path.dirname p = p -> Path.ancestor k p = p.
Proof. intros H. induction k as [|k IH]; simpl; [reflexivity | now rewrite H]. Qed.

Lemma join_nonempty a b : Str.nonempty b = true -> Str.nonempty (Path.join a b) = true.
Proof.
  intros H. unfold Path.join. destruct (Str.startswith_char Path.sep b); [exact H|].
  destruct (negb _ || _); destruct a; simpl; auto.
Qed.

End PathFacts.

(** ** The effect layer *)

Module MonadFacts.
Local Open Scope list_scope.

Lemma bind_Ret {A B} {m : M A} (k : A -> M B) {w t a} :
  m w = (t, Ret a) -> bind m k w = ((t ++ fst (k a w))%list, snd (k a w)).
Proof. intros H. unfold bind. rewrite H. now destruct (k a w). Qed.

Lemma bind_Raise {A B} {m : M A} (k : A -> M B) {w t e} :
  m w = (t, Raise e) -> bind m k w = (t, Raise e).
Proof. intros H. unfold bind. now rewrite H. Qed.

Lemma pair_eta {A B} (p : A * B) : p = (fst p, snd p).
Proof. now destruct p. Qed.

Lemma no_spawn_app t u : no_spawn t -> no_spawn u -> no_spawn (t ++ u).
Proof. unfold no_spawn. intros Ht Hu. rewrite forallb_app, Ht, Hu. reflexivity. Qed.

Lemma no_which_app t u : no_which t -> no_which u -> no_which (t ++ u).
Proof. unfold no_which. intros Ht Hu. rewrite forallb_app, Ht, Hu. reflexivity. Qed.

Lemma fs_probes_no_spawn t : forallb fs_probe t = true -> no_spawn t.
Proof.
  unfold no_spawn. induction t as [|e t IH]; simpl; [reflexivity|].
  intros H. apply andb_true_iff in H as [He Ht]. rewrite (IH Ht).
  destruct e; simpl in *; congruence.
Qed.

Lemma fs_probes_no_which t : forallb fs_probe t = true -> no_which t.
Proof.
  unfold no_which. induction t as [|e t IH]; simpl; [reflexivity|].
  intros H. apply andb_true_iff in H as [He Ht]. rewrite (IH Ht).
  destruct e; simpl in *; congruence.
Qed.

End MonadFacts.

(** ** The walk up the tree *)

Module WalkFacts.
Import Common MonadFacts StrFacts PathFacts.
Local Open Scope list_scope.

Section Walk.
Variable w : World.
Variable markers : list string.

(** The inner [for] asks about markers under [cur] only, and says whether
    one exists. *)
Lemma marker_here_run cur :
  exists t, marker_here cur markers w = (t, Ret (marker_at w markers cur))
            /\ Forall (marker_probe markers cur 0) t
            /\ forallb fs_probe t = true.
Proof.
  unfold marker_at, marker_probe.
  induction markers as [|m ms IH]; simpl.
  - exists []. split; [reflexivity | split; [constructor | reflexivity]].
  - destruct IH as (t & Ht & Hp & Hf).
    unfold bind, os_path_exists. destruct (path_exists w (Path.join cur m)); simpl.
    + exists [EvExists (Path.join cur m)].
      split; [reflexivity | split; [|reflexivity]].
      constructor; [|constructor]. exists 0, m. simpl. auto.
    + rewrite Ht. exists (EvExists (Path.join cur m) :: t).
      split; [reflexivity | split; [|exact Hf]].
      constructor.
      * exists 0, m. simpl. auto.
      * eapply Forall_impl; [|exact Hp].
        intros e (k & m' & Hk & Hin & He). exists k, m'. simpl. auto.
Qed.

Lemma marker_probe_up cur d e :
  marker_probe markers (Path.dirname cur) d e -> marker_probe markers cur (S d) e.
Proof. intros (k & m & Hk & Hin & He). exists (S k), m. simpl. repeat split; [lia|auto|auto]. Qed.

Lemma marker_probe_weaken cur d d' e :
  d <= d' -> marker_probe markers cur d e -> marker_probe markers cur d' e.
Proof. intros Hd (k & m & Hk & Hin & He). exists k, m. repeat split; [lia|auto|auto]. Qed.

(** One turn of the loop, by what it finds. *)
Lemma find_loop_found fuel cur :
  marker_at w markers cur = true ->
  exists t, find_loop (S fuel) markers cur w = (t, Ret (Some cur))
            /\ Forall (marker_probe markers cur 0) t
            /\ forallb fs_probe t = true.
Proof.
  intros H. destruct (marker_here_run cur) as (t & Ht & Hp & Hf).
  exists t. cbn [find_loop]. rewrite (bind_Ret _ Ht), H. simpl.
  now rewrite app_nil_r.
Qed.

Lemma find_loop_at_root fuel cur :
  marker_at w markers cur = false -> Path.dirname cur = cur ->
  exists t, find_loop (S fuel) markers cur w = (t, Ret None)
            /\ Forall (marker_probe markers cur 0) t
            /\ forallb fs_probe t = true.
Proof.
  intros H Hroot. destruct (marker_here_run cur) as (t & Ht & Hp & Hf).
  exists t. cbn [find_loop]. rewrite (bind_Ret _ Ht), H. cbn zeta.
  rewrite Hroot, String.eqb_refl. simpl. now rewrite app_nil_r.
Qed.

Lemma find_loop_up fuel cur :
  marker_at w markers cur = false -> Path.dirname cur <> cur ->
  exists t, Forall (marker_probe markers cur 0) t /\ forallb fs_probe t = true /\
    find_loop (S fuel) markers cur w =
      ((t ++ fst (find_loop fuel markers (Path.dirname cur) w))%list,
       snd (find_loop fuel markers (Path.dirname cur) w)).
Proof.
  intros H Hup. destruct (marker_here_run cur) as (t & Ht & Hp & Hf).
  exists t. repeat split; auto. cbn [find_loop]. rewrite (bind_Ret _ Ht), H. cbn zeta.
  apply String.eqb_neq in Hup. now rewrite Hup.
Qed.

Lemma marker_probe_asks cur d e :
  marker_probe markers cur d e -> exists m, In m markers /\ asks_for m e.
Proof.
  intros (k & m & _ & Hin & ->). exists m. split; [exact Hin|].
  right. exists (Path.ancestor k cur). now left.
Qed.

(** With a turn per character in hand the loop returns, and more fuel
    changes nothing. *)
Lemma find_loop_returns fuel : forall cur,
  String.length cur < fuel ->
  exists t r, find_loop fuel markers cur w = (t, Ret r)
              /\ forallb fs_probe t = true
              /\ Forall (fun e => exists m, In m markers /\ asks_for m e) t.
Proof.
  induction fuel as [|fuel IH]; intros cur Hlt; [lia|].
  destruct (marker_at w markers cur) eqn:Hm.
  - destruct (find_loop_found fuel cur Hm) as (t & Ht & Hp & Hf).
    exists t, (Some cur). split; [exact Ht | split; [exact Hf|]].
    eapply Forall_impl; [|exact Hp]. intros e. apply marker_probe_asks.
  - destruct (string_dec (Path.dirname cur) cur) as [Hroot|Hup].
    + destruct (find_loop_at_root fuel cur Hm Hroot) as (t & Ht & Hp & Hf).
      exists t, None. split; [exact Ht | split; [exact Hf|]].
      eapply Forall_impl; [|exact Hp]. intros e. apply marker_probe_asks.
    + destruct (find_loop_up fuel cur Hm Hup) as (t & Hp & Hf & Ht).
      pose proof (dirname_shorter _ Hup) as Hs.
      destruct (IH (Path.dirname cur)) as (t' & r & Hrec & Hf' & Ha'); [lia|].
      rewrite Hrec in Ht. simpl in Ht. exists (t ++ t')%list, r.
      split; [exact Ht|]. split; [now rewrite forallb_app, Hf, Hf'|].
      apply Forall_app. split; [|exact Ha'].
      eapply Forall_impl; [|exact Hp]. intros e. apply marker_probe_asks.
Qed.

Lemma find_loop_stable fuel : forall fuel' cur,
  String.length cur < fuel -> String.length cur < fuel' ->
  find_loop fuel markers cur w = find_loop fuel' markers cur w.
Proof.
  induction fuel as [|fuel IH]; intros [|fuel'] cur H H'; try lia.
  destruct (marker_at w markers cur) eqn:Hm.
  - destruct (find_loop_found fuel cur Hm) as (t & Ht & _).
    destruct (find_loop_found fuel' cur Hm) as (t' & Ht' & _).
    cbn [find_loop] in *. destruct (marker_here_run cur) as (t0 & H0 & _).
    rewrite !(bind_Ret _ H0), Hm. reflexivity.
  - destruct (string_dec (Path.dirname cur) cur) as [Hroot|Hup].
    + destruct (find_loop_at_root fuel cur Hm Hroot) as (t & Ht & _).
      destruct (find_loop_at_root fuel' cur Hm Hroot) as (t' & Ht' & _).
      cbn [find_loop] in *. destruct (marker_here_run cur) as (t0 & H0 & _).
      rewrite !(bind_Ret _ H0), Hm. cbn zeta.
      rewrite Hroot, String.eqb_refl. reflexivity.
    + cbn [find_loop]. destruct (marker_here_run cur) as (t0 & H0 & _).
      rewrite !(bind_Ret _ H0), Hm. cbn zeta.
      pose proof (dirname_shorter _ Hup). apply String.eqb_neq in Hup.
      rewrite Hup, (IH fuel' (Path.dirname cur)) by lia. reflexivity.
Qed.

(** The closest ancestor holding a marker is the one returned, and only
    it and the directories below it are looked at. *)
Lemma find_loop_closest d : forall cur fuel,
  String.length cur < fuel ->
  marker_at w markers (Path.ancestor d cur) = true ->
  (forall k, k < d -> marker_at w markers (Path.ancestor k cur) = false) ->
  exists t, find_loop fuel markers cur w = (t, Ret (Some (Path.ancestor d cur)))
            /\ Forall (marker_probe markers cur d) t.
Proof.
  induction d as [|d IH]; intros cur [|fuel] Hlt Hat Hbelow; try lia.
  - destruct (find_loop_found fuel cur Hat) as (t & Ht & Hp & _). eauto.
  - pose proof (Hbelow 0 ltac:(lia)) as Hm. simpl in Hm.
    destruct (string_dec (Path.dirname cur) cur) as [Hroot|Hup].
    + rewrite (ancestor_fixed (S d) _ Hroot) in Hat. congruence.
    + destruct (find_loop_up fuel cur Hm Hup) as (t & Hp & _ & Ht).
      pose proof (dirname_shorter _ Hup) as Hs.
      destruct (IH (Path.dirname cur) fuel) as (t' & Hrec & Hp'); [lia|exact Hat|..].
      { intros k Hk. apply (Hbelow (S k)). lia. }
      rewrite Hrec in Ht. simpl in Ht. exists (t ++ t')%list. split; [exact Ht|].
      apply Forall_app. split.
      * eapply Forall_impl; [|exact Hp]. intros e. apply marker_probe_weaken. lia.
      * eapply Forall_impl; [|exact Hp']. intros e. apply marker_probe_up.
Qed.

(** No marker on the way up: the walk ends at the top with [None]. *)
Lemma find_loop_none fuel : forall cur,
  String.length cur < fuel ->
  (forall k, marker_at w markers (Path.ancestor k cur) = false) ->
  exists t, find_loop fuel markers cur w = (t, Ret None)
            /\ forallb fs_probe t = true.
Proof.
  induction fuel as [|fuel IH]; intros cur Hlt Hnone; [lia|].
  pose proof (Hnone 0) as Hm. simpl in Hm.
  destruct (string_dec (Path.dirname cur) cur) as [Hroot|Hup].
  - destruct (find_loop_at_root fuel cur Hm Hroot) as (t & Ht & _ & Hf). eauto.
  - destruct (find_loop_up fuel cur Hm Hup) as (t & _ & Hf & Ht).
    pose proof (dirname_shorter _ Hup) as Hs.
    destruct (IH (Path.dirname cur)) as (t' & Hrec & Hf'); [lia|..].
    { intros k. apply (Hnone (S k)). }
    rewrite Hrec in Ht. simpl in Ht. exists (t ++ t')%list.
    split; [exact Ht|]. now rewrite forallb_app, Hf, Hf'.
Qed.

(** Whatever is returned is an ancestor of the start and holds a marker. *)
Lemma find_loop_sound fuel : forall cur t r,
  find_loop fuel markers cur w = (t, Ret (Some r)) ->
  exists k, r = Path.ancestor k cur /\ marker_at w markers r = true.
Proof.
  induction fuel as [|fuel IH]; intros cur t r H; [discriminate|].
  destruct (marker_at w markers cur) eqn:Hm.
  - destruct (find_loop_found fuel cur Hm) as (t' & Ht & _).
    rewrite Ht in H. inversion H; subst. exists 0. auto.
  - destruct (string_dec (Path.dirname cur) cur) as [Hroot|Hup].
    + destruct (find_loop_at_root fuel cur Hm Hroot) as (t' & Ht & _). congruence.
    + destruct (find_loop_up fuel cur Hm Hup) as (t' & _ & _ & Ht).
      rewrite Ht in H. inversion H as [[Htr Hres]].
      destruct (IH (Path.dirname cur) (fst (find_loop fuel markers (Path.dirname cur) w)) r)
        as (k & Hk & Hmk).
      { rewrite <- Hres. apply pair_eta. }
      exists (S k). auto.
Qed.

End Walk.

End WalkFacts.

(** ** Resolving the tool *)

Module ResolveFacts.
Import Common MonadFacts StrFacts PathFacts.
Local Open Scope list_scope.

Lemma find_map_first {A B} (f : A -> B) (p : B -> bool) (l : list A) :
  find p (map f l) = option_map f (find (fun a => p (f a)) l).
Proof.
  induction l as [|a l IH]; simpl; [reflexivity|].
  destruct (p (f a)); [reflexivity | exact IH].
Qed.

Section Resolve.
Variable w : World.

(** The search-path pass asks for the names in order and stops at the
    first one that is known. *)
Lemma path_pass_run names :
  exists t, path_pass names w = (t, Ret (first_on_path w names))
            /\ Forall (path_lookup names) t
            /\ no_spawn t.
Proof.
  unfold first_on_path, path_lookup.
  induction names as [|n ns IH]; simpl.
  - exists []. split; [reflexivity | split; [constructor | reflexivity]].
  - destruct IH as (t & Ht & Hp & Hs).
    unfold bind, which. destruct (truthy (shutil_which w n)) eqn:Hn; simpl.
    + exists [EvWhich n]. split; [reflexivity | split; [|reflexivity]].
      constructor; [|constructor]. exists n. auto.
    + rewrite Ht. exists (EvWhich n :: t). split; [reflexivity | split].
      * constructor; [exists n; auto|].
        eapply Forall_impl; [|exact Hp]. intros e (n' & Hin & He). exists n'. auto.
      * exact Hs.
Qed.

Lemma first_on_path_truthy names x :
  first_on_path w names = Some x -> Str.nonempty x = true.
Proof.
  unfold first_on_path. destruct (find _ names) as [n|] eqn:Hf; [|discriminate].
  apply find_some in Hf as [_ Hn]. intros E. rewrite E in Hn. exact Hn.
Qed.

(** The in-directory pass of [test.py]. *)
Lemma test_dir_pass_run names dirpath :
  exists t, TestPy.dir_pass names dirpath w
            = (t, Ret (find (invocable_test_py w) (map (Path.join dirpath) names)))
            /\ forallb fs_probe t = true
            /\ Forall (fun e => exists n, In n names /\ asks_for n e) t.
Proof.
  unfold invocable_test_py.
  induction names as [|n ns IH]; simpl.
  - exists []. split; [reflexivity | split; [reflexivity | constructor]].
  - destruct IH as (t & Ht & Hf & Ha).
    assert (Ha' : Forall (fun e => exists n0, (n = n0 \/ In n0 ns) /\ asks_for n0 e) t).
    { eapply Forall_impl; [|exact Ha]. intros e (n' & Hin & He). exists n'. auto. }
    assert (He : exists n0, (n = n0 \/ In n0 ns) /\ asks_for n0 (EvExists (Path.join dirpath n))).
    { exists n. split; [auto|]. right. exists dirpath. auto. }
    assert (Hx : exists n0, (n = n0 \/ In n0 ns) /\ asks_for n0 (EvAccess (Path.join dirpath n))).
    { exists n. split; [auto|]. right. exists dirpath. auto. }
    unfold bind, os_path_exists, os_access_x_ok.
    destruct (path_exists w (Path.join dirpath n)); simpl.
    + destruct (access_x_ok w (Path.join dirpath n) || _); simpl.
      * eexists. split; [reflexivity | split; [reflexivity|]].
        repeat constructor; assumption.
      * rewrite Ht. eexists. split; [reflexivity | split; [exact Hf|]].
        repeat constructor; assumption.
    + rewrite Ht. eexists. split; [reflexivity | split; [exact Hf|]].
      repeat constructor; assumption.
Qed.

(** The in-directory pass of [spotless_apply.py]. *)
Lemma spotless_dir_pass_run names dirpath :
  exists t, SpotlessApply.dir_pass names dirpath w
            = (t, Ret (find (invocable_spotless w) (map (Path.join dirpath) names)))
            /\ forallb fs_probe t = true
            /\ Forall (fun e => exists n, In n names /\ asks_for n e) t.
Proof.
  unfold invocable_spotless.
  induction names as [|n ns IH]; simpl.
  - exists []. split; [reflexivity | split; [reflexivity | constructor]].
  - destruct IH as (t & Ht & Hf & Ha).
    assert (Ha' : Forall (fun e => exists n0, (n = n0 \/ In n0 ns) /\ asks_for n0 e) t).
    { eapply Forall_impl; [|exact Ha]. intros e (n' & Hin & He). exists n'. auto. }
    assert (He : exists n0, (n = n0 \/ In n0 ns) /\ asks_for n0 (EvExists (Path.join dirpath n))).
    { exists n. split; [auto|]. right. exists dirpath. auto. }
    assert (Hx : exists n0, (n = n0 \/ In n0 ns) /\ asks_for n0 (EvAccess (Path.join dirpath n))).
    { exists n. split; [auto|]. right. exists dirpath. auto. }
    unfold bind, os_path_exists, os_access_x_ok.
    destruct (path_exists w (Path.join dirpath n)); simpl.
    + destruct (access_x_ok w (Path.join dirpath n)); simpl.
      * eexists. split; [reflexivity | split; [reflexivity|]].
        repeat constructor; assumption.
      * rewrite Ht. eexists. split; [reflexivity | split; [exact Hf|]].
        repeat constructor; assumption.
    + rewrite Ht. eexists. split; [reflexivity | split; [exact Hf|]].
      repeat constructor; assumption.
Qed.

End Resolve.

End ResolveFacts.

(** ** Which file a probe is about *)

Module NameFacts.
Import StrFacts.

Lemma substring_full s : substring 0 (String.length s) s = s.
Proof. induction s as [|c s IH]; simpl; [reflexivity | now rewrite IH]. Qed.

Lemma substring_skip a b m :
  substring (String.length a) m (a ++ b) = substring 0 m b.
Proof. induction a as [|c a IH]; simpl; [reflexivity | exact IH]. Qed.

Lemma rfind_succ_app_plain c a n :
  Str.rfind_succ c n = 0 -> Str.rfind_succ c (a ++ n) = Str.rfind_succ c a.
Proof.
  intros Hn. induction a as [|x a IH]; simpl; [exact Hn | now rewrite IH].
Qed.

Lemma rfind_succ_ends c a :
  Str.endswith_char c a = true -> Str.rfind_succ c a = String.length a.
Proof.
  induction a as [|x a IH]; [discriminate|].
  destruct a as [|y a].
  - simpl. intros H. now rewrite H.
  - intros H. change (Str.endswith_char c (String y a) = true) in H.
    specialize (IH H). cbn [Str.rfind_succ String.length] in *.
    now rewrite IH.
Qed.

Lemma endswith_char_snoc c a : Str.endswith_char c (a ++ String c "") = true.
Proof.
  induction a as [|x a IH]; simpl; [apply Ascii.eqb_refl|].
  destruct (a ++ String c "") eqn:E; [destruct a; discriminate | exact IH].
Qed.

Lemma basename_after a n :
  a = "" \/ Str.endswith_char Path.sep a = true ->
  Str.rfind_succ Path.sep n = 0 -> basename (a ++ n) = n.
Proof.
  intros Ha Hn. unfold basename. rewrite (rfind_succ_app_plain _ a n Hn).
  destruct Ha as [->|Ha].
  - simpl. rewrite Nat.sub_0_r. apply substring_full.
  - rewrite (rfind_succ_ends _ _ Ha), length_append, substring_skip.
    replace (String.length a + String.length n - String.length a)
      with (String.length n) by lia.
    apply substring_full.
Qed.

Lemma plain_name_inv n :
  plain_name n = true ->
  Str.rfind_succ Path.sep n = 0 /\ Str.startswith_char Path.sep n = false.
Proof.
  unfold plain_name. intros H. apply andb_true_iff in H as [Hne H0].
  apply Nat.eqb_eq in H0. split; [exact H0|].
  destruct n as [|c n]; [reflexivity|]. simpl in *.
  destruct (Str.rfind_succ Path.sep n); [|discriminate].
  destruct (Ascii.eqb c Path.sep); [discriminate | reflexivity].
Qed.

(** The last component of [join dir name] is [name]. *)
Lemma basename_join dir n : plain_name n = true -> basename (Path.join dir n) = n.
Proof.
  intros H. destruct (plain_name_inv _ H) as [H0 Hs]. unfold Path.join. rewrite Hs.
  destruct (negb (Str.nonempty dir) || Str.endswith_char Path.sep dir) eqn:E.
  - apply basename_after; [|exact H0]. apply orb_true_iff in E as [E|E]; [|auto].
    left. destruct dir; [reflexivity | discriminate].
  - change (dir ++ String Path.sep n) with (dir ++ (String Path.sep "" ++ n)).
    rewrite <- append_assoc. apply basename_after; [|exact H0].
    right. apply endswith_char_snoc.
Qed.

(** A probe is about one name only. *)
Lemma asks_for_inj n n' e :
  plain_name n = true -> plain_name n' = true ->
  asks_for n e -> asks_for n' e -> n = n'.
Proof.
  intros Hn Hn' [E|[d [E|E]]] [E'|[d' [E'|E']]]; subst e; try discriminate.
  - now inversion E'.
  - inversion E' as [Hj]. rewrite <- (basename_join d n Hn), <- (basename_join d' n' Hn').
    now rewrite Hj.
  - inversion E' as [Hj]. rewrite <- (basename_join d n Hn), <- (basename_join d' n' Hn').
    now rewrite Hj.
Qed.

End NameFacts.

(** ** Running the scripts *)

Module RunFacts.
Import Common MonadFacts StrFacts PathFacts WalkFacts ResolveFacts NameFacts.
Local Open Scope list_scope.

Lemma bind_print {B} s (k : unit -> M B) w :
  bind (print s) k w = (EvStdout s :: fst (k tt w), snd (k tt w)).
Proof. unfold bind, print. now destruct (k tt w). Qed.

Lemma bind_print_err {B} s (k : unit -> M B) w :
  bind (print_err s) k w = (EvStderr s :: fst (k tt w), snd (k tt w)).
Proof. unfold bind, print_err. now destruct (k tt w). Qed.

Lemma bind_getcwd {B} (k : string -> M B) w : bind os_getcwd k w = k (getcwd w) w.
Proof. unfold bind, os_getcwd. now destruct (k (getcwd w) w). Qed.

Lemma run_eq {A} (m : M A) w r : outcome m w = r -> m w = (effects m w, r).
Proof. intros <-. apply pair_eta. Qed.

Lemma test_find_eq markers start w :
  TestPy.find_project_root_with markers start w
  = find_loop (turns (test_py_start w start)) markers (test_py_start w start) w.
Proof. unfold TestPy.find_project_root_with. now rewrite bind_getcwd. Qed.

Lemma spotless_find_eq markers w :
  SpotlessApply.find_project_root_with markers w
  = find_loop (turns (spotless_start w)) markers (spotless_start w) w.
Proof. unfold SpotlessApply.find_project_root_with. now rewrite bind_getcwd. Qed.

Lemma turns_enough cur : String.length cur < turns cur.
Proof. unfold turns. lia. Qed.

Section Roots.
Variable w : World.
Hypothesis Hok : World_ok w.

Lemma found_root_nonempty fuel markers x t r :
  find_loop fuel markers (Path.abspath (getcwd w) x) w = (t, Ret (Some r)) ->
  Str.nonempty r = true.
Proof.
  intros H. destruct (find_loop_sound w markers fuel _ _ _ H) as (k & -> & _).
  apply isabs_nonempty, ancestor_isabs, abspath_isabs, Hok.
Qed.

Lemma test_root_nonempty markers start r :
  outcome (TestPy.find_project_root_with markers start) w = Ret (Some r) ->
  Str.nonempty r = true.
Proof.
  intros H. apply run_eq in H. rewrite test_find_eq in H at 1.
  eapply found_root_nonempty, H.
Qed.

Lemma spotless_root_nonempty markers r :
  outcome (SpotlessApply.find_project_root_with markers) w = Ret (Some r) ->
  Str.nonempty r = true.
Proof.
  intros H. apply run_eq in H. rewrite spotless_find_eq in H at 1.
  eapply found_root_nonempty, H.
Qed.
End Roots.

(** The walk only asks the filesystem, whatever it returns. *)
Lemma test_find_probes markers start w :
  forallb fs_probe (effects (TestPy.find_project_root_with markers start) w) = true.
Proof.
  unfold effects. rewrite test_find_eq.
  destruct (find_loop_returns w markers _ _ (turns_enough (test_py_start w start)))
    as (t & r & -> & Hf & _). exact Hf.
Qed.

Lemma spotless_find_probes markers w :
  forallb fs_probe (effects (SpotlessApply.find_project_root_with markers) w) = true.
Proof.
  unfold effects. rewrite spotless_find_eq.
  destruct (find_loop_returns w markers _ _ (turns_enough (spotless_start w)))
    as (t & r & -> & Hf & _). exact Hf.
Qed.

Lemma path_lookup_asks names e :
  path_lookup names e -> exists n, In n names /\ asks_for n e.
Proof. intros (n & Hin & ->). exists n. split; [exact Hin | now left]. Qed.

(** [which_in_dir] of [test.py]: it always returns, launches nothing, asks
    about [names] only, and answers with the first in-directory candidate
    when there is one, with the search path's first answer otherwise. *)
Lemma test_which_in_dir_run w names dirpath :
  exists t t',
    TestPy.which_in_dir names dirpath w
    = (t ++ t',
       Ret (match find (invocable_test_py w) (map (Path.join dirpath) names) with
            | Some c => Some c
            | None => first_on_path w names
            end))
    /\ forallb fs_probe t = true
    /\ Forall (path_lookup names) t'
    /\ (find (invocable_test_py w) (map (Path.join dirpath) names) <> None -> t' = [])
    /\ no_spawn (t ++ t')
    /\ Forall (fun e => exists n, In n names /\ asks_for n e) (t ++ t').
Proof.
  destruct (test_dir_pass_run w names dirpath) as (t & Ht & Hf & Ha).
  unfold TestPy.which_in_dir. rewrite (bind_Ret _ Ht).
  destruct (find _ _) as [c|].
  - exists t, []. cbn. split; [reflexivity|]. split; [exact Hf|].
    split; [constructor|]. split; [reflexivity|]. rewrite app_nil_r.
    split; [now apply fs_probes_no_spawn | exact Ha].
  - destruct (path_pass_run w names) as (t' & Ht' & Hp & Hs). rewrite Ht'. cbn.
    exists t, t'. split; [reflexivity|]. split; [exact Hf|]. split; [exact Hp|].
    split; [congruence|].
    split; [apply no_spawn_app; [now apply fs_probes_no_spawn | exact Hs]|].
    apply Forall_app. split; [exact Ha|].
    eapply Forall_impl; [|exact Hp]. intros e. apply path_lookup_asks.
Qed.

Lemma spotless_which_in_dir_run w names dirpath :
  exists t t',
    SpotlessApply.which_in_dir names dirpath w
    = (t ++ t',
       Ret (match find (invocable_spotless w) (map (Path.join dirpath) names) with
            | Some c => Some c
            | None => first_on_path w names
            end))
    /\ forallb fs_probe t = true
    /\ Forall (path_lookup names) t'
    /\ (find (invocable_spotless w) (map (Path.join dirpath) names) <> None -> t' = [])
    /\ no_spawn (t ++ t')
    /\ Forall (fun e => exists n, In n names /\ asks_for n e) (t ++ t').
Proof.
  destruct (spotless_dir_pass_run w names dirpath) as (t & Ht & Hf & Ha).
  unfold SpotlessApply.which_in_dir. rewrite (bind_Ret _ Ht).
  destruct (find _ _) as [c|].
  - exists t, []. cbn. split; [reflexivity|]. split; [exact Hf|].
    split; [constructor|]. split; [reflexivity|]. rewrite app_nil_r.
    split; [now apply fs_probes_no_spawn | exact Ha].
  - destruct (path_pass_run w names) as (t' & Ht' & Hp & Hs). rewrite Ht'. cbn.
    exists t, t'. split; [reflexivity|]. split; [exact Hf|]. split; [exact Hp|].
    split; [congruence|].
    split; [apply no_spawn_app; [now apply fs_probes_no_spawn | exact Hs]|].
    apply Forall_app. split; [exact Ha|].
    eapply Forall_impl; [|exact Hp]. intros e. apply path_lookup_asks.
Qed.

(** A resolved tool is never the empty string. *)
Lemma resolved_nonempty (inv : string -> bool) w names dirpath x :
  forallb Str.nonempty names = true ->
  match find inv (map (Path.join dirpath) names) with
  | Some c => Some c
  | None => first_on_path w names
  end = Some x ->
  Str.nonempty x = true.
Proof.
  intros Hn. destruct (find _ _) as [c|] eqn:Hf.
  - intros E. inversion E; subst. apply find_some in Hf as [Hin _].
    apply in_map_iff in Hin as (n & <- & Hin). apply join_nonempty.
    rewrite forallb_forall in Hn. now apply Hn.
  - apply first_on_path_truthy.
Qed.

Lemma test_tool_nonempty w names dirpath x :
  forallb Str.nonempty names = true ->
  outcome (TestPy.which_in_dir names dirpath) w = Ret (Some x) ->
  Str.nonempty x = true.
Proof.
  intros Hn H. destruct (test_which_in_dir_run w names dirpath) as (t & t' & Ht & _).
  unfold outcome in H. rewrite Ht in H. cbn in H. inversion H as [E].
  eapply resolved_nonempty; eauto.
Qed.

Lemma spotless_tool_nonempty w names dirpath x :
  forallb Str.nonempty names = true ->
  outcome (SpotlessApply.which_in_dir names dirpath) w = Ret (Some x) ->
  Str.nonempty x = true.
Proof.
  intros Hn H. destruct (spotless_which_in_dir_run w names dirpath) as (t & t' & Ht & _).
  unfold outcome in H. rewrite Ht in H. cbn in H. inversion H as [E].
  eapply resolved_nonempty; eauto.
Qed.

End RunFacts.

(** ** The two orchestrators *)

Module ScriptFacts.
Import Common MonadFacts StrFacts PathFacts WalkFacts ResolveFacts NameFacts RunFacts.
Local Open Scope list_scope.

Lemma test_find_run markers start w :
  exists t r, TestPy.find_project_root_with markers start w = (t, Ret r)
              /\ forallb fs_probe t = true
              /\ Forall (fun e => exists m, In m markers /\ asks_for m e) t.
Proof.
  rewrite test_find_eq. apply find_loop_returns, turns_enough.
Qed.

Lemma spotless_find_run markers w :
  exists t r, SpotlessApply.find_project_root_with markers w = (t, Ret r)
              /\ forallb fs_probe t = true
              /\ Forall (fun e => exists m, In m markers /\ asks_for m e) t.
Proof.
  rewrite spotless_find_eq. apply find_loop_returns, turns_enough.
Qed.

(** [run_cmd] of [test.py], by what the child does. *)
Lemma test_run_cmd_shape w cmd cwd :
  exists t r,
    TestPy.run_cmd cmd cwd w
    = (EvStdout ("Executando: " ++ String.concat " " cmd)%string :: EvSpawn cmd cwd :: t, r)
    /\ no_spawn t
    /\ (forall rc, subprocess_run w cmd cwd = Completed rc -> t = [] /\ r = Ret rc)
    /\ (subprocess_run w cmd cwd = Failed KeyboardInterrupt ->
        t = [EvStderr "Interrompido pelo usuário."] /\ r = Ret 130%Z).
Proof.
  unfold TestPy.run_cmd. rewrite bind_print. unfold try_except, run_process.
  destruct (subprocess_run w cmd cwd) as [rc|[| |msg|msg]]; cbn.
  - eexists _, _. split; [reflexivity|]. split; [reflexivity|].
    split; [intros rc' E; inversion E; auto | discriminate].
  - destruct cmd as [|c cmd]; cbn; eexists _, _;
      (split; [reflexivity|]); (split; [reflexivity|]); split; discriminate.
  - eexists _, _. split; [reflexivity|]. split; [reflexivity|].
    split; [discriminate | auto].
  - eexists _, _. split; [reflexivity|]. split; [reflexivity|]. split; discriminate.
  - eexists _, _. split; [reflexivity|]. split; [reflexivity|]. split; discriminate.
Qed.

(** [run_cmd] of [spotless_apply.py], by what the child does. *)
Lemma spotless_run_cmd_shape w cmd cwd :
  exists t r,
    SpotlessApply.run_cmd cmd cwd w
    = (EvStdout ("Executando: " ++ String.concat " " cmd)%string :: EvSpawn cmd cwd :: t, r)
    /\ no_spawn t
    /\ (forall rc, subprocess_run w cmd cwd = Completed rc -> t = [] /\ r = Ret rc)
    /\ (subprocess_run w cmd cwd = Failed KeyboardInterrupt ->
        t = [] /\ r = Raise KeyboardInterrupt).
Proof.
  unfold SpotlessApply.run_cmd. rewrite bind_print. unfold try_except, run_process.
  destruct (subprocess_run w cmd cwd) as [rc|[| |msg|msg]]; cbn.
  - eexists _, _. split; [reflexivity|]. split; [reflexivity|].
    split; [intros rc' E; inversion E; auto | discriminate].
  - destruct cmd as [|c cmd]; cbn; eexists _, _;
      (split; [reflexivity|]); (split; [reflexivity|]); split; discriminate.
  - eexists _, _. split; [reflexivity|]. split; [reflexivity|].
    split; [discriminate | auto].
  - eexists _, _. split; [reflexivity|]. split; [reflexivity|]. split; discriminate.
  - eexists _, _. split; [reflexivity|]. split; [reflexivity|]. split; discriminate.
Qed.

Lemma launches_after run w pre (p : trace * res Z) :
  no_spawn pre -> launches_at_most run w p ->
  launches_at_most run w (pre ++ fst p, snd p).
Proof.
  intros Hpre [Hn|(pre' & cmd & cwd & Hn & ->)].
  - left. cbn. now apply no_spawn_app.
  - right. exists (pre ++ pre'), cmd, cwd. split; [now apply no_spawn_app|].
    cbn. now rewrite List.app_assoc.
Qed.

Lemma launches_run run w cmd cwd : launches_at_most run w (run cmd cwd w).
Proof.
  right. exists [], cmd, cwd. split; [reflexivity|]. cbn. apply pair_eta.
Qed.

(** A run that launches at most one [run cmd cwd] and did launch [cmd'] in
    [cwd'] ended the way that [run] ended. *)
Lemma launched_means_run run w p cmd' cwd' :
  launches_at_most run w p ->
  (forall cmd cwd, exists l t, fst (run cmd cwd w) = EvStdout l :: EvSpawn cmd cwd :: t
                               /\ no_spawn t) ->
  In (EvSpawn cmd' cwd') (fst p) -> snd p = snd (run cmd' cwd' w).
Proof.
  assert (Hno : forall t, no_spawn t -> ~ In (EvSpawn cmd' cwd') t).
  { intros t Ht Hin. unfold no_spawn in Ht. rewrite forallb_forall in Ht.
    specialize (Ht _ Hin). discriminate. }
  intros [Hn|(pre & cmd & cwd & Hn & ->)] Hrun Hin.
  - exfalso. exact (Hno _ Hn Hin).
  - cbn in *. destruct (Hrun cmd cwd) as (l & t & Hfst & Ht). rewrite Hfst in Hin.
    apply in_app_or in Hin as [Hin|Hin]; [exfalso; exact (Hno _ Hn Hin)|].
    simpl in Hin. destruct Hin as [E|[E|Hin]];
      [discriminate | | exfalso; exact (Hno _ Ht Hin)].
    now inversion E; subst.
Qed.

(** *** [test.py], branch by branch *)

Section TestPyBranches.
Variable w : World.
Hypothesis Hok : World_ok w.
Variable args : TestPy.Namespace.

Lemma test_py_maven_no_tool mroot :
  outcome (TestPy.find_project_root_with MAVEN_MARKERS (TestPy.cwd args)) w
  = Ret (Some mroot) ->
  outcome (TestPy.which_in_dir MAVEN_WRAPPERS mroot) w = Ret None ->
  script (TestPy.main args) w =
    (effects (TestPy.find_project_root_with MAVEN_MARKERS (TestPy.cwd args)) w
     ++ [EvStdout ("Projeto Maven detectado em: " ++ mroot)%string]
     ++ effects (TestPy.which_in_dir MAVEN_WRAPPERS mroot) w
     ++ [EvStderr "Maven (mvn/mvnw) não encontrado. Abortando."],
     SysExit 127).
Proof.
  intros Hfind Hwhich.
  pose proof (test_root_nonempty w Hok _ _ _ Hfind) as Hne.
  apply run_eq in Hfind. apply run_eq in Hwhich.
  unfold script, TestPy.main, TestPy.detect_and_run_tests.
  rewrite (bind_Ret _ Hfind). cbn [if_truthy]. rewrite Hne.
  rewrite bind_print, (bind_Ret _ Hwhich). cbn [if_truthy].
  rewrite bind_print_err. reflexivity.
Qed.

Lemma test_py_gradle_no_tool groot :
  outcome (TestPy.find_project_root_with MAVEN_MARKERS (TestPy.cwd args)) w
  = Ret None ->
  outcome (TestPy.find_project_root_with GRADLE_MARKERS (TestPy.cwd args)) w
  = Ret (Some groot) ->
  outcome (TestPy.which_in_dir GRADLE_WRAPPERS groot) w = Ret None ->
  script (TestPy.main args) w =
    (effects (TestPy.find_project_root_with MAVEN_MARKERS (TestPy.cwd args)) w ++ effects (TestPy.find_project_root_with GRADLE_MARKERS (TestPy.cwd args)) w
     ++ [EvStdout ("Projeto Gradle detectado em: " ++ groot)%string]
     ++ effects (TestPy.which_in_dir GRADLE_WRAPPERS groot) w
     ++ [EvStderr "Gradle (gradle/gradlew) não encontrado. Abortando."],
     SysExit 127).
Proof.
  intros Hm Hfind Hwhich.
  pose proof (test_root_nonempty w Hok _ _ _ Hfind) as Hne.
  apply run_eq in Hm. apply run_eq in Hfind. apply run_eq in Hwhich.
  unfold script, TestPy.main, TestPy.detect_and_run_tests.
  rewrite (bind_Ret _ Hm). cbn [if_truthy].
  rewrite (bind_Ret _ Hfind). cbn [if_truthy]. rewrite Hne.
  rewrite bind_print, (bind_Ret _ Hwhich). cbn [if_truthy].
  rewrite bind_print_err. reflexivity.
Qed.

Lemma test_py_maven_dry_run mroot mvn :
  TestPy.dry_run args = true ->
  outcome (TestPy.find_project_root_with MAVEN_MARKERS (TestPy.cwd args)) w
  = Ret (Some mroot) ->
  outcome (TestPy.which_in_dir MAVEN_WRAPPERS mroot) w = Ret (Some mvn) ->
  script (TestPy.main args) w =
    (effects (TestPy.find_project_root_with MAVEN_MARKERS (TestPy.cwd args)) w
     ++ [EvStdout ("Projeto Maven detectado em: " ++ mroot)%string]
     ++ effects (TestPy.which_in_dir MAVEN_WRAPPERS mroot) w
     ++ [EvStdout ("[dry-run] Comando: " ++ mvn ++ " " ++ TestPy.task args
                   ++ " cwd= " ++ mroot)%string],
     SysExit 0).
Proof.
  intros Hdry Hfind Hwhich.
  pose proof (test_root_nonempty w Hok _ _ _ Hfind) as Hne.
  pose proof (test_tool_nonempty w MAVEN_WRAPPERS _ _ eq_refl Hwhich) as Hnt.
  apply run_eq in Hfind. apply run_eq in Hwhich.
  unfold script, TestPy.main, TestPy.detect_and_run_tests.
  rewrite (bind_Ret _ Hfind). cbn [if_truthy]. rewrite Hne.
  rewrite bind_print, (bind_Ret _ Hwhich). cbn [if_truthy]. rewrite Hnt, Hdry.
  rewrite bind_print. cbn. now rewrite append_assoc.
Qed.

Lemma test_py_gradle_dry_run groot gradle :
  TestPy.dry_run args = true ->
  outcome (TestPy.find_project_root_with MAVEN_MARKERS (TestPy.cwd args)) w
  = Ret None ->
  outcome (TestPy.find_project_root_with GRADLE_MARKERS (TestPy.cwd args)) w
  = Ret (Some groot) ->
  outcome (TestPy.which_in_dir GRADLE_WRAPPERS groot) w = Ret (Some gradle) ->
  script (TestPy.main args) w =
    (effects (TestPy.find_project_root_with MAVEN_MARKERS (TestPy.cwd args)) w ++ effects (TestPy.find_project_root_with GRADLE_MARKERS (TestPy.cwd args)) w
     ++ [EvStdout ("Projeto Gradle detectado em: " ++ groot)%string]
     ++ effects (TestPy.which_in_dir GRADLE_WRAPPERS groot) w
     ++ [EvStdout ("[dry-run] Comando: " ++ gradle ++ " " ++ TestPy.task args
                   ++ " cwd= " ++ groot)%string],
     SysExit 0).
Proof.
  intros Hdry Hm Hfind Hwhich.
  pose proof (test_root_nonempty w Hok _ _ _ Hfind) as Hne.
  pose proof (test_tool_nonempty w GRADLE_WRAPPERS _ _ eq_refl Hwhich) as Hnt.
  apply run_eq in Hm. apply run_eq in Hfind. apply run_eq in Hwhich.
  unfold script, TestPy.main, TestPy.detect_and_run_tests.
  rewrite (bind_Ret _ Hm). cbn [if_truthy].
  rewrite (bind_Ret _ Hfind). cbn [if_truthy]. rewrite Hne.
  rewrite bind_print, (bind_Ret _ Hwhich). cbn [if_truthy]. rewrite Hnt, Hdry.
  rewrite bind_print. cbn. now rewrite append_assoc.
Qed.

End TestPyBranches.

Lemma test_py_no_project w args :
  outcome (TestPy.find_project_root_with MAVEN_MARKERS (TestPy.cwd args)) w = Ret None ->
  outcome (TestPy.find_project_root_with GRADLE_MARKERS (TestPy.cwd args)) w = Ret None ->
  script (TestPy.main args) w =
    (effects (TestPy.find_project_root_with MAVEN_MARKERS (TestPy.cwd args)) w
     ++ effects (TestPy.find_project_root_with GRADLE_MARKERS (TestPy.cwd args)) w
     ++ [EvStdout ("Nenhum projeto Maven/Gradle encontrado a partir de "
                   ++ or_else (TestPy.cwd args) (getcwd w))%string],
     SysExit 0).
Proof.
  intros Hm Hg. apply run_eq in Hm. apply run_eq in Hg.
  unfold script, TestPy.main, TestPy.detect_and_run_tests.
  rewrite (bind_Ret _ Hm). cbn [if_truthy].
  rewrite (bind_Ret _ Hg). cbn [if_truthy].
  rewrite bind_getcwd, bind_print. reflexivity.
Qed.

(** *** [spotless_apply.py], branch by branch *)

Lemma spotless_maven_no_tool w mroot :
  World_ok w ->
  outcome (SpotlessApply.find_project_root_with MAVEN_MARKERS) w = Ret (Some mroot) ->
  outcome (SpotlessApply.which_in_dir MAVEN_WRAPPERS mroot) w = Ret None ->
  script SpotlessApply.main w =
    (effects (SpotlessApply.find_project_root_with MAVEN_MARKERS) w
     ++ [EvStdout ("Projeto Maven detectado em: " ++ mroot)%string]
     ++ effects (SpotlessApply.which_in_dir MAVEN_WRAPPERS mroot) w
     ++ [EvStderr "Maven (mvn/mvnw) não encontrado. Abortando."],
     SysExit 127).
Proof.
  intros Hok Hfind Hwhich.
  pose proof (spotless_root_nonempty w Hok _ _ Hfind) as Hne.
  apply run_eq in Hfind. apply run_eq in Hwhich.
  unfold script, SpotlessApply.main.
  rewrite (bind_Ret _ Hfind). cbn [if_truthy]. rewrite Hne.
  rewrite bind_print, (bind_Ret _ Hwhich). cbn [if_truthy].
  rewrite bind_print_err. reflexivity.
Qed.

Lemma spotless_no_project w :
  outcome (SpotlessApply.find_project_root_with MAVEN_MARKERS) w = Ret None ->
  outcome (SpotlessApply.find_project_root_with GRADLE_MARKERS) w = Ret None ->
  script SpotlessApply.main w =
    (effects (SpotlessApply.find_project_root_with MAVEN_MARKERS) w
     ++ effects (SpotlessApply.find_project_root_with GRADLE_MARKERS) w
     ++ [EvStdout "Nenhum projeto Maven/Gradle encontrado. Nenhuma ação necessária."],
     SysExit 0).
Proof.
  intros Hm Hg. apply run_eq in Hm. apply run_eq in Hg.
  unfold script, SpotlessApply.main.
  rewrite (bind_Ret _ Hm). cbn [if_truthy].
  rewrite (bind_Ret _ Hg). cbn [if_truthy].
  rewrite bind_print. reflexivity.
Qed.

(** *** Either script launches one process at most, last of all *)

Lemma launches_after_event run w e (p : trace * res Z) :
  spawned e = false -> launches_at_most run w p ->
  launches_at_most run w (e :: fst p, snd p).
Proof.
  intros He Hp. apply (launches_after run w [e] p); [|exact Hp].
  unfold no_spawn. cbn. now rewrite He.
Qed.

Lemma launches_nothing run w (p : trace * res Z) :
  no_spawn (fst p) -> launches_at_most run w p.
Proof. intros H. now left. Qed.

Lemma test_py_launches w args :
  launches_at_most TestPy.run_cmd w (TestPy.main args w).
Proof.
  unfold TestPy.main, TestPy.detect_and_run_tests.
  destruct (test_find_run MAVEN_MARKERS (TestPy.cwd args) w) as (t1 & o1 & H1 & Hf1 & _).
  rewrite (bind_Ret _ H1). apply launches_after; [now apply fs_probes_no_spawn|].
  match goal with
  | |- launches_at_most _ _ (if_truthy _ _ ?els _) =>
      assert (G : launches_at_most TestPy.run_cmd w (els w))
  end.
  { destruct (test_find_run GRADLE_MARKERS (TestPy.cwd args) w) as (t & o & H & Hf & _).
    rewrite (bind_Ret _ H). apply launches_after; [now apply fs_probes_no_spawn|].
    destruct o as [groot|]; cbn [if_truthy]; [destruct (Str.nonempty groot)|].
    2,3: rewrite bind_getcwd, bind_print; now apply launches_nothing.
    rewrite bind_print. apply launches_after_event; [reflexivity|].
    destruct (test_which_in_dir_run w GRADLE_WRAPPERS groot)
      as (t2 & t2' & H2 & _ & _ & _ & Hs2 & _).
    rewrite (bind_Ret _ H2). apply launches_after; [exact Hs2|].
    destruct (match find _ _ with Some c => Some c | None => _ end) as [tool|];
      cbn [if_truthy]; [destruct (Str.nonempty tool)|].
    2,3: rewrite bind_print_err; now apply launches_nothing.
    destruct (TestPy.dry_run args).
    - rewrite bind_print. now apply launches_nothing.
    - apply launches_run. }
  destruct o1 as [mroot|]; cbn [if_truthy]; [destruct (Str.nonempty mroot)|];
    try exact G.
  rewrite bind_print. apply launches_after_event; [reflexivity|].
  destruct (test_which_in_dir_run w MAVEN_WRAPPERS mroot)
    as (t2 & t2' & H2 & _ & _ & _ & Hs2 & _).
  rewrite (bind_Ret _ H2). apply launches_after; [exact Hs2|].
  destruct (match find _ _ with Some c => Some c | None => _ end) as [tool|];
    cbn [if_truthy]; [destruct (Str.nonempty tool)|].
  2,3: rewrite bind_print_err; now apply launches_nothing.
  destruct (TestPy.dry_run args).
  - rewrite bind_print. now apply launches_nothing.
  - apply launches_run.
Qed.

Lemma spotless_launches w :
  launches_at_most SpotlessApply.run_cmd w (SpotlessApply.main w).
Proof.
  unfold SpotlessApply.main.
  destruct (spotless_find_run MAVEN_MARKERS w) as (t1 & o1 & H1 & Hf1 & _).
  rewrite (bind_Ret _ H1). apply launches_after; [now apply fs_probes_no_spawn|].
  match goal with
  | |- launches_at_most _ _ (if_truthy _ _ ?els _) =>
      assert (G : launches_at_most SpotlessApply.run_cmd w (els w))
  end.
  { destruct (spotless_find_run GRADLE_MARKERS w) as (t & o & H & Hf & _).
    rewrite (bind_Ret _ H). apply launches_after; [now apply fs_probes_no_spawn|].
    destruct o as [groot|]; cbn [if_truthy]; [destruct (Str.nonempty groot)|].
    2,3: rewrite bind_print; now apply launches_nothing.
    rewrite bind_print. apply launches_after_event; [reflexivity|].
    destruct (spotless_which_in_dir_run w GRADLE_WRAPPERS groot)
      as (t2 & t2' & H2 & _ & _ & _ & Hs2 & _).
    rewrite (bind_Ret _ H2). apply launches_after; [exact Hs2|].
    destruct (match find _ _ with Some c => Some c | None => _ end) as [tool|];
      cbn [if_truthy]; [destruct (Str.nonempty tool)|].
    2,3: rewrite bind_print_err; now apply launches_nothing.
    apply launches_run. }
  destruct o1 as [mroot|]; cbn [if_truthy]; [destruct (Str.nonempty mroot)|];
    try exact G.
  rewrite bind_print. apply launches_after_event; [reflexivity|].
  destruct (spotless_which_in_dir_run w MAVEN_WRAPPERS mroot)
    as (t2 & t2' & H2 & _ & _ & _ & Hs2 & _).
  rewrite (bind_Ret _ H2). apply launches_after; [exact Hs2|].
  destruct (match find _ _ with Some c => Some c | None => _ end) as [tool|];
    cbn [if_truthy]; [destruct (Str.nonempty tool)|].
  2,3: rewrite bind_print_err; now apply launches_nothing.
  apply launches_run.
Qed.

End ScriptFacts.

(** ** Where the walk stops *)

Module RootFacts.
Import StrFacts PathFacts NameFacts.

Lemma rfind_succ_le c s : Str.rfind_succ c s <= String.length s.
Proof.
  induction s as [|x s IH]; simpl; [lia|].
  destruct (Str.rfind_succ c s); [destruct (Ascii.eqb x c)|]; lia.
Qed.

Lemma slice_to_length i s : String.length (Str.slice_to i s) <= i.
Proof.
  revert i. induction s as [|x s IH]; intros [|i]; unfold Str.slice_to; simpl; try lia.
  specialize (IH i). unfold Str.slice_to in IH. lia.
Qed.

Lemma rfind_succ_full c s :
  Str.rfind_succ c s = String.length s -> s = "" \/ Str.endswith_char c s = true.
Proof.
  induction s as [|x s IH]; [now left|]. intros H. right.
  cbn [Str.rfind_succ String.length] in H.
  destruct (Str.rfind_succ c s) as [|i] eqn:E.
  - destruct (Ascii.eqb x c) eqn:Hx; [|discriminate].
    destruct s; [simpl; exact Hx | simpl in H; lia].
  - assert (Hs : S i = String.length s) by lia.
    destruct (IH Hs) as [->|He]; [discriminate E|].
    destruct s; [discriminate | exact He].
Qed.

Lemma rstrip_fixed c s : Str.rstrip c s = s -> Str.endswith_char c s = false.
Proof.
  induction s as [|x s IH]; [reflexivity|]. intros H. cbn [Str.rstrip] in H.
  destruct (Str.rstrip c s) as [|r0 r] eqn:E.
  - destruct (Ascii.eqb x c) eqn:Hx; [discriminate|].
    inversion H; subst. simpl. exact Hx.
  - inversion H as [Hs]. rewrite <- Hs in *.
    change (Str.endswith_char c (String r0 r) = false). apply IH. reflexivity.
Qed.

Lemma all_char_ends c s :
  Str.all_char c s = true -> s = "" \/ Str.endswith_char c s = true.
Proof.
  induction s as [|x s IH]; [now left|]. intros H. right. simpl in H.
  apply andb_true_iff in H as [Hx Hs]. destruct (IH Hs) as [->|He]; [exact Hx|].
  destruct s; [discriminate | exact He].
Qed.

(** [dirname] leaves a path alone exactly when it is made of separators
    only: for an absolute path, when it is a root ([/] or [//]). *)
Lemma dirname_fixed_iff p :
  Path.dirname p = p <-> Str.all_char Path.sep p = true.
Proof.
  split.
  - unfold Path.dirname. intros H.
    pose proof (slice_to_prefix (Str.rfind_succ Path.sep p) p) as Hpre.
    destruct (Str.nonempty _ && negb _) eqn:E.
    + exfalso.
      pose proof (rstrip_prefix Path.sep (Str.slice_to (Str.rfind_succ Path.sep p) p)) as Hr.
      rewrite H in Hr.
      assert (Hhead : Str.slice_to (Str.rfind_succ Path.sep p) p = p).
      { apply is_prefix_same_length; [exact Hpre|].
        apply is_prefix_length in Hpre. apply is_prefix_length in Hr. lia. }
      rewrite Hhead in H, E.
      assert (Hi : Str.rfind_succ Path.sep p = String.length p).
      { pose proof (rfind_succ_le Path.sep p).
        pose proof (slice_to_length (Str.rfind_succ Path.sep p) p) as Hl.
        rewrite Hhead in Hl. lia. }
      apply rstrip_fixed in H.
      destruct (rfind_succ_full _ _ Hi) as [->|He]; [discriminate | congruence].
    + rewrite H in E. apply andb_false_iff in E as [E|E].
      * destruct p; [reflexivity | discriminate].
      * now apply negb_false_iff in E.
  - intros Hall. unfold Path.dirname.
    destruct (all_char_ends _ _ Hall) as [->|He]; [reflexivity|].
    rewrite (rfind_succ_ends _ _ He). unfold Str.slice_to. rewrite substring_full.
    now rewrite Hall, andb_false_r.
Qed.

End RootFacts.

(** ** What a run asks for *)

Module LookupFacts.
Import Common MonadFacts StrFacts PathFacts WalkFacts ResolveFacts NameFacts RunFacts
       ScriptFacts.
Local Open Scope list_scope.

Lemma test_find_asks markers start w :
  Forall (fun e => exists m, In m markers /\ asks_for m e)
         (effects (TestPy.find_project_root_with markers start) w).
Proof.
  destruct (test_find_run markers start w) as (t & r & H & _ & Ha).
  unfold effects. now rewrite H.
Qed.

Lemma spotless_find_asks markers w :
  Forall (fun e => exists m, In m markers /\ asks_for m e)
         (effects (SpotlessApply.find_project_root_with markers) w).
Proof.
  destruct (spotless_find_run markers w) as (t & r & H & _ & Ha).
  unfold effects. now rewrite H.
Qed.

Lemma test_find_no_spawn markers start w :
  no_spawn (effects (TestPy.find_project_root_with markers start) w).
Proof. apply fs_probes_no_spawn, test_find_probes. Qed.

Lemma spotless_find_no_spawn markers w :
  no_spawn (effects (SpotlessApply.find_project_root_with markers) w).
Proof. apply fs_probes_no_spawn, spotless_find_probes. Qed.

Lemma test_which_no_spawn names dirpath w :
  no_spawn (effects (TestPy.which_in_dir names dirpath) w).
Proof.
  destruct (test_which_in_dir_run w names dirpath) as (t & t' & H & _ & _ & _ & Hs & _).
  unfold effects. now rewrite H.
Qed.

Lemma spotless_which_no_spawn names dirpath w :
  no_spawn (effects (SpotlessApply.which_in_dir names dirpath) w).
Proof.
  destruct (spotless_which_in_dir_run w names dirpath) as (t & t' & H & _ & _ & _ & Hs & _).
  unfold effects. now rewrite H.
Qed.

Lemma test_which_asks names dirpath w :
  Forall (fun e => exists n, In n names /\ asks_for n e)
         (effects (TestPy.which_in_dir names dirpath) w).
Proof.
  destruct (test_which_in_dir_run w names dirpath) as (t & t' & H & _ & _ & _ & _ & Ha).
  unfold effects. now rewrite H.
Qed.

Lemma spotless_which_asks names dirpath w :
  Forall (fun e => exists n, In n names /\ asks_for n e)
         (effects (SpotlessApply.which_in_dir names dirpath) w).
Proof.
  destruct (spotless_which_in_dir_run w names dirpath) as (t & t' & H & _ & _ & _ & _ & Ha).
  unfold effects. now rewrite H.
Qed.

(** The Maven names and the Gradle names are different files. *)
Lemma maven_not_gradle e : maven_lookup e -> ~ gradle_lookup e.
Proof.
  intros (n & Hn & Ha) (n' & Hn' & Ha').
  assert (E : n = n').
  { apply (asks_for_inj n n' e); [| |exact Ha|exact Ha'].
    - simpl in Hn. repeat (destruct Hn as [<-|Hn]; [reflexivity|]). contradiction.
    - simpl in Hn'. repeat (destruct Hn' as [<-|Hn']; [reflexivity|]). contradiction. }
  subst n'. simpl in Hn, Hn'.
  repeat (destruct Hn as [<-|Hn]; [repeat (destruct Hn' as [E|Hn']; [discriminate E|]); contradiction|]).
  contradiction.
Qed.

Lemma printed_not_gradle e : fs_probe e = false -> searched_path e = false -> ~ gradle_lookup e.
Proof.
  intros Hp Hs (n & _ & [->|(d & [->| ->])]); discriminate.
Qed.

Lemma markers_are_maven e :
  (exists m, In m MAVEN_MARKERS /\ asks_for m e) -> maven_lookup e.
Proof. intros (m & Hin & Ha). exists m. split; [apply in_or_app; now left | exact Ha]. Qed.

Lemma wrappers_are_maven e :
  (exists n, In n MAVEN_WRAPPERS /\ asks_for n e) -> maven_lookup e.
Proof. intros (m & Hin & Ha). exists m. split; [apply in_or_app; now right | exact Ha]. Qed.

(** A trace made of the Maven walk, a line, the Maven resolution and a
    line has nothing of Gradle in it. *)
Lemma maven_only_trace t1 l1 t2 e2 :
  Forall (fun e => exists m, In m MAVEN_MARKERS /\ asks_for m e) t1 ->
  Forall (fun e => exists n, In n MAVEN_WRAPPERS /\ asks_for n e) t2 ->
  fs_probe e2 = false -> searched_path e2 = false ->
  Forall (fun e => ~ gradle_lookup e) (t1 ++ [EvStdout l1] ++ t2 ++ [e2]).
Proof.
  intros H1 H2 Hp Hs.
  apply Forall_app; split; [|apply Forall_app; split; [|apply Forall_app; split]].
  - eapply Forall_impl; [|exact H1]. intros e He.
    now apply maven_not_gradle, markers_are_maven.
  - constructor; [now apply printed_not_gradle | constructor].
  - eapply Forall_impl; [|exact H2]. intros e He.
    now apply maven_not_gradle, wrappers_are_maven.
  - constructor; [now apply printed_not_gradle | constructor].
Qed.

(** *** The script-file convention of [test.py] *)

Lemma lower_append a b : Str.lower (a ++ b)%string = (Str.lower a ++ Str.lower b)%string.
Proof. induction a as [|c a IH]; simpl; [reflexivity | now rewrite IH]. Qed.

Lemma lower_length a : String.length (Str.lower a) = String.length a.
Proof. induction a as [|c a IH]; simpl; [reflexivity | now rewrite IH]. Qed.

Lemma substring_skip_more a b n m :
  substring (String.length a + n) m (a ++ b)%string = substring n m b.
Proof. induction a as [|c a IH]; simpl; [reflexivity | exact IH]. Qed.

Lemma endswith_append a b suf :
  Str.endswith b suf = true -> Str.endswith (a ++ b)%string suf = true.
Proof.
  unfold Str.endswith. rewrite length_append.
  destruct (Nat.leb (String.length suf) (String.length b)) eqn:E; [|discriminate].
  apply Nat.leb_le in E. intros H.
  replace (Nat.leb (String.length suf) (String.length a + String.length b)) with true
    by (symmetry; apply Nat.leb_le; lia).
  replace (String.length a + String.length b - String.length suf)
    with (String.length a + (String.length b - String.length suf)) by lia.
  now rewrite substring_skip_more.
Qed.

Lemma join_ends_with_name dir n : exists a, Path.join dir n = (a ++ n)%string.
Proof.
  unfold Path.join. destruct (Str.startswith_char Path.sep n); [now exists ""%string|].
  destruct (negb _ || _); [now exists dir|].
  exists (dir ++ String Path.sep "")%string. now rewrite append_assoc.
Qed.

(** A name with a script-file ending makes [dir/name] one too. *)
Lemma script_ending_of_candidate dir n sufs :
  Str.endswith_any (Str.lower n) sufs = true ->
  Str.endswith_any (Str.lower (Path.join dir n)) sufs = true.
Proof.
  unfold Str.endswith_any. intros H. apply existsb_exists in H as (suf & Hin & Hs).
  apply existsb_exists. exists suf. split; [exact Hin|].
  destruct (join_ends_with_name dir n) as (a & ->).
  rewrite lower_append. now apply endswith_append.
Qed.

(** In [test.py] a [.bat] or [.cmd] that exists is taken, execute bit or
    not; a file without such an ending needs the bit. *)
Lemma test_py_accepts_script_ending w dir n :
  path_exists w (Path.join dir n) = true ->
  Str.endswith_any (Str.lower n) [".bat"; ".cmd"]%string = true ->
  invocable_test_py w (Path.join dir n) = true.
Proof.
  intros He Hs. unfold invocable_test_py.
  now rewrite He, (script_ending_of_candidate dir n _ Hs), orb_true_r.
Qed.

Lemma test_py_needs_bit_otherwise w c :
  Str.endswith_any (Str.lower c) [".bat"; ".cmd"]%string = false ->
  invocable_test_py w c = path_exists w c && access_x_ok w c.
Proof. intros Hs. unfold invocable_test_py. now rewrite Hs, orb_false_r. Qed.

End LookupFacts.

(** * The properties of the specification *)

Import Common MonadFacts StrFacts PathFacts WalkFacts ResolveFacts NameFacts RunFacts
       ScriptFacts RootFacts LookupFacts.
Local Open Scope list_scope.

(** C1. Closest ancestor wins. Let [cur] be the absolute directory the walk
    starts from. If a marker exists in the ancestor [d] levels above [cur]
    and in no ancestor at a smaller depth, [find_project_root_with] returns
    exactly that ancestor, in [test.py] (for every [start] that resolves to
    [cur]) and in [spotless_apply.py]; and the walk only looks upward: every
    probe is for a marker directly under one of the ancestors at depth 0 to
    [d]. *)
Theorem closest_ancestor_wins :
  forall (w : World) (markers : list string) (cur : string) (d : nat),
    marker_at w markers (Path.ancestor d cur) = true ->
    (forall k, k < d -> marker_at w markers (Path.ancestor k cur) = false) ->
    (forall start,
        test_py_start w start = cur ->
        outcome (TestPy.find_project_root_with markers start) w
        = Ret (Some (Path.ancestor d cur))
        /\ Forall (marker_probe markers cur d)
                  (effects (TestPy.find_project_root_with markers start) w))
    /\ (spotless_start w = cur ->
        outcome (SpotlessApply.find_project_root_with markers) w
        = Ret (Some (Path.ancestor d cur))
        /\ Forall (marker_probe markers cur d)
                  (effects (SpotlessApply.find_project_root_with markers) w)).
Proof.
  intros w markers cur d Hat Hbelow.
  destruct (find_loop_closest w markers d cur (turns cur) (turns_enough cur) Hat Hbelow)
    as (t & Ht & Hp).
  split.
  - intros start <-. unfold outcome, effects. rewrite test_find_eq, Ht. auto.
  - intros <-. unfold outcome, effects. rewrite spotless_find_eq, Ht. auto.
Qed.

Lemma closest_ancestor_wins_witness :
  outcome (TestPy.find_project_root_with MAVEN_MARKERS None)
          (Sample.nested_maven (Completed 0)) = Ret (Some "/home/u/proj"%string)
  /\ outcome (SpotlessApply.find_project_root_with MAVEN_MARKERS)
             (Sample.nested_maven (Completed 0)) = Ret (Some "/home/u/proj"%string).
Proof.
  destruct (closest_ancestor_wins (Sample.nested_maven (Completed 0)) MAVEN_MARKERS
              "/home/u/proj/src/main"%string 2) as [Ht Hs].
  - reflexivity.
  - intros [|[|k]] Hk; [reflexivity | reflexivity | exfalso; lia].
  - split; [apply (Ht None); reflexivity | apply Hs; reflexivity].
Defined.

(** C2. An in-directory candidate wins over the search path. Whenever some
    name of the list is acceptable inside [dirpath], [which_in_dir] returns
    [dirpath/first] for the first such name in list order, and the search
    path is never consulted; this holds whatever the search path knows about
    earlier names, in both scripts with their own acceptance test. In every
    case the run is the in-directory pass over the list followed by the
    search-path lookups. *)
Theorem in_directory_candidate_wins :
  forall (w : World) (names : list string) (dirpath name : string),
    In name names ->
    (invocable_test_py w (Path.join dirpath name) = true ->
     exists first,
       find (fun n => invocable_test_py w (Path.join dirpath n)) names = Some first
       /\ outcome (TestPy.which_in_dir names dirpath) w
          = Ret (Some (Path.join dirpath first))
       /\ no_which (effects (TestPy.which_in_dir names dirpath) w))
    /\ (invocable_spotless w (Path.join dirpath name) = true ->
        exists first,
          find (fun n => invocable_spotless w (Path.join dirpath n)) names = Some first
          /\ outcome (SpotlessApply.which_in_dir names dirpath) w
             = Ret (Some (Path.join dirpath first))
          /\ no_which (effects (SpotlessApply.which_in_dir names dirpath) w))
    /\ (exists t t',
          effects (TestPy.which_in_dir names dirpath) w = t ++ t'
          /\ forallb fs_probe t = true /\ Forall (path_lookup names) t')
    /\ (exists t t',
          effects (SpotlessApply.which_in_dir names dirpath) w = t ++ t'
          /\ forallb fs_probe t = true /\ Forall (path_lookup names) t').
Proof.
  intros w names dirpath name Hin.
  destruct (test_which_in_dir_run w names dirpath) as (t & t' & Ht & Hf & Hp & Hnil & _).
  destruct (spotless_which_in_dir_run w names dirpath)
    as (s & s' & Hs & Hsf & Hsp & Hsnil & _).
  unfold outcome, effects. rewrite Ht, Hs. cbn [fst snd].
  rewrite find_map_first in Ht, Hnil |- *. rewrite find_map_first in Hs, Hsnil |- *.
  repeat split.
  - intros Hacc.
    destruct (find (fun n => invocable_test_py w (Path.join dirpath n)) names)
      as [first|] eqn:Hfind.
    + exists first. cbn in *. rewrite Hnil by discriminate. rewrite app_nil_r.
      repeat split. now apply fs_probes_no_which.
    + apply find_none with (x := name) in Hfind; [congruence | exact Hin].
  - intros Hacc.
    destruct (find (fun n => invocable_spotless w (Path.join dirpath n)) names)
      as [first|] eqn:Hfind.
    + exists first. cbn in *. rewrite Hsnil by discriminate. rewrite app_nil_r.
      repeat split. now apply fs_probes_no_which.
    + apply find_none with (x := name) in Hfind; [congruence | exact Hin].
  - exists t, t'. auto.
  - exists s, s'. auto.
Qed.

Lemma in_directory_candidate_wins_witness :
  outcome (TestPy.which_in_dir MAVEN_WRAPPERS "/proj") Sample.local_mvn
  = Ret (Some "/proj/mvn"%string)
  /\ outcome (SpotlessApply.which_in_dir MAVEN_WRAPPERS "/proj") Sample.local_mvn
     = Ret (Some "/proj/mvn"%string)
  /\ shutil_which Sample.local_mvn "mvnw" = Some "/usr/bin/mvnw"%string.
Proof.
  destruct (in_directory_candidate_wins Sample.local_mvn MAVEN_WRAPPERS
              "/proj"%string "mvn"%string) as (Ht & Hs & _).
  - right. right. left. reflexivity.
  - destruct (Ht eq_refl) as (first & Hfirst & Hout & _).
    destruct (Hs eq_refl) as (first' & Hfirst' & Hout' & _).
    vm_compute in Hfirst. vm_compute in Hfirst'.
    inversion Hfirst; subst first. inversion Hfirst'; subst first'.
    split; [exact Hout | split; [exact Hout' | reflexivity]].
Defined.

(** C3. A script file without the execute bit. With [/proj/gradlew.bat]
    present, not executable, and nothing on the search path, [test.py]
    resolves it and runs it, while [spotless_apply.py], whose in-directory
    test is [exists and access(X_OK)] alone, finds no tool and exits with
    127. *)
Theorem script_without_execute_bit :
  outcome (TestPy.which_in_dir GRADLE_WRAPPERS "/proj") (Sample.bat_only (Completed 0))
  = Ret (Some "/proj/gradlew.bat"%string)
  /\ outcome (SpotlessApply.which_in_dir GRADLE_WRAPPERS "/proj")
             (Sample.bat_only (Completed 0))
     = Ret None
  /\ script (TestPy.main TestPy.default_args) (Sample.bat_only (Completed 0))
     = ([EvExists "/proj/pom.xml"; EvExists "/pom.xml"; EvExists "/proj/build.gradle";
         EvStdout "Projeto Gradle detectado em: /proj";
         EvExists "/proj/gradlew"; EvExists "/proj/gradlew.bat";
         EvAccess "/proj/gradlew.bat";
         EvStdout "Executando: /proj/gradlew.bat test";
         EvSpawn ["/proj/gradlew.bat"; "test"]%string "/proj"],
        SysExit 0)
  /\ snd (script SpotlessApply.main (Sample.bat_only (Completed 0))) = SysExit 127
  /\ no_spawn (fst (script SpotlessApply.main (Sample.bat_only (Completed 0)))).
Proof. repeat split; vm_compute; reflexivity. Qed.

(** C4. An interrupt while the child runs. [run_cmd] of [test.py] catches
    [KeyboardInterrupt], prints its line and returns 130, so the script
    exits with 130. [run_cmd] of [spotless_apply.py] has clauses for
    [FileNotFoundError] and [Exception] only; [KeyboardInterrupt] is not an
    [Exception], leaves [run_cmd] and [main] uncaught, and [sys.exit(rc)] is
    never reached. *)
Theorem interrupt_during_child :
  script (TestPy.main TestPy.default_args) (Sample.nested_maven (Failed KeyboardInterrupt))
  = ([EvExists "/home/u/proj/src/main/pom.xml"; EvExists "/home/u/proj/src/pom.xml";
      EvExists "/home/u/proj/pom.xml";
      EvStdout "Projeto Maven detectado em: /home/u/proj";
      EvExists "/home/u/proj/mvnw"; EvAccess "/home/u/proj/mvnw";
      EvStdout "Executando: /home/u/proj/mvnw test";
      EvSpawn ["/home/u/proj/mvnw"; "test"]%string "/home/u/proj";
      EvStderr "Interrompido pelo usuário."],
     SysExit 130)
  /\ script SpotlessApply.main (Sample.nested_maven (Failed KeyboardInterrupt))
     = ([EvExists "/home/u/proj/src/main/pom.xml"; EvExists "/home/u/proj/src/pom.xml";
         EvExists "/home/u/proj/pom.xml";
         EvStdout "Projeto Maven detectado em: /home/u/proj";
         EvExists "/home/u/proj/mvnw"; EvAccess "/home/u/proj/mvnw";
         EvStdout "Executando: /home/u/proj/mvnw spotless:apply";
         EvSpawn ["/home/u/proj/mvnw"; "spotless:apply"]%string "/home/u/proj"],
        Uncaught KeyboardInterrupt).
Proof. split; vm_compute; reflexivity. Qed.

(** In any world: what each [run_cmd] makes of an interrupted child. *)
Lemma run_cmd_interrupted w cmd cwd :
  subprocess_run w cmd cwd = Failed KeyboardInterrupt ->
  outcome (TestPy.run_cmd cmd cwd) w = Ret 130%Z
  /\ outcome (SpotlessApply.run_cmd cmd cwd) w = Raise KeyboardInterrupt.
Proof.
  intros H.
  destruct (test_run_cmd_shape w cmd cwd) as (t & r & Ht & _ & _ & Hk).
  destruct (spotless_run_cmd_shape w cmd cwd) as (s & r' & Hs & _ & _ & Hk').
  unfold outcome. rewrite Ht, Hs. cbn.
  destruct (Hk H) as [_ ->]. destruct (Hk' H) as [_ ->]. auto.
Qed.

(** C5. A Maven project without a Maven tool. When the Maven marker locates
    a root and no Maven candidate resolves, each script prints its
    diagnostic and exits with 127; the whole run is the Maven walk, one
    line, the Maven resolution and the diagnostic: no process is launched
    and nothing is asked about a Gradle build file or a Gradle tool. *)
Theorem missing_maven_tool_exits_127 :
  forall (w : World) (mroot : string),
    World_ok w ->
    (forall args,
        outcome (TestPy.find_project_root_with MAVEN_MARKERS (TestPy.cwd args)) w
        = Ret (Some mroot) ->
        outcome (TestPy.which_in_dir MAVEN_WRAPPERS mroot) w = Ret None ->
        script (TestPy.main args) w
        = (effects (TestPy.find_project_root_with MAVEN_MARKERS (TestPy.cwd args)) w
           ++ [EvStdout ("Projeto Maven detectado em: " ++ mroot)%string]
           ++ effects (TestPy.which_in_dir MAVEN_WRAPPERS mroot) w
           ++ [EvStderr "Maven (mvn/mvnw) não encontrado. Abortando."],
           SysExit 127)
        /\ no_spawn (fst (script (TestPy.main args) w))
        /\ Forall (fun e => ~ gradle_lookup e) (fst (script (TestPy.main args) w)))
    /\ (outcome (SpotlessApply.find_project_root_with MAVEN_MARKERS) w
        = Ret (Some mroot) ->
        outcome (SpotlessApply.which_in_dir MAVEN_WRAPPERS mroot) w = Ret None ->
        script SpotlessApply.main w
        = (effects (SpotlessApply.find_project_root_with MAVEN_MARKERS) w
           ++ [EvStdout ("Projeto Maven detectado em: " ++ mroot)%string]
           ++ effects (SpotlessApply.which_in_dir MAVEN_WRAPPERS mroot) w
           ++ [EvStderr "Maven (mvn/mvnw) não encontrado. Abortando."],
           SysExit 127)
        /\ no_spawn (fst (script SpotlessApply.main w))
        /\ Forall (fun e => ~ gradle_lookup e) (fst (script SpotlessApply.main w))).
Proof.
  intros w mroot Hok. split.
  - intros args Hfind Hwhich.
    rewrite (test_py_maven_no_tool w Hok args mroot Hfind Hwhich). cbn [fst].
    split; [reflexivity|]. split.
    + apply no_spawn_app; [apply test_find_no_spawn|].
      apply no_spawn_app; [reflexivity|].
      apply no_spawn_app; [apply test_which_no_spawn | reflexivity].
    + apply maven_only_trace;
        [apply test_find_asks | apply test_which_asks | reflexivity | reflexivity].
  - intros Hfind Hwhich.
    rewrite (spotless_maven_no_tool w mroot Hok Hfind Hwhich). cbn [fst].
    split; [reflexivity|]. split.
    + apply no_spawn_app; [apply spotless_find_no_spawn|].
      apply no_spawn_app; [reflexivity|].
      apply no_spawn_app; [apply spotless_which_no_spawn | reflexivity].
    + apply maven_only_trace;
        [apply spotless_find_asks | apply spotless_which_asks | reflexivity | reflexivity].
Qed.

Lemma missing_maven_tool_exits_127_witness :
  script (TestPy.main TestPy.default_args) Sample.maven_without_tool
  = ([EvExists "/proj/sub/pom.xml"; EvExists "/proj/pom.xml";
      EvStdout "Projeto Maven detectado em: /proj";
      EvExists "/proj/mvnw"; EvExists "/proj/mvnw.cmd"; EvExists "/proj/mvn";
      EvWhich "mvnw"; EvWhich "mvnw.cmd"; EvWhich "mvn";
      EvStderr "Maven (mvn/mvnw) não encontrado. Abortando."],
     SysExit 127)
  /\ snd (script SpotlessApply.main Sample.maven_without_tool) = SysExit 127
  /\ path_exists Sample.maven_without_tool "/proj/build.gradle" = true
  /\ shutil_which Sample.maven_without_tool "gradle" = Some "/usr/bin/gradle"%string.
Proof.
  destruct (missing_maven_tool_exits_127 Sample.maven_without_tool "/proj"%string eq_refl)
    as [Ht Hs].
  destruct (Ht TestPy.default_args eq_refl eq_refl) as (Hrun & _).
  destruct (Hs eq_refl eq_refl) as (Hrun' & _).
  split; [exact Hrun|]. split; [rewrite Hrun'; reflexivity|].
  split; reflexivity.
Defined.

(** C6. No project anywhere. When no Maven marker and no Gradle marker
    exists under any ancestor of the directory the walk starts from,
    [find_project_root_with] returns [None] for each kind and each script
    prints its line and exits with 0; its whole run is the two walks and that
    line, so no process is launched. *)
Theorem no_project_exits_0 :
  forall (w : World) (cur : string),
    (forall k, marker_at w MAVEN_MARKERS (Path.ancestor k cur) = false) ->
    (forall k, marker_at w GRADLE_MARKERS (Path.ancestor k cur) = false) ->
    (forall args,
        test_py_start w (TestPy.cwd args) = cur ->
        outcome (TestPy.find_project_root_with MAVEN_MARKERS (TestPy.cwd args)) w = Ret None
        /\ outcome (TestPy.find_project_root_with GRADLE_MARKERS (TestPy.cwd args)) w
           = Ret None
        /\ script (TestPy.main args) w
           = (effects (TestPy.find_project_root_with MAVEN_MARKERS (TestPy.cwd args)) w
              ++ effects (TestPy.find_project_root_with GRADLE_MARKERS (TestPy.cwd args)) w
              ++ [EvStdout ("Nenhum projeto Maven/Gradle encontrado a partir de "
                            ++ or_else (TestPy.cwd args) (getcwd w))%string],
              SysExit 0)
        /\ no_spawn (fst (script (TestPy.main args) w)))
    /\ (spotless_start w = cur ->
        outcome (SpotlessApply.find_project_root_with MAVEN_MARKERS) w = Ret None
        /\ outcome (SpotlessApply.find_project_root_with GRADLE_MARKERS) w = Ret None
        /\ script SpotlessApply.main w
           = (effects (SpotlessApply.find_project_root_with MAVEN_MARKERS) w
              ++ effects (SpotlessApply.find_project_root_with GRADLE_MARKERS) w
              ++ [EvStdout
                    "Nenhum projeto Maven/Gradle encontrado. Nenhuma ação necessária."],
              SysExit 0)
        /\ no_spawn (fst (script SpotlessApply.main w))).
Proof.
  intros w cur Hm Hg.
  destruct (find_loop_none w MAVEN_MARKERS (turns cur) cur (turns_enough cur) Hm)
    as (tm & Htm & _).
  destruct (find_loop_none w GRADLE_MARKERS (turns cur) cur (turns_enough cur) Hg)
    as (tg & Htg & _).
  split.
  - intros args <-.
    assert (Hom : outcome (TestPy.find_project_root_with MAVEN_MARKERS (TestPy.cwd args)) w
                  = Ret None) by (unfold outcome; now rewrite test_find_eq, Htm).
    assert (Hog : outcome (TestPy.find_project_root_with GRADLE_MARKERS (TestPy.cwd args)) w
                  = Ret None) by (unfold outcome; now rewrite test_find_eq, Htg).
    split; [exact Hom|]. split; [exact Hog|].
    rewrite (test_py_no_project w args Hom Hog). cbn [fst]. split; [reflexivity|].
    apply no_spawn_app; [apply test_find_no_spawn|].
    apply no_spawn_app; [apply test_find_no_spawn | reflexivity].
  - intros <-.
    assert (Hom : outcome (SpotlessApply.find_project_root_with MAVEN_MARKERS) w = Ret None)
      by (unfold outcome; now rewrite spotless_find_eq, Htm).
    assert (Hog : outcome (SpotlessApply.find_project_root_with GRADLE_MARKERS) w = Ret None)
      by (unfold outcome; now rewrite spotless_find_eq, Htg).
    split; [exact Hom|]. split; [exact Hog|].
    rewrite (spotless_no_project w Hom Hog). cbn [fst]. split; [reflexivity|].
    apply no_spawn_app; [apply spotless_find_no_spawn|].
    apply no_spawn_app; [apply spotless_find_no_spawn | reflexivity].
Qed.

Lemma sample_no_project_walk k :
  Path.ancestor k "/tmp/scratch" = "/tmp/scratch"%string
  \/ Path.ancestor k "/tmp/scratch" = "/tmp"%string
  \/ Path.ancestor k "/tmp/scratch" = "/"%string.
Proof.
  destruct k as [|[|k]]; [now left | right; now left | right; right].
  change (Path.ancestor k "/" = "/"%string). now apply ancestor_fixed.
Qed.

Lemma no_project_exits_0_witness :
  snd (script (TestPy.main TestPy.default_args) Sample.no_project) = SysExit 0
  /\ snd (script SpotlessApply.main Sample.no_project) = SysExit 0
  /\ no_spawn (fst (script (TestPy.main TestPy.default_args) Sample.no_project))
  /\ no_spawn (fst (script SpotlessApply.main Sample.no_project)).
Proof.
  assert (Hm : forall k, marker_at Sample.no_project MAVEN_MARKERS
                                   (Path.ancestor k "/tmp/scratch") = false).
  { intros k. destruct (sample_no_project_walk k) as [-> | [-> | ->]]; reflexivity. }
  assert (Hg : forall k, marker_at Sample.no_project GRADLE_MARKERS
                                   (Path.ancestor k "/tmp/scratch") = false).
  { intros k. destruct (sample_no_project_walk k) as [-> | [-> | ->]]; reflexivity. }
  destruct (no_project_exits_0 Sample.no_project "/tmp/scratch"%string Hm Hg) as [Ht Hs].
  destruct (Ht TestPy.default_args eq_refl) as (_ & _ & Hrun & Hno).
  destruct (Hs eq_refl) as (_ & _ & Hrun' & Hno').
  split; [now rewrite Hrun|]. split; [now rewrite Hrun'|]. split; assumption.
Defined.

(** C7. Dry run. In [test.py] with [--dry-run], when a root is located and
    a tool resolves, the script prints the command it would run and the
    directory it would run it in, exits with 0 and launches no process; for
    a Maven root, and for a Gradle root when there is no Maven one. *)
Theorem dry_run_launches_nothing :
  forall (w : World) (args : TestPy.Namespace) (root tool : string),
    World_ok w ->
    TestPy.dry_run args = true ->
    (outcome (TestPy.find_project_root_with MAVEN_MARKERS (TestPy.cwd args)) w
     = Ret (Some root) ->
     outcome (TestPy.which_in_dir MAVEN_WRAPPERS root) w = Ret (Some tool) ->
     script (TestPy.main args) w
     = (effects (TestPy.find_project_root_with MAVEN_MARKERS (TestPy.cwd args)) w
        ++ [EvStdout ("Projeto Maven detectado em: " ++ root)%string]
        ++ effects (TestPy.which_in_dir MAVEN_WRAPPERS root) w
        ++ [EvStdout ("[dry-run] Comando: " ++ tool ++ " " ++ TestPy.task args
                      ++ " cwd= " ++ root)%string],
        SysExit 0)
     /\ no_spawn (fst (script (TestPy.main args) w)))
    /\ (outcome (TestPy.find_project_root_with MAVEN_MARKERS (TestPy.cwd args)) w
        = Ret None ->
        outcome (TestPy.find_project_root_with GRADLE_MARKERS (TestPy.cwd args)) w
        = Ret (Some root) ->
        outcome (TestPy.which_in_dir GRADLE_WRAPPERS root) w = Ret (Some tool) ->
        script (TestPy.main args) w
        = (effects (TestPy.find_project_root_with MAVEN_MARKERS (TestPy.cwd args)) w
           ++ effects (TestPy.find_project_root_with GRADLE_MARKERS (TestPy.cwd args)) w
           ++ [EvStdout ("Projeto Gradle detectado em: " ++ root)%string]
           ++ effects (TestPy.which_in_dir GRADLE_WRAPPERS root) w
           ++ [EvStdout ("[dry-run] Comando: " ++ tool ++ " " ++ TestPy.task args
                         ++ " cwd= " ++ root)%string],
           SysExit 0)
        /\ no_spawn (fst (script (TestPy.main args) w))).
Proof.
  intros w args root tool Hok Hdry. split.
  - intros Hfind Hwhich.
    rewrite (test_py_maven_dry_run w Hok args root tool Hdry Hfind Hwhich). cbn [fst].
    split; [reflexivity|].
    apply no_spawn_app; [apply test_find_no_spawn|].
    apply no_spawn_app; [reflexivity|].
    apply no_spawn_app; [apply test_which_no_spawn | reflexivity].
  - intros Hm Hfind Hwhich.
    rewrite (test_py_gradle_dry_run w Hok args root tool Hdry Hm Hfind Hwhich). cbn [fst].
    split; [reflexivity|].
    apply no_spawn_app; [apply test_find_no_spawn|].
    apply no_spawn_app; [apply test_find_no_spawn|].
    apply no_spawn_app; [reflexivity|].
    apply no_spawn_app; [apply test_which_no_spawn | reflexivity].
Qed.

Lemma dry_run_launches_nothing_witness :
  script (TestPy.main Sample.dry_args) (Sample.gradle_wrapper (Completed 0))
  = ([EvExists "/proj/app/pom.xml"; EvExists "/proj/pom.xml"; EvExists "/pom.xml";
      EvExists "/proj/app/build.gradle"; EvExists "/proj/app/build.gradle.kts";
      EvExists "/proj/build.gradle"; EvExists "/proj/build.gradle.kts";
      EvStdout "Projeto Gradle detectado em: /proj";
      EvExists "/proj/gradlew"; EvAccess "/proj/gradlew";
      EvStdout "[dry-run] Comando: /proj/gradlew test cwd= /proj"],
     SysExit 0)
  /\ snd (script (TestPy.main Sample.dry_args) (Sample.nested_maven (Completed 0)))
     = SysExit 0.
Proof.
  split.
  - destruct (dry_run_launches_nothing (Sample.gradle_wrapper (Completed 0)) Sample.dry_args
                "/proj"%string "/proj/gradlew"%string eq_refl eq_refl) as [_ Hg].
    destruct (Hg eq_refl eq_refl eq_refl) as [Hrun _]. exact Hrun.
  - destruct (dry_run_launches_nothing (Sample.nested_maven (Completed 0)) Sample.dry_args
                "/home/u/proj"%string "/home/u/proj/mvnw"%string eq_refl eq_refl) as [Hm _].
    destruct (Hm eq_refl eq_refl) as [Hrun _]. now rewrite Hrun.
Defined.

(** C8. The child's status is the script's status. When the child launched
    for [cmd] in [cwd] completes with status [rc], [run_cmd] returns [rc] in
    both scripts; and a run of either script that launched that child ends
    in [sys.exit(rc)]. *)
Theorem child_status_is_propagated :
  forall (w : World) (cmd : list string) (cwd : string) (rc : Z),
    subprocess_run w cmd cwd = Completed rc ->
    outcome (TestPy.run_cmd cmd cwd) w = Ret rc
    /\ outcome (SpotlessApply.run_cmd cmd cwd) w = Ret rc
    /\ (forall args,
           In (EvSpawn cmd cwd) (fst (script (TestPy.main args) w)) ->
           snd (script (TestPy.main args) w) = SysExit rc)
    /\ (In (EvSpawn cmd cwd) (fst (script SpotlessApply.main w)) ->
        snd (script SpotlessApply.main w) = SysExit rc).
Proof.
  intros w cmd cwd rc Hrc.
  assert (Ht : outcome (TestPy.run_cmd cmd cwd) w = Ret rc).
  { destruct (test_run_cmd_shape w cmd cwd) as (t & r & H & _ & Hdone & _).
    unfold outcome. rewrite H. cbn. now destruct (Hdone rc Hrc). }
  assert (Hs : outcome (SpotlessApply.run_cmd cmd cwd) w = Ret rc).
  { destruct (spotless_run_cmd_shape w cmd cwd) as (t & r & H & _ & Hdone & _).
    unfold outcome. rewrite H. cbn. now destruct (Hdone rc Hrc). }
  split; [exact Ht|]. split; [exact Hs|]. split.
  - intros args Hin.
    assert (E : snd (TestPy.main args w) = snd (TestPy.run_cmd cmd cwd w)).
    { apply launched_means_run; [apply test_py_launches| |].
      - intros c d. destruct (test_run_cmd_shape w c d) as (t & r & H & Hno & _).
        rewrite H. cbn [fst]. eexists _, _. split; [reflexivity | exact Hno].
      - unfold script in Hin. destruct (TestPy.main args w) as [t [rc'|e|]]; exact Hin. }
    unfold outcome in Ht. rewrite Ht in E. unfold script.
    destruct (TestPy.main args w) as [t r]. cbn in E. now subst r.
  - intros Hin.
    assert (E : snd (SpotlessApply.main w) = snd (SpotlessApply.run_cmd cmd cwd w)).
    { apply launched_means_run; [apply spotless_launches| |].
      - intros c d. destruct (spotless_run_cmd_shape w c d) as (t & r & H & Hno & _).
        rewrite H. cbn [fst]. eexists _, _. split; [reflexivity | exact Hno].
      - unfold script in Hin. destruct (SpotlessApply.main w) as [t [rc'|e|]]; exact Hin. }
    unfold outcome in Hs. rewrite Hs in E. unfold script.
    destruct (SpotlessApply.main w) as [t r]. cbn in E. now subst r.
Qed.

Lemma child_status_is_propagated_witness :
  script (TestPy.main TestPy.default_args) (Sample.nested_maven (Completed 3))
  = ([EvExists "/home/u/proj/src/main/pom.xml"; EvExists "/home/u/proj/src/pom.xml";
      EvExists "/home/u/proj/pom.xml";
      EvStdout "Projeto Maven detectado em: /home/u/proj";
      EvExists "/home/u/proj/mvnw"; EvAccess "/home/u/proj/mvnw";
      EvStdout "Executando: /home/u/proj/mvnw test";
      EvSpawn ["/home/u/proj/mvnw"; "test"]%string "/home/u/proj"],
     SysExit 3)
  /\ snd (script SpotlessApply.main (Sample.nested_maven (Completed 3))) = SysExit 3.
Proof.
  split.
  - destruct (child_status_is_propagated (Sample.nested_maven (Completed 3))
                ["/home/u/proj/mvnw"; "test"]%string "/home/u/proj"%string 3 eq_refl)
      as (_ & _ & Ht & _).
    specialize (Ht TestPy.default_args).
    rewrite (pair_eta (script (TestPy.main TestPy.default_args)
                              (Sample.nested_maven (Completed 3)))).
    rewrite Ht; [reflexivity|]. vm_compute. do 7 right. left. reflexivity.
  - destruct (child_status_is_propagated (Sample.nested_maven (Completed 3))
                ["/home/u/proj/mvnw"; "spotless:apply"]%string "/home/u/proj"%string 3
                eq_refl) as (_ & _ & _ & Hs).
    apply Hs. vm_compute. do 7 right. left. reflexivity.
Defined.

(** C9. The walk terminates. In any world and for any start,
    [find_project_root_with] returns (never runs out of turns, never
    raises) in both scripts. The loop needs at most one turn per character
    of [cur] plus one, and more turns change nothing: a turn that goes on
    replaces [cur] by [dirname cur], which is strictly shorter; [dirname cur]
    equals [cur] exactly when [cur] consists of separators only (the root),
    and there the loop returns [None] when no marker is found. *)
Theorem walk_terminates :
  forall (w : World) (markers : list string),
    (forall start,
        exists r, outcome (TestPy.find_project_root_with markers start) w = Ret r)
    /\ (exists r, outcome (SpotlessApply.find_project_root_with markers) w = Ret r)
    /\ (forall cur fuel,
           String.length cur < fuel ->
           (exists r, outcome (find_loop fuel markers cur) w = Ret r)
           /\ find_loop fuel markers cur w = find_loop (turns cur) markers cur w)
    /\ (forall cur,
           Path.dirname cur <> cur ->
           String.length (Path.dirname cur) < String.length cur)
    /\ (forall cur, Path.dirname cur = cur <-> Str.all_char Path.sep cur = true)
    /\ (forall cur fuel,
           Path.dirname cur = cur ->
           marker_at w markers cur = false ->
           outcome (find_loop (S fuel) markers cur) w = Ret None).
Proof.
  intros w markers. split; [|split; [|split; [|split; [|split]]]].
  - intros start. destruct (test_find_run markers start w) as (t & r & H & _).
    exists r. unfold outcome. now rewrite H.
  - destruct (spotless_find_run markers w) as (t & r & H & _).
    exists r. unfold outcome. now rewrite H.
  - intros cur fuel Hlt. split.
    + destruct (find_loop_returns w markers fuel cur Hlt) as (t & r & H & _).
      exists r. unfold outcome. now rewrite H.
    + apply find_loop_stable; [exact Hlt | apply turns_enough].
  - apply dirname_shorter.
  - apply dirname_fixed_iff.
  - intros cur fuel Hroot Hm.
    destruct (find_loop_at_root w markers fuel cur Hm Hroot) as (t & H & _).
    unfold outcome. now rewrite H.
Qed.

Lemma walk_terminates_witness :
  outcome (find_loop 100 GRADLE_MARKERS "/tmp/scratch") Sample.no_project = Ret None
  /\ String.length (Path.dirname "/tmp/scratch") < String.length "/tmp/scratch"
  /\ outcome (find_loop 1 GRADLE_MARKERS "/") Sample.no_project = Ret None.
Proof.
  destruct (walk_terminates Sample.no_project GRADLE_MARKERS) as (_ & _ & Hfuel & Hshort & _ & Hroot).
  split; [|split].
  - destruct (Hfuel "/tmp/scratch"%string 100) as [_ Hsame].
    + cbn. lia.
    + unfold outcome. rewrite Hsame. reflexivity.
  - apply Hshort. discriminate.
  - apply Hroot; reflexivity.
Defined.

(** C10. Resolution comes before the dry-run test. In [test.py] with
    [--dry-run], when a root is located and no tool resolves, the script
    prints the diagnostic and exits with 127; nothing of the dry-run branch
    is printed. For a Maven root, and for a Gradle root when there is no
    Maven one. *)
Theorem missing_tool_beats_dry_run :
  forall (w : World) (args : TestPy.Namespace) (root : string),
    World_ok w ->
    TestPy.dry_run args = true ->
    (outcome (TestPy.find_project_root_with MAVEN_MARKERS (TestPy.cwd args)) w
     = Ret (Some root) ->
     outcome (TestPy.which_in_dir MAVEN_WRAPPERS root) w = Ret None ->
     script (TestPy.main args) w
     = (effects (TestPy.find_project_root_with MAVEN_MARKERS (TestPy.cwd args)) w
        ++ [EvStdout ("Projeto Maven detectado em: " ++ root)%string]
        ++ effects (TestPy.which_in_dir MAVEN_WRAPPERS root) w
        ++ [EvStderr "Maven (mvn/mvnw) não encontrado. Abortando."],
        SysExit 127))
    /\ (outcome (TestPy.find_project_root_with MAVEN_MARKERS (TestPy.cwd args)) w
        = Ret None ->
        outcome (TestPy.find_project_root_with GRADLE_MARKERS (TestPy.cwd args)) w
        = Ret (Some root) ->
        outcome (TestPy.which_in_dir GRADLE_WRAPPERS root) w = Ret None ->
        script (TestPy.main args) w
        = (effects (TestPy.find_project_root_with MAVEN_MARKERS (TestPy.cwd args)) w
           ++ effects (TestPy.find_project_root_with GRADLE_MARKERS (TestPy.cwd args)) w
           ++ [EvStdout ("Projeto Gradle detectado em: " ++ root)%string]
           ++ effects (TestPy.which_in_dir GRADLE_WRAPPERS root) w
           ++ [EvStderr "Gradle (gradle/gradlew) não encontrado. Abortando."],
           SysExit 127)).
Proof.
  intros w args root Hok _. split.
  - apply test_py_maven_no_tool, Hok.
  - apply test_py_gradle_no_tool, Hok.
Qed.

Lemma missing_tool_beats_dry_run_witness :
  snd (script (TestPy.main Sample.dry_args) Sample.maven_without_tool) = SysExit 127
  /\ script (TestPy.main Sample.dry_args) Sample.gradle_without_tool
     = ([EvExists "/proj/pom.xml"; EvExists "/pom.xml";
         EvExists "/proj/build.gradle"; EvExists "/proj/build.gradle.kts";
         EvStdout "Projeto Gradle detectado em: /proj";
         EvExists "/proj/gradlew"; EvExists "/proj/gradlew.bat";
         EvExists "/proj/gradle"; EvExists "/proj/gradle.bat";
         EvWhich "gradlew"; EvWhich "gradlew.bat"; EvWhich "gradle"; EvWhich "gradle.bat";
         EvStderr "Gradle (gradle/gradlew) não encontrado. Abortando."],
        SysExit 127).
Proof.
  split.
  - destruct (missing_tool_beats_dry_run Sample.maven_without_tool Sample.dry_args
                "/proj"%string eq_refl eq_refl) as [Hm _].
    now rewrite (Hm eq_refl eq_refl).
  - destruct (missing_tool_beats_dry_run Sample.gradle_without_tool Sample.dry_args
                "/proj"%string eq_refl eq_refl) as [_ Hg].
    exact (Hg eq_refl eq_refl eq_refl).
Defined.

(** * Further properties of the code *)

(** ** More on the walk *)

Module WalkMore.
Import Common MonadFacts StrFacts PathFacts WalkFacts RunFacts.
Local Open Scope list_scope.

Section Walk.
Variable w : World.
Variable markers : list string.

Lemma upward_probe_here cur e :
  marker_probe markers cur 0 e -> upward_probe markers cur e.
Proof. intros (k & m & _ & Hin & ->). exists k, m. auto. Qed.

Lemma upward_probe_up cur e :
  upward_probe markers (Path.dirname cur) e -> upward_probe markers cur e.
Proof. intros (k & m & Hin & ->). exists (S k), m. auto. Qed.

(** Whatever the fuel, the loop only asks about markers under ancestors. *)
Lemma find_loop_probes fuel : forall cur,
  Forall (upward_probe markers cur) (fst (find_loop fuel markers cur w)).
Proof.
  induction fuel as [|fuel IH]; intros cur; [constructor|].
  destruct (marker_at w markers cur) eqn:Hm.
  - destruct (find_loop_found w markers fuel cur Hm) as (t & -> & Hp & _).
    eapply Forall_impl; [|exact Hp]. intros e. apply upward_probe_here.
  - destruct (string_dec (Path.dirname cur) cur) as [Hroot|Hup].
    + destruct (find_loop_at_root w markers fuel cur Hm Hroot) as (t & -> & Hp & _).
      eapply Forall_impl; [|exact Hp]. intros e. apply upward_probe_here.
    + destruct (find_loop_up w markers fuel cur Hm Hup) as (t & Hp & _ & ->).
      cbn [fst]. apply Forall_app. split.
      * eapply Forall_impl; [|exact Hp]. intros e. apply upward_probe_here.
      * eapply Forall_impl; [|apply IH]. intros e. apply upward_probe_up.
Qed.

(** What is returned is the closest ancestor holding a marker. *)
Lemma find_loop_minimal fuel : forall cur t r,
  find_loop fuel markers cur w = (t, Ret (Some r)) ->
  exists k, r = Path.ancestor k cur
            /\ marker_at w markers (Path.ancestor k cur) = true
            /\ forall j, j < k -> marker_at w markers (Path.ancestor j cur) = false.
Proof.
  induction fuel as [|fuel IH]; intros cur t r H; [discriminate|].
  destruct (marker_at w markers cur) eqn:Hm.
  - destruct (find_loop_found w markers fuel cur Hm) as (t' & Ht & _).
    rewrite Ht in H. inversion H; subst. exists 0. repeat split; [exact Hm|].
    intros j Hj. lia.
  - destruct (string_dec (Path.dirname cur) cur) as [Hroot|Hup].
    + destruct (find_loop_at_root w markers fuel cur Hm Hroot) as (t' & Ht & _). congruence.
    + destruct (find_loop_up w markers fuel cur Hm Hup) as (t' & _ & _ & Ht).
      rewrite Ht in H. inversion H as [[Htr Hres]].
      destruct (IH (Path.dirname cur) (fst (find_loop fuel markers (Path.dirname cur) w)) r)
        as (k & Hk & Hmk & Hlow).
      { rewrite <- Hres. apply pair_eta. }
      exists (S k). repeat split; [exact Hk | exact Hmk |].
      intros [|j] Hj; [exact Hm | apply Hlow; lia].
Qed.

(** [None] is returned only when no ancestor holds a marker. *)
Lemma find_loop_none_inv fuel : forall cur t,
  find_loop fuel markers cur w = (t, Ret None) ->
  forall k, marker_at w markers (Path.ancestor k cur) = false.
Proof.
  induction fuel as [|fuel IH]; intros cur t H; [discriminate|].
  destruct (marker_at w markers cur) eqn:Hm.
  - destruct (find_loop_found w markers fuel cur Hm) as (t' & Ht & _). congruence.
  - destruct (string_dec (Path.dirname cur) cur) as [Hroot|Hup].
    + intros k. now rewrite (ancestor_fixed k cur Hroot).
    + destruct (find_loop_up w markers fuel cur Hm Hup) as (t' & _ & _ & Ht).
      rewrite Ht in H. inversion H as [[Htr Hres]].
      intros [|k]; [exact Hm|]. simpl.
      apply (IH (Path.dirname cur) (fst (find_loop fuel markers (Path.dirname cur) w))).
      rewrite <- Hres. apply pair_eta.
Qed.

End Walk.

(** With no marker to look for, nothing is asked. *)
Lemma find_loop_no_markers w fuel cur :
  String.length cur < fuel -> find_loop fuel [] cur w = ([], Ret None).
Proof.
  intros Hlt.
  destruct (find_loop_none w [] fuel cur Hlt (fun _ => eq_refl)) as (t & Ht & _).
  pose proof (find_loop_probes w [] fuel cur) as Hp. rewrite Ht in Hp. cbn [fst] in Hp.
  destruct t as [|e t]; [exact Ht|].
  inversion Hp as [|? ? (k & m & [] & _) _].
Qed.

End WalkMore.

(** ** More on resolving the tool *)

Module ResolveMore.
Import Common MonadFacts StrFacts PathFacts ResolveFacts RunFacts LookupFacts.
Local Open Scope list_scope.

Section Resolve.
Variable w : World.

(** The search-path pass stops at the first name that is known. *)
Lemma path_pass_first pre n post :
  (forall m, In m pre -> truthy (shutil_which w m) = false) ->
  truthy (shutil_which w n) = true ->
  path_pass (pre ++ n :: post) w = (map EvWhich (pre ++ [n]), Ret (shutil_which w n)).
Proof.
  intros Hpre Hn. induction pre as [|m pre IH]; simpl.
  - unfold bind, which. now rewrite Hn.
  - unfold bind, which. rewrite (Hpre m (or_introl eq_refl)).
    rewrite IH by (intros m' Hm'; apply Hpre; now right). reflexivity.
Qed.

(** The search-path pass asks for every name when none is known. *)
Lemma path_pass_all names :
  (forall m, In m names -> truthy (shutil_which w m) = false) ->
  path_pass names w = (map EvWhich names, Ret None).
Proof.
  intros Hall. induction names as [|m ms IH]; simpl; [reflexivity|].
  unfold bind, which. rewrite (Hall m (or_introl eq_refl)).
  rewrite IH by (intros m' Hm'; apply Hall; now right). reflexivity.
Qed.

Lemma find_none_iff {A} (p : A -> bool) (l : list A) :
  find p l = None <-> forall x, In x l -> p x = false.
Proof.
  split; [intros H x Hx; now apply (find_none p l H)|].
  induction l as [|a l IH]; intros H; simpl; [reflexivity|].
  rewrite (H a (or_introl eq_refl)). apply IH. intros x Hx. apply H. now right.
Qed.

Lemma first_on_path_none names :
  first_on_path w names = None <-> forall n, In n names -> truthy (shutil_which w n) = false.
Proof.
  unfold first_on_path. split.
  - destruct (find _ names) as [n|] eqn:Hf.
    + intros E. apply find_some in Hf as [_ Hn]. rewrite E in Hn. discriminate.
    + intros _. now apply find_none_iff.
  - intros H. apply find_none_iff in H. now rewrite H.
Qed.

(** In the in-directory pass the execute bit of a path is asked for only
    after the path was found to exist. *)
Lemma test_dir_pass_access names dirpath :
  Forall (fun e => forall p, e = EvAccess p -> path_exists w p = true)
         (fst (TestPy.dir_pass names dirpath w)).
Proof.
  induction names as [|n ns IH]; simpl; [constructor|].
  unfold bind, os_path_exists, os_access_x_ok.
  destruct (path_exists w (Path.join dirpath n)) eqn:He; simpl.
  - destruct (access_x_ok w (Path.join dirpath n) || _); simpl.
    + repeat constructor; [discriminate | intros p E; now inversion E; subst].
    + destruct (TestPy.dir_pass ns dirpath w) as [t r]. cbn [fst] in *.
      repeat constructor; [discriminate | intros p E; now inversion E; subst | exact IH].
  - destruct (TestPy.dir_pass ns dirpath w) as [t r]. cbn [fst] in *.
    constructor; [discriminate | exact IH].
Qed.

Lemma spotless_dir_pass_access names dirpath :
  Forall (fun e => forall p, e = EvAccess p -> path_exists w p = true)
         (fst (SpotlessApply.dir_pass names dirpath w)).
Proof.
  induction names as [|n ns IH]; simpl; [constructor|].
  unfold bind, os_path_exists, os_access_x_ok.
  destruct (path_exists w (Path.join dirpath n)) eqn:He; simpl.
  - destruct (access_x_ok w (Path.join dirpath n)); simpl.
    + repeat constructor; [discriminate | intros p E; now inversion E; subst].
    + destruct (SpotlessApply.dir_pass ns dirpath w) as [t r]. cbn [fst] in *.
      repeat constructor; [discriminate | intros p E; now inversion E; subst | exact IH].
  - destruct (SpotlessApply.dir_pass ns dirpath w) as [t r]. cbn [fst] in *.
    constructor; [discriminate | exact IH].
Qed.

Lemma path_pass_no_access names :
  Forall (fun e => forall p, e = EvAccess p -> path_exists w p = true)
         (fst (path_pass names w)).
Proof.
  destruct (path_pass_run w names) as (t & -> & Hp & _). cbn [fst].
  eapply Forall_impl; [|exact Hp]. intros e (n & _ & ->) p E. discriminate.
Qed.

(** The two in-directory passes are one and the same unless some candidate
    exists, lacks the execute bit and has a script-file ending. *)
Lemma dir_pass_agree names dirpath :
  (forall n, In n names ->
             path_exists w (Path.join dirpath n) = true ->
             access_x_ok w (Path.join dirpath n) = false ->
             Str.endswith_any (Str.lower (Path.join dirpath n)) [".bat"; ".cmd"]%string
             = false) ->
  TestPy.dir_pass names dirpath w = SpotlessApply.dir_pass names dirpath w.
Proof.
  intros H. induction names as [|n ns IH]; [reflexivity|].
  cbn [TestPy.dir_pass SpotlessApply.dir_pass].
  assert (IH' : TestPy.dir_pass ns dirpath w = SpotlessApply.dir_pass ns dirpath w)
    by (apply IH; intros m Hm; apply H; now right).
  unfold bind, os_path_exists, os_access_x_ok.
  destruct (path_exists w (Path.join dirpath n)) eqn:He; [|now rewrite IH'].
  destruct (access_x_ok w (Path.join dirpath n)) eqn:Hx; [reflexivity|].
  cbn [orb]. now rewrite (H n (or_introl eq_refl) He Hx), IH'.
Qed.

End Resolve.

End ResolveMore.

(** ** More on the two orchestrators *)

Module ScriptMore.
Import Common MonadFacts StrFacts PathFacts WalkFacts ResolveFacts NameFacts RunFacts
       ScriptFacts LookupFacts.
Local Open Scope list_scope.

(** [run_cmd] of [test.py] on a command with a first word, case by case. *)
Lemma test_run_cmd_table w c rest cwd :
  TestPy.run_cmd (c :: rest) cwd w
  = match subprocess_run w (c :: rest) cwd with
    | Completed rc =>
        ([EvStdout ("Executando: " ++ String.concat " " (c :: rest))%string;
          EvSpawn (c :: rest) cwd], Ret rc)
    | Failed FileNotFoundError =>
        ([EvStdout ("Executando: " ++ String.concat " " (c :: rest))%string;
          EvSpawn (c :: rest) cwd;
          EvStderr ("Comando não encontrado: " ++ c)%string], Ret 127%Z)
    | Failed KeyboardInterrupt =>
        ([EvStdout ("Executando: " ++ String.concat " " (c :: rest))%string;
          EvSpawn (c :: rest) cwd;
          EvStderr "Interrompido pelo usuário."], Ret 130%Z)
    | Failed (OtherException msg) =>
        ([EvStdout ("Executando: " ++ String.concat " " (c :: rest))%string;
          EvSpawn (c :: rest) cwd;
          EvStderr ("Erro ao executar comando: " ++ msg)%string], Ret 1%Z)
    | Failed (OtherBaseException msg) =>
        ([EvStdout ("Executando: " ++ String.concat " " (c :: rest))%string;
          EvSpawn (c :: rest) cwd], Raise (OtherBaseException msg))
    end.
Proof.
  unfold TestPy.run_cmd. rewrite bind_print. unfold try_except, run_process.
  destruct (subprocess_run w (c :: rest) cwd) as [rc|[| |msg|msg]]; reflexivity.
Qed.

(** [run_cmd] of [spotless_apply.py] on a command with a first word. *)
Lemma spotless_run_cmd_table w c rest cwd :
  SpotlessApply.run_cmd (c :: rest) cwd w
  = match subprocess_run w (c :: rest) cwd with
    | Completed rc =>
        ([EvStdout ("Executando: " ++ String.concat " " (c :: rest))%string;
          EvSpawn (c :: rest) cwd], Ret rc)
    | Failed FileNotFoundError =>
        ([EvStdout ("Executando: " ++ String.concat " " (c :: rest))%string;
          EvSpawn (c :: rest) cwd;
          EvStderr ("Comando não encontrado: " ++ c)%string], Ret 127%Z)
    | Failed KeyboardInterrupt =>
        ([EvStdout ("Executando: " ++ String.concat " " (c :: rest))%string;
          EvSpawn (c :: rest) cwd], Raise KeyboardInterrupt)
    | Failed (OtherException msg) =>
        ([EvStdout ("Executando: " ++ String.concat " " (c :: rest))%string;
          EvSpawn (c :: rest) cwd;
          EvStderr ("Erro ao executar comando: " ++ msg)%string], Ret 1%Z)
    | Failed (OtherBaseException msg) =>
        ([EvStdout ("Executando: " ++ String.concat " " (c :: rest))%string;
          EvSpawn (c :: rest) cwd], Raise (OtherBaseException msg))
    end.
Proof.
  unfold SpotlessApply.run_cmd. rewrite bind_print. unfold try_except, run_process.
  destruct (subprocess_run w (c :: rest) cwd) as [rc|[| |msg|msg]]; reflexivity.
Qed.

(** After the launch either [run_cmd] only prints. *)
Lemma test_run_cmd_trace w cmd cwd :
  exists l t, fst (TestPy.run_cmd cmd cwd w) = EvStdout l :: EvSpawn cmd cwd :: t
              /\ forallb printed t = true.
Proof.
  unfold TestPy.run_cmd. rewrite bind_print. unfold try_except, run_process.
  destruct (subprocess_run w cmd cwd) as [rc|[| |msg|msg]]; cbn;
    try (eexists _, _; split; reflexivity).
  destruct cmd as [|c cmd]; cbn; eexists _, _; split; reflexivity.
Qed.

Lemma spotless_run_cmd_trace w cmd cwd :
  exists l t, fst (SpotlessApply.run_cmd cmd cwd w) = EvStdout l :: EvSpawn cmd cwd :: t
              /\ forallb printed t = true.
Proof.
  unfold SpotlessApply.run_cmd. rewrite bind_print. unfold try_except, run_process.
  destruct (subprocess_run w cmd cwd) as [rc|[| |msg|msg]]; cbn;
    try (eexists _, _; split; reflexivity).
  destruct cmd as [|c cmd]; cbn; eexists _, _; split; reflexivity.
Qed.

Lemma printed_no_spawn t : forallb printed t = true -> no_spawn t.
Proof.
  unfold no_spawn. induction t as [|e t IH]; simpl; [reflexivity|].
  intros H. apply andb_true_iff in H as [He Ht]. rewrite (IH Ht).
  destruct e; simpl in *; congruence.
Qed.

(** *** The shape of a run *)

Lemma shape_after run w pre (p : trace * res Z) :
  no_spawn pre -> run_shape run w p -> run_shape run w (pre ++ fst p, snd p).
Proof.
  intros Hpre [[Hn Hr]|(pre' & tool & task & cwd & Hn & ->)].
  - left. cbn. split; [now apply no_spawn_app | exact Hr].
  - right. exists (pre ++ pre'), tool, task, cwd. split; [now apply no_spawn_app|].
    cbn. now rewrite List.app_assoc.
Qed.

Lemma shape_after_event run w e (p : trace * res Z) :
  spawned e = false -> run_shape run w p -> run_shape run w (e :: fst p, snd p).
Proof.
  intros He Hp. apply (shape_after run w [e] p); [|exact Hp].
  unfold no_spawn. cbn. now rewrite He.
Qed.

Lemma shape_run run w tool task cwd : run_shape run w (run [tool; task] cwd w).
Proof.
  right. exists [], tool, task, cwd. split; [reflexivity|]. cbn. apply pair_eta.
Qed.

Ltac shape_done :=
  left; split; [reflexivity | first [left; reflexivity | right; reflexivity]].

Lemma test_py_shape w args : run_shape TestPy.run_cmd w (TestPy.main args w).
Proof.
  unfold TestPy.main, TestPy.detect_and_run_tests.
  destruct (test_find_run MAVEN_MARKERS (TestPy.cwd args) w) as (t1 & o1 & H1 & Hf1 & _).
  rewrite (bind_Ret _ H1). apply shape_after; [now apply fs_probes_no_spawn|].
  match goal with
  | |- run_shape _ _ (if_truthy _ _ ?els _) =>
      assert (G : run_shape TestPy.run_cmd w (els w))
  end.
  { destruct (test_find_run GRADLE_MARKERS (TestPy.cwd args) w) as (t & o & H & Hf & _).
    rewrite (bind_Ret _ H). apply shape_after; [now apply fs_probes_no_spawn|].
    destruct o as [groot|]; cbn [if_truthy]; [destruct (Str.nonempty groot)|].
    2,3: rewrite bind_getcwd, bind_print; shape_done.
    rewrite bind_print. apply shape_after_event; [reflexivity|].
    destruct (test_which_in_dir_run w GRADLE_WRAPPERS groot)
      as (t2 & t2' & H2 & _ & _ & _ & Hs2 & _).
    rewrite (bind_Ret _ H2). apply shape_after; [exact Hs2|].
    destruct (match find _ _ with Some c => Some c | None => _ end) as [tool|];
      cbn [if_truthy]; [destruct (Str.nonempty tool)|].
    2,3: rewrite bind_print_err; shape_done.
    destruct (TestPy.dry_run args).
    - rewrite bind_print. shape_done.
    - apply shape_run. }
  destruct o1 as [mroot|]; cbn [if_truthy]; [destruct (Str.nonempty mroot)|];
    try exact G.
  rewrite bind_print. apply shape_after_event; [reflexivity|].
  destruct (test_which_in_dir_run w MAVEN_WRAPPERS mroot)
    as (t2 & t2' & H2 & _ & _ & _ & Hs2 & _).
  rewrite (bind_Ret _ H2). apply shape_after; [exact Hs2|].
  destruct (match find _ _ with Some c => Some c | None => _ end) as [tool|];
    cbn [if_truthy]; [destruct (Str.nonempty tool)|].
  2,3: rewrite bind_print_err; shape_done.
  destruct (TestPy.dry_run args).
  - rewrite bind_print. shape_done.
  - apply shape_run.
Qed.

Lemma spotless_shape w : run_shape SpotlessApply.run_cmd w (SpotlessApply.main w).
Proof.
  unfold SpotlessApply.main.
  destruct (spotless_find_run MAVEN_MARKERS w) as (t1 & o1 & H1 & Hf1 & _).
  rewrite (bind_Ret _ H1). apply shape_after; [now apply fs_probes_no_spawn|].
  match goal with
  | |- run_shape _ _ (if_truthy _ _ ?els _) =>
      assert (G : run_shape SpotlessApply.run_cmd w (els w))
  end.
  { destruct (spotless_find_run GRADLE_MARKERS w) as (t & o & H & Hf & _).
    rewrite (bind_Ret _ H). apply shape_after; [now apply fs_probes_no_spawn|].
    destruct o as [groot|]; cbn [if_truthy]; [destruct (Str.nonempty groot)|].
    2,3: rewrite bind_print; shape_done.
    rewrite bind_print. apply shape_after_event; [reflexivity|].
    destruct (spotless_which_in_dir_run w GRADLE_WRAPPERS groot)
      as (t2 & t2' & H2 & _ & _ & _ & Hs2 & _).
    rewrite (bind_Ret _ H2). apply shape_after; [exact Hs2|].
    destruct (match find _ _ with Some c => Some c | None => _ end) as [tool|];
      cbn [if_truthy]; [destruct (Str.nonempty tool)|].
    2,3: rewrite bind_print_err; shape_done.
    apply shape_run. }
  destruct o1 as [mroot|]; cbn [if_truthy]; [destruct (Str.nonempty mroot)|];
    try exact G.
  rewrite bind_print. apply shape_after_event; [reflexivity|].
  destruct (spotless_which_in_dir_run w MAVEN_WRAPPERS mroot)
    as (t2 & t2' & H2 & _ & _ & _ & Hs2 & _).
  rewrite (bind_Ret _ H2). apply shape_after; [exact Hs2|].
  destruct (match find _ _ with Some c => Some c | None => _ end) as [tool|];
    cbn [if_truthy]; [destruct (Str.nonempty tool)|].
  2,3: rewrite bind_print_err; shape_done.
  apply shape_run.
Qed.

(** *** What the shape gives *)

Lemma no_spawn_not_in t cmd cwd : no_spawn t -> ~ In (EvSpawn cmd cwd) t.
Proof.
  intros Ht Hin. unfold no_spawn in Ht. rewrite forallb_forall in Ht.
  specialize (Ht _ Hin). discriminate.
Qed.

(** A run of that shape which launched [cmd] in [cwd] is a prefix without
    launches followed by [run cmd cwd], and [cmd] has two words. *)
Lemma shape_launched run w p cmd cwd :
  run_shape run w p ->
  (forall c d, exists l t, fst (run c d w) = EvStdout l :: EvSpawn c d :: t
                           /\ forallb printed t = true) ->
  In (EvSpawn cmd cwd) (fst p) ->
  exists pre tool task,
    cmd = [tool; task] /\ no_spawn pre
    /\ p = (pre ++ fst (run cmd cwd w), snd (run cmd cwd w)).
Proof.
  intros [[Hn _]|(pre & tool & task & d & Hn & ->)] Hrun Hin.
  - exfalso. exact (no_spawn_not_in _ _ _ Hn Hin).
  - cbn [fst] in Hin. destruct (Hrun [tool; task] d) as (l & t & Hfst & Ht).
    rewrite Hfst in Hin. apply in_app_or in Hin as [Hin|Hin];
      [exfalso; exact (no_spawn_not_in _ _ _ Hn Hin)|].
    simpl in Hin. destruct Hin as [E|[E|Hin]];
      [discriminate | | exfalso; exact (no_spawn_not_in _ _ _ (printed_no_spawn _ Ht) Hin)].
    inversion E; subst. exists pre, tool, task. auto.
Qed.

(** One launch splits a trace in one way only. *)
Lemma split_at_launch a x b : forall pre e post,
  a ++ x :: b = pre ++ e :: post ->
  no_spawn a -> no_spawn b -> spawned e = true ->
  pre = a /\ e = x /\ post = b.
Proof.
  induction a as [|y a IH]; intros [|y' pre] e post E Ha Hb He; cbn in E.
  - inversion E; subst. auto.
  - exfalso. inversion E; subst. unfold no_spawn in Hb.
    rewrite forallb_app in Hb. cbn in Hb. rewrite He in Hb.
    rewrite andb_false_r in Hb. discriminate.
  - exfalso. inversion E; subst. unfold no_spawn in Ha. cbn in Ha.
    rewrite He in Ha. discriminate.
  - inversion E; subst. unfold no_spawn in Ha. cbn in Ha.
    apply andb_true_iff in Ha as [_ Ha].
    destruct (IH pre e post H1 Ha Hb He) as (-> & -> & ->). auto.
Qed.

Lemma launches_none t : no_spawn t -> launches t = 0.
Proof.
  unfold no_spawn, launches. induction t as [|e t IH]; cbn; [reflexivity|].
  intros H. apply andb_true_iff in H as [He Ht].
  destruct (spawned e); [discriminate | now apply IH].
Qed.

Lemma launches_app t u : launches (t ++ u) = launches t + launches u.
Proof. unfold launches. now rewrite filter_app, length_app. Qed.

End ScriptMore.

(** ** The branches that launch *)

Module LaunchFacts.
Import Common MonadFacts StrFacts PathFacts WalkFacts ResolveFacts NameFacts RunFacts
       ScriptFacts LookupFacts ScriptMore.
Local Open Scope list_scope.

Lemma script_ending (m : M Z) w : script m w = (fst (m w), ending_of (snd (m w))).
Proof. unfold script. now destruct (m w) as [t [rc|e|]]. Qed.

Lemma test_py_maven_runs w args root tool :
  World_ok w ->
  TestPy.dry_run args = false ->
  outcome (TestPy.find_project_root_with MAVEN_MARKERS (TestPy.cwd args)) w
  = Ret (Some root) ->
  outcome (TestPy.which_in_dir MAVEN_WRAPPERS root) w = Ret (Some tool) ->
  script (TestPy.main args) w
  = (effects (TestPy.find_project_root_with MAVEN_MARKERS (TestPy.cwd args)) w
     ++ [EvStdout ("Projeto Maven detectado em: " ++ root)%string]
     ++ effects (TestPy.which_in_dir MAVEN_WRAPPERS root) w
     ++ effects (TestPy.run_cmd [tool; TestPy.task args] root) w,
     ending_of (outcome (TestPy.run_cmd [tool; TestPy.task args] root) w)).
Proof.
  intros Hok Hdry Hfind Hwhich.
  pose proof (test_root_nonempty w Hok _ _ _ Hfind) as Hne.
  pose proof (test_tool_nonempty w MAVEN_WRAPPERS _ _ eq_refl Hwhich) as Hnt.
  apply run_eq in Hfind. apply run_eq in Hwhich.
  rewrite script_ending. unfold TestPy.main, TestPy.detect_and_run_tests.
  rewrite (bind_Ret _ Hfind). cbn [if_truthy]. rewrite Hne.
  rewrite bind_print, (bind_Ret _ Hwhich). cbn [if_truthy]. rewrite Hnt, Hdry.
  reflexivity.
Qed.

Lemma test_py_gradle_runs w args root tool :
  World_ok w ->
  TestPy.dry_run args = false ->
  outcome (TestPy.find_project_root_with MAVEN_MARKERS (TestPy.cwd args)) w = Ret None ->
  outcome (TestPy.find_project_root_with GRADLE_MARKERS (TestPy.cwd args)) w
  = Ret (Some root) ->
  outcome (TestPy.which_in_dir GRADLE_WRAPPERS root) w = Ret (Some tool) ->
  script (TestPy.main args) w
  = (effects (TestPy.find_project_root_with MAVEN_MARKERS (TestPy.cwd args)) w
     ++ effects (TestPy.find_project_root_with GRADLE_MARKERS (TestPy.cwd args)) w
     ++ [EvStdout ("Projeto Gradle detectado em: " ++ root)%string]
     ++ effects (TestPy.which_in_dir GRADLE_WRAPPERS root) w
     ++ effects (TestPy.run_cmd [tool; TestPy.task args] root) w,
     ending_of (outcome (TestPy.run_cmd [tool; TestPy.task args] root) w)).
Proof.
  intros Hok Hdry Hm Hfind Hwhich.
  pose proof (test_root_nonempty w Hok _ _ _ Hfind) as Hne.
  pose proof (test_tool_nonempty w GRADLE_WRAPPERS _ _ eq_refl Hwhich) as Hnt.
  apply run_eq in Hm. apply run_eq in Hfind. apply run_eq in Hwhich.
  rewrite script_ending. unfold TestPy.main, TestPy.detect_and_run_tests.
  rewrite (bind_Ret _ Hm). cbn [if_truthy].
  rewrite (bind_Ret _ Hfind). cbn [if_truthy]. rewrite Hne.
  rewrite bind_print, (bind_Ret _ Hwhich). cbn [if_truthy]. rewrite Hnt, Hdry.
  reflexivity.
Qed.

Lemma spotless_maven_runs w root tool :
  World_ok w ->
  outcome (SpotlessApply.find_project_root_with MAVEN_MARKERS) w = Ret (Some root) ->
  outcome (SpotlessApply.which_in_dir MAVEN_WRAPPERS root) w = Ret (Some tool) ->
  script SpotlessApply.main w
  = (effects (SpotlessApply.find_project_root_with MAVEN_MARKERS) w
     ++ [EvStdout ("Projeto Maven detectado em: " ++ root)%string]
     ++ effects (SpotlessApply.which_in_dir MAVEN_WRAPPERS root) w
     ++ effects (SpotlessApply.run_cmd [tool; "spotless:apply"%string] root) w,
     ending_of (outcome (SpotlessApply.run_cmd [tool; "spotless:apply"%string] root) w)).
Proof.
  intros Hok Hfind Hwhich.
  pose proof (spotless_root_nonempty w Hok _ _ Hfind) as Hne.
  pose proof (spotless_tool_nonempty w MAVEN_WRAPPERS _ _ eq_refl Hwhich) as Hnt.
  apply run_eq in Hfind. apply run_eq in Hwhich.
  rewrite script_ending. unfold SpotlessApply.main.
  rewrite (bind_Ret _ Hfind). cbn [if_truthy]. rewrite Hne.
  rewrite bind_print, (bind_Ret _ Hwhich). cbn [if_truthy]. rewrite Hnt.
  reflexivity.
Qed.

Lemma spotless_gradle_runs w root tool :
  World_ok w ->
  outcome (SpotlessApply.find_project_root_with MAVEN_MARKERS) w = Ret None ->
  outcome (SpotlessApply.find_project_root_with GRADLE_MARKERS) w = Ret (Some root) ->
  outcome (SpotlessApply.which_in_dir GRADLE_WRAPPERS root) w = Ret (Some tool) ->
  script SpotlessApply.main w
  = (effects (SpotlessApply.find_project_root_with MAVEN_MARKERS) w
     ++ effects (SpotlessApply.find_project_root_with GRADLE_MARKERS) w
     ++ [EvStdout ("Projeto Gradle detectado em: " ++ root)%string]
     ++ effects (SpotlessApply.which_in_dir GRADLE_WRAPPERS root) w
     ++ effects (SpotlessApply.run_cmd [tool; "spotlessApply"%string] root) w,
     ending_of (outcome (SpotlessApply.run_cmd [tool; "spotlessApply"%string] root) w)).
Proof.
  intros Hok Hm Hfind Hwhich.
  pose proof (spotless_root_nonempty w Hok _ _ Hfind) as Hne.
  pose proof (spotless_tool_nonempty w GRADLE_WRAPPERS _ _ eq_refl Hwhich) as Hnt.
  apply run_eq in Hm. apply run_eq in Hfind. apply run_eq in Hwhich.
  rewrite script_ending. unfold SpotlessApply.main.
  rewrite (bind_Ret _ Hm). cbn [if_truthy].
  rewrite (bind_Ret _ Hfind). cbn [if_truthy]. rewrite Hne.
  rewrite bind_print, (bind_Ret _ Hwhich). cbn [if_truthy]. rewrite Hnt.
  reflexivity.
Qed.

(** *** Nothing of Gradle once Maven is found *)

Lemma quiet_not_gradle e : quiet e = true -> ~ gradle_lookup e.
Proof.
  unfold quiet. intros H. apply andb_true_iff in H as [Hp Hs].
  apply printed_not_gradle; [now apply negb_true_iff in Hp | now apply negb_true_iff in Hs].
Qed.

Lemma maven_trace_rest t1 l1 t2 rest :
  Forall (fun e => exists m, In m MAVEN_MARKERS /\ asks_for m e) t1 ->
  Forall (fun e => exists n, In n MAVEN_WRAPPERS /\ asks_for n e) t2 ->
  forallb quiet rest = true ->
  Forall (fun e => ~ gradle_lookup e) (t1 ++ [EvStdout l1] ++ t2 ++ rest).
Proof.
  intros H1 H2 Hq.
  apply Forall_app; split; [|apply Forall_app; split; [|apply Forall_app; split]].
  - eapply Forall_impl; [|exact H1]. intros e He.
    now apply maven_not_gradle, markers_are_maven.
  - constructor; [now apply quiet_not_gradle | constructor].
  - eapply Forall_impl; [|exact H2]. intros e He.
    now apply maven_not_gradle, wrappers_are_maven.
  - apply Forall_forall. intros e He. apply quiet_not_gradle.
    rewrite forallb_forall in Hq. now apply Hq.
Qed.

Lemma test_run_cmd_quiet w cmd cwd :
  forallb quiet (effects (TestPy.run_cmd cmd cwd) w) = true.
Proof.
  destruct (test_run_cmd_trace w cmd cwd) as (l & t & H & Ht).
  unfold effects. rewrite H. cbn. clear H.
  induction t as [|e t IH]; [reflexivity|]. cbn in *.
  apply andb_true_iff in Ht as [He Ht]. rewrite (IH Ht).
  destruct e; cbn in *; congruence.
Qed.

Lemma spotless_run_cmd_quiet w cmd cwd :
  forallb quiet (effects (SpotlessApply.run_cmd cmd cwd) w) = true.
Proof.
  destruct (spotless_run_cmd_trace w cmd cwd) as (l & t & H & Ht).
  unfold effects. rewrite H. cbn. clear H.
  induction t as [|e t IH]; [reflexivity|]. cbn in *.
  apply andb_true_iff in Ht as [He Ht]. rewrite (IH Ht).
  destruct e; cbn in *; congruence.
Qed.

Lemma test_which_returns names dirpath w :
  exists o, outcome (TestPy.which_in_dir names dirpath) w = Ret o.
Proof.
  destruct (test_which_in_dir_run w names dirpath) as (t & t' & H & _).
  unfold outcome. rewrite H. cbn [snd]. eexists. reflexivity.
Qed.

Lemma spotless_which_returns names dirpath w :
  exists o, outcome (SpotlessApply.which_in_dir names dirpath) w = Ret o.
Proof.
  destruct (spotless_which_in_dir_run w names dirpath) as (t & t' & H & _).
  unfold outcome. rewrite H. cbn [snd]. eexists. reflexivity.
Qed.

Lemma test_py_maven_shadows w args root :
  World_ok w ->
  outcome (TestPy.find_project_root_with MAVEN_MARKERS (TestPy.cwd args)) w
  = Ret (Some root) ->
  Forall (fun e => ~ gradle_lookup e) (fst (script (TestPy.main args) w)).
Proof.
  intros Hok Hfind.
  destruct (test_which_returns MAVEN_WRAPPERS root w) as ([tool|] & Hwhich).
  - destruct (TestPy.dry_run args) eqn:Hdry.
    + rewrite (test_py_maven_dry_run w Hok args root tool Hdry Hfind Hwhich). cbn [fst].
      apply maven_trace_rest; [apply test_find_asks | apply test_which_asks | reflexivity].
    + rewrite (test_py_maven_runs w args root tool Hok Hdry Hfind Hwhich). cbn [fst].
      apply maven_trace_rest;
        [apply test_find_asks | apply test_which_asks | apply test_run_cmd_quiet].
  - rewrite (test_py_maven_no_tool w Hok args root Hfind Hwhich). cbn [fst].
    apply maven_trace_rest; [apply test_find_asks | apply test_which_asks | reflexivity].
Qed.

Lemma spotless_maven_shadows w root :
  World_ok w ->
  outcome (SpotlessApply.find_project_root_with MAVEN_MARKERS) w = Ret (Some root) ->
  Forall (fun e => ~ gradle_lookup e) (fst (script SpotlessApply.main w)).
Proof.
  intros Hok Hfind.
  destruct (spotless_which_returns MAVEN_WRAPPERS root w) as ([tool|] & Hwhich).
  - rewrite (spotless_maven_runs w root tool Hok Hfind Hwhich). cbn [fst].
    apply maven_trace_rest;
      [apply spotless_find_asks | apply spotless_which_asks | apply spotless_run_cmd_quiet].
  - rewrite (spotless_maven_no_tool w root Hok Hfind Hwhich). cbn [fst].
    apply maven_trace_rest;
      [apply spotless_find_asks | apply spotless_which_asks | reflexivity].
Qed.

End LaunchFacts.

(** ** From one launch to the ending *)

Module EndingFacts.
Import Common MonadFacts StrFacts PathFacts WalkFacts ResolveFacts NameFacts RunFacts
       ScriptFacts LookupFacts ScriptMore LaunchFacts.
Local Open Scope list_scope.

(** A script of that shape which launched [cmd] in [cwd] ends the way
    [run cmd cwd] ends, and [cmd] has two words. *)
Lemma launched_ending run w (m : M Z) cmd cwd :
  run_shape run w (m w) ->
  (forall c d, exists l t, fst (run c d w) = EvStdout l :: EvSpawn c d :: t
                           /\ forallb printed t = true) ->
  In (EvSpawn cmd cwd) (fst (script m w)) ->
  exists tool task,
    cmd = [tool; task] /\ snd (script m w) = ending_of (snd (run cmd cwd w)).
Proof.
  intros Hshape Hrun Hin. rewrite script_ending in Hin |- *. cbn [fst snd] in *.
  destruct (shape_launched run w (m w) cmd cwd Hshape Hrun Hin)
    as (pre & tool & task & Hcmd & _ & Hp).
  exists tool, task. split; [exact Hcmd|]. now rewrite Hp.
Qed.

(** There is one launch at most, and after it nothing but printed lines. *)
Lemma one_launch run w (p : trace * res Z) :
  run_shape run w p ->
  (forall c d, exists l t, fst (run c d w) = EvStdout l :: EvSpawn c d :: t
                           /\ forallb printed t = true) ->
  launches (fst p) <= 1
  /\ forall pre e post,
       fst p = pre ++ e :: post -> spawned e = true ->
       no_spawn pre /\ forallb printed post = true.
Proof.
  intros [[Hn _]|(pre' & tool & task & d & Hn & ->)] Hrun.
  - split; [rewrite (launches_none _ Hn); lia|].
    intros pre e post E He. exfalso. unfold no_spawn in Hn.
    rewrite E, forallb_app in Hn. cbn in Hn. rewrite He in Hn.
    rewrite andb_false_r in Hn. discriminate.
  - cbn [fst]. destruct (Hrun [tool; task] d) as (l & t & Hfst & Ht). rewrite Hfst.
    assert (Ha : no_spawn (pre' ++ [EvStdout l]))
      by (apply no_spawn_app; [exact Hn | reflexivity]).
    replace (pre' ++ EvStdout l :: EvSpawn [tool; task] d :: t)
      with ((pre' ++ [EvStdout l]) ++ EvSpawn [tool; task] d :: t)
      by (now rewrite <- List.app_assoc).
    split.
    + rewrite launches_app, (launches_none _ Ha).
      change (launches (EvSpawn [tool; task] d :: t)) with (S (launches t)).
      rewrite (launches_none _ (printed_no_spawn _ Ht)). lia.
    + intros pre e post E He.
      destruct (split_at_launch _ _ _ _ _ _ E Ha (printed_no_spawn _ Ht) He)
        as (-> & _ & ->).
      auto.
Qed.


End EndingFacts.

(** * Further properties, stated *)

Import WalkMore ResolveMore ScriptMore LaunchFacts EndingFacts.

(** X1. What is located is the closest marked ancestor. In both scripts,
    when [find_project_root_with] returns a directory, it is the ancestor of
    the start at some depth [k], a marker exists directly under it, and none
    exists under the ancestors at a smaller depth. *)
Theorem located_root_is_closest_marked_ancestor :
  forall (w : World) (markers : list string) (r : string),
    (forall start,
        outcome (TestPy.find_project_root_with markers start) w = Ret (Some r) ->
        exists k,
          r = Path.ancestor k (test_py_start w start)
          /\ marker_at w markers r = true
          /\ forall j, j < k ->
                       marker_at w markers (Path.ancestor j (test_py_start w start)) = false)
    /\ (outcome (SpotlessApply.find_project_root_with markers) w = Ret (Some r) ->
        exists k,
          r = Path.ancestor k (spotless_start w)
          /\ marker_at w markers r = true
          /\ forall j, j < k ->
                       marker_at w markers (Path.ancestor j (spotless_start w)) = false).
Proof.
  intros w markers r. split.
  - intros start H. apply run_eq in H. rewrite test_find_eq in H at 1.
    destruct (find_loop_minimal w markers _ _ _ _ H) as (k & Hk & Hm & Hlow).
    exists k. rewrite Hk at 2. auto.
  - intros H. apply run_eq in H. rewrite spotless_find_eq in H at 1.
    destruct (find_loop_minimal w markers _ _ _ _ H) as (k & Hk & Hm & Hlow).
    exists k. rewrite Hk at 2. auto.
Qed.

Lemma located_root_is_closest_marked_ancestor_witness :
  (exists k,
      "/repo/app"%string = Path.ancestor k "/repo/app"
      /\ marker_at (MoreSamples.gradle_inside_maven (Completed 0)) GRADLE_MARKERS "/repo/app"
         = true
      /\ forall j, j < k ->
                   marker_at (MoreSamples.gradle_inside_maven (Completed 0)) GRADLE_MARKERS
                             (Path.ancestor j "/repo/app") = false)
  /\ (exists k,
         "/repo"%string = Path.ancestor k "/repo/app"
         /\ marker_at (MoreSamples.gradle_inside_maven (Completed 0)) MAVEN_MARKERS "/repo"
            = true
         /\ forall j, j < k ->
                      marker_at (MoreSamples.gradle_inside_maven (Completed 0)) MAVEN_MARKERS
                                (Path.ancestor j "/repo/app") = false).
Proof.
  split.
  - destruct (located_root_is_closest_marked_ancestor
                (MoreSamples.gradle_inside_maven (Completed 0)) GRADLE_MARKERS
                "/repo/app"%string) as [Ht _].
    exact (Ht None eq_refl).
  - destruct (located_root_is_closest_marked_ancestor
                (MoreSamples.gradle_inside_maven (Completed 0)) MAVEN_MARKERS
                "/repo"%string) as [_ Hs].
    exact (Hs eq_refl).
Defined.

(** X2. No root means no marker. In both scripts, when
    [find_project_root_with] returns [None], no marker exists directly under
    any ancestor of the start, the start included. *)
Theorem no_root_means_no_marker :
  forall (w : World) (markers : list string),
    (forall start,
        outcome (TestPy.find_project_root_with markers start) w = Ret None ->
        forall k, marker_at w markers (Path.ancestor k (test_py_start w start)) = false)
    /\ (outcome (SpotlessApply.find_project_root_with markers) w = Ret None ->
        forall k, marker_at w markers (Path.ancestor k (spotless_start w)) = false).
Proof.
  intros w markers. split.
  - intros start H. apply run_eq in H. rewrite test_find_eq in H at 1.
    exact (find_loop_none_inv w markers _ _ _ H).
  - intros H. apply run_eq in H. rewrite spotless_find_eq in H at 1.
    exact (find_loop_none_inv w markers _ _ _ H).
Qed.

Lemma no_root_means_no_marker_witness :
  (forall k, marker_at Sample.gradle_without_tool MAVEN_MARKERS
                       (Path.ancestor k "/proj") = false)
  /\ (forall k, marker_at Sample.no_project GRADLE_MARKERS
                          (Path.ancestor k "/tmp/scratch") = false).
Proof.
  split.
  - destruct (no_root_means_no_marker Sample.gradle_without_tool MAVEN_MARKERS) as [Ht _].
    exact (Ht None eq_refl).
  - destruct (no_root_means_no_marker Sample.no_project GRADLE_MARKERS) as [_ Hs].
    exact (Hs eq_refl).
Defined.

(** X3. The located root is an absolute path. With [os.getcwd()] absolute,
    whatever [find_project_root_with] returns starts with a separator, so it
    is never the empty string: [if mroot:] is false for [None] only. *)
Theorem located_root_is_absolute :
  forall (w : World) (markers : list string) (r : string),
    World_ok w ->
    (forall start,
        outcome (TestPy.find_project_root_with markers start) w = Ret (Some r) ->
        Path.isabs r = true /\ truthy (Some r) = true)
    /\ (outcome (SpotlessApply.find_project_root_with markers) w = Ret (Some r) ->
        Path.isabs r = true /\ truthy (Some r) = true).
Proof.
  intros w markers r Hok.
  assert (Habs : forall x fuel t,
             find_loop fuel markers (Path.abspath (getcwd w) x) w = (t, Ret (Some r)) ->
             Path.isabs r = true /\ truthy (Some r) = true).
  { intros x fuel t H. destruct (find_loop_sound w markers fuel _ _ _ H) as (k & -> & _).
    assert (Hk : Path.isabs (Path.ancestor k (Path.abspath (getcwd w) x)) = true)
      by (apply ancestor_isabs, abspath_isabs, Hok).
    split; [exact Hk | now apply isabs_nonempty]. }
  split.
  - intros start H. apply run_eq in H. rewrite test_find_eq in H at 1.
    exact (Habs _ _ _ H).
  - intros H. apply run_eq in H. rewrite spotless_find_eq in H at 1.
    exact (Habs _ _ _ H).
Qed.

Lemma located_root_is_absolute_witness :
  Path.isabs "/home/u/proj" = true /\ truthy (Some "/home/u/proj"%string) = true.
Proof.
  destruct (located_root_is_absolute (Sample.nested_maven (Completed 0)) MAVEN_MARKERS
              "/home/u/proj"%string eq_refl) as [Ht _].
  exact (Ht (Some "src/main/../main"%string) eq_refl).
Defined.

(** X4. An empty marker list. With no marker to look for,
    [find_project_root_with] returns [None] in both scripts and asks the
    filesystem nothing. *)
Theorem no_markers_nothing_asked :
  forall (w : World),
    (forall start, TestPy.find_project_root_with [] start w = ([], Ret None))
    /\ SpotlessApply.find_project_root_with [] w = ([], Ret None).
Proof.
  intros w. split.
  - intros start. rewrite test_find_eq. apply find_loop_no_markers, turns_enough.
  - rewrite spotless_find_eq. apply find_loop_no_markers, turns_enough.
Qed.

(** X5. The walk only looks upward. In both scripts every event of
    [find_project_root_with] is an [os.path.exists] on a marker name
    directly under an ancestor of the start: nothing below the start or
    beside it is looked at, the search path is not consulted, nothing is
    printed and nothing is launched. *)
Theorem walk_only_looks_upward :
  forall (w : World) (markers : list string),
    (forall start,
        Forall (upward_probe markers (test_py_start w start))
               (effects (TestPy.find_project_root_with markers start) w))
    /\ Forall (upward_probe markers (spotless_start w))
              (effects (SpotlessApply.find_project_root_with markers) w).
Proof.
  intros w markers. split.
  - intros start. unfold effects. rewrite test_find_eq. apply find_loop_probes.
  - unfold effects. rewrite spotless_find_eq. apply find_loop_probes.
Qed.

(** X6. When no tool is found. In each script [which_in_dir] returns
    [None] exactly when no listed name is acceptable inside [dirpath] (by
    that script's test) and [shutil.which] knows none of the listed names. *)
Theorem no_tool_exactly_when_nothing_matches :
  forall (w : World) (names : list string) (dirpath : string),
    (outcome (TestPy.which_in_dir names dirpath) w = Ret None
     <-> (forall n, In n names -> invocable_test_py w (Path.join dirpath n) = false)
         /\ (forall n, In n names -> truthy (shutil_which w n) = false))
    /\ (outcome (SpotlessApply.which_in_dir names dirpath) w = Ret None
        <-> (forall n, In n names -> invocable_spotless w (Path.join dirpath n) = false)
            /\ (forall n, In n names -> truthy (shutil_which w n) = false)).
Proof.
  intros w names dirpath.
  destruct (test_which_in_dir_run w names dirpath) as (t & t' & Ht & _).
  destruct (spotless_which_in_dir_run w names dirpath) as (s & s' & Hs & _).
  unfold outcome. rewrite Ht, Hs. cbn [snd]. rewrite !find_map_first.
  split.
  - destruct (find (fun n => invocable_test_py w (Path.join dirpath n)) names)
      as [n|] eqn:Hf; cbn [option_map].
    + split; [discriminate|]. intros [Hnone _]. apply find_some in Hf as [Hin Hn].
      rewrite (Hnone n Hin) in Hn. discriminate.
    + rewrite find_none_iff in Hf. split.
      * intros E. split; [exact Hf|]. apply first_on_path_none. now inversion E.
      * intros [_ Hp]. apply first_on_path_none in Hp. now rewrite Hp.
  - destruct (find (fun n => invocable_spotless w (Path.join dirpath n)) names)
      as [n|] eqn:Hf; cbn [option_map].
    + split; [discriminate|]. intros [Hnone _]. apply find_some in Hf as [Hin Hn].
      rewrite (Hnone n Hin) in Hn. discriminate.
    + rewrite find_none_iff in Hf. split.
      * intros E. split; [exact Hf|]. apply first_on_path_none. now inversion E.
      * intros [_ Hp]. apply first_on_path_none in Hp. now rewrite Hp.
Qed.

Lemma no_tool_exactly_when_nothing_matches_witness :
  (forall n, In n GRADLE_WRAPPERS ->
             invocable_spotless (Sample.bat_only (Completed 0)) (Path.join "/proj" n) = false)
  /\ outcome (TestPy.which_in_dir GRADLE_WRAPPERS "/proj") Sample.gradle_without_tool
     = Ret None.
Proof.
  split.
  - destruct (no_tool_exactly_when_nothing_matches (Sample.bat_only (Completed 0))
                GRADLE_WRAPPERS "/proj"%string) as [_ [Hs _]].
    exact (proj1 (Hs eq_refl)).
  - destruct (no_tool_exactly_when_nothing_matches Sample.gradle_without_tool
                GRADLE_WRAPPERS "/proj"%string) as [[_ Ht] _].
    apply Ht. split; intros n Hn; cbn in Hn;
      repeat (destruct Hn as [<-|Hn]; [reflexivity|]); contradiction.
Defined.

(** X7. The search path is tried in list order. When no listed name is
    acceptable inside [dirpath], [which_in_dir] returns what [shutil.which]
    answers for the first listed name it knows; it has then asked
    [shutil.which] about that name and the names before it, in list order,
    and about no name after it, and all of that after the probes of the
    directory. In both scripts. *)
Theorem search_path_is_tried_in_list_order :
  forall (w : World) (dirpath : string) (pre : list string) (n : string)
         (post : list string),
    (forall m, In m pre -> truthy (shutil_which w m) = false) ->
    truthy (shutil_which w n) = true ->
    ((forall m, In m (pre ++ n :: post) ->
                invocable_test_py w (Path.join dirpath m) = false) ->
     outcome (TestPy.which_in_dir (pre ++ n :: post) dirpath) w = Ret (shutil_which w n)
     /\ exists t,
          effects (TestPy.which_in_dir (pre ++ n :: post) dirpath) w
          = t ++ map EvWhich (pre ++ [n])
          /\ forallb fs_probe t = true)
    /\ ((forall m, In m (pre ++ n :: post) ->
                   invocable_spotless w (Path.join dirpath m) = false) ->
        outcome (SpotlessApply.which_in_dir (pre ++ n :: post) dirpath) w
        = Ret (shutil_which w n)
        /\ exists t,
             effects (SpotlessApply.which_in_dir (pre ++ n :: post) dirpath) w
             = t ++ map EvWhich (pre ++ [n])
             /\ forallb fs_probe t = true).
Proof.
  intros w dirpath pre n post Hpre Hn.
  pose proof (path_pass_first w pre n post Hpre Hn) as Hpath.
  split.
  - intros Hnone.
    destruct (test_dir_pass_run w (pre ++ n :: post) dirpath) as (t & Ht & Hf & _).
    rewrite find_map_first in Ht.
    apply find_none_iff in Hnone. rewrite Hnone in Ht. cbn [option_map] in Ht.
    unfold outcome, effects, TestPy.which_in_dir. rewrite (bind_Ret _ Ht), Hpath.
    cbn [fst snd]. split; [reflexivity|]. exists t. auto.
  - intros Hnone.
    destruct (spotless_dir_pass_run w (pre ++ n :: post) dirpath) as (t & Ht & Hf & _).
    rewrite find_map_first in Ht.
    apply find_none_iff in Hnone. rewrite Hnone in Ht. cbn [option_map] in Ht.
    unfold outcome, effects, SpotlessApply.which_in_dir. rewrite (bind_Ret _ Ht), Hpath.
    cbn [fst snd]. split; [reflexivity|]. exists t. auto.
Qed.

Lemma search_path_is_tried_in_list_order_witness :
  outcome (TestPy.which_in_dir MAVEN_WRAPPERS "/proj") MoreSamples.path_only
  = Ret (Some "/opt/bin/mvnw.cmd"%string)
  /\ outcome (SpotlessApply.which_in_dir MAVEN_WRAPPERS "/proj") MoreSamples.path_only
     = Ret (Some "/opt/bin/mvnw.cmd"%string).
Proof.
  destruct (search_path_is_tried_in_list_order MoreSamples.path_only "/proj"%string
              ["mvnw"%string] "mvnw.cmd"%string ["mvn"%string]) as [Ht Hs].
  - intros m [<-|[]]. reflexivity.
  - reflexivity.
  - split.
    + refine (proj1 (Ht _)). intros m Hm. cbn in Hm.
      repeat (destruct Hm as [<-|Hm]; [reflexivity|]). contradiction.
    + refine (proj1 (Hs _)). intros m Hm. cbn in Hm.
      repeat (destruct Hm as [<-|Hm]; [reflexivity|]). contradiction.
Defined.

(** X8. The execute bit is asked for existing paths only. In both scripts,
    along [which_in_dir], [os.access(p, os.X_OK)] is called only for a path
    [p] that exists, as [os.path.exists] answers. *)
Theorem access_only_for_existing_paths :
  forall (w : World) (names : list string) (dirpath p : string),
    (In (EvAccess p) (effects (TestPy.which_in_dir names dirpath) w) ->
     path_exists w p = true)
    /\ (In (EvAccess p) (effects (SpotlessApply.which_in_dir names dirpath) w) ->
        path_exists w p = true).
Proof.
  intros w names dirpath p.
  assert (Hstep : forall (pass : M (option string)),
             Forall (fun e => forall q, e = EvAccess q -> path_exists w q = true)
                    (fst (pass w)) ->
             (exists t o, pass w = (t, Ret o)) ->
             In (EvAccess p)
                (fst (bind pass (fun found => match found with
                                              | Some c => ret (Some c)
                                              | None => path_pass names
                                              end) w)) ->
             path_exists w p = true).
  { intros pass Hacc (t & o & Hrun) Hin. rewrite (bind_Ret _ Hrun) in Hin.
    rewrite Hrun in Hacc. cbn [fst] in *. apply in_app_or in Hin as [Hin|Hin].
    - rewrite Forall_forall in Hacc. exact (Hacc _ Hin p eq_refl).
    - destruct o as [c|]; [contradiction|].
      pose proof (path_pass_no_access w names) as Hp. rewrite Forall_forall in Hp.
      exact (Hp _ Hin p eq_refl). }
  split; intros Hin.
  - apply (Hstep (TestPy.dir_pass names dirpath)); [apply test_dir_pass_access| |exact Hin].
    destruct (test_dir_pass_run w names dirpath) as (t & Ht & _). eauto.
  - apply (Hstep (SpotlessApply.dir_pass names dirpath));
      [apply spotless_dir_pass_access| |exact Hin].
    destruct (spotless_dir_pass_run w names dirpath) as (t & Ht & _). eauto.
Qed.

Lemma access_only_for_existing_paths_witness :
  path_exists (Sample.bat_only (Completed 0)) "/proj/gradlew.bat" = true.
Proof.
  destruct (access_only_for_existing_paths (Sample.bat_only (Completed 0)) GRADLE_WRAPPERS
              "/proj"%string "/proj/gradlew.bat"%string) as [_ Hs].
  apply Hs. vm_compute. do 2 right. left. reflexivity.
Defined.

(** X9. The two resolvers differ on script files only. Unless some listed
    candidate in [dirpath] exists, lacks the execute bit and has a [.bat] or
    [.cmd] ending, [which_in_dir] of [test.py] and of [spotless_apply.py] do
    the same things and return the same tool. *)
Theorem resolvers_agree_without_script_files :
  forall (w : World) (names : list string) (dirpath : string),
    (forall n, In n names ->
               path_exists w (Path.join dirpath n) = true ->
               access_x_ok w (Path.join dirpath n) = false ->
               Str.endswith_any (Str.lower (Path.join dirpath n)) [".bat"; ".cmd"]%string
               = false) ->
    TestPy.which_in_dir names dirpath w = SpotlessApply.which_in_dir names dirpath w.
Proof.
  intros w names dirpath H.
  unfold TestPy.which_in_dir, SpotlessApply.which_in_dir, bind.
  now rewrite (dir_pass_agree w names dirpath H).
Qed.

Lemma resolvers_agree_without_script_files_witness :
  TestPy.which_in_dir MAVEN_WRAPPERS "/home/u/proj" (Sample.nested_maven (Completed 0))
  = SpotlessApply.which_in_dir MAVEN_WRAPPERS "/home/u/proj"
                               (Sample.nested_maven (Completed 0)).
Proof.
  apply resolvers_agree_without_script_files.
  intros n Hn. cbn in Hn.
  repeat (destruct Hn as [<-|Hn]; [intros He Hx; first [discriminate He | discriminate Hx]|]).
  contradiction.
Defined.

(** X10. [test.py] takes script files as they are. In [test.py], when a
    listed name ends in [.bat] or [.cmd], in any letter case, and
    [dirpath/name] exists, [which_in_dir] returns an in-directory candidate
    (the first acceptable one in list order) without consulting the search
    path, whether or not the file has the execute bit. *)
Theorem test_py_resolves_script_files :
  forall (w : World) (names : list string) (dirpath name : string),
    In name names ->
    path_exists w (Path.join dirpath name) = true ->
    Str.endswith_any (Str.lower name) [".bat"; ".cmd"]%string = true ->
    exists first,
      In first names
      /\ find (fun n => invocable_test_py w (Path.join dirpath n)) names = Some first
      /\ outcome (TestPy.which_in_dir names dirpath) w
         = Ret (Some (Path.join dirpath first))
      /\ no_which (effects (TestPy.which_in_dir names dirpath) w).
Proof.
  intros w names dirpath name Hin He Hs.
  pose proof (test_py_accepts_script_ending w dirpath name He Hs) as Hacc.
  destruct (test_which_in_dir_run w names dirpath) as (t & t' & Ht & Hf & _ & Hnil & _).
  unfold outcome, effects. rewrite Ht. cbn [fst snd].
  rewrite find_map_first in Hnil |- *.
  destruct (find (fun n => invocable_test_py w (Path.join dirpath n)) names)
    as [first|] eqn:Hfind.
  - exists first. cbn in *. rewrite Hnil by discriminate. rewrite app_nil_r.
    split; [exact (proj1 (find_some _ _ Hfind))|].
    split; [reflexivity|]. split; [reflexivity | now apply fs_probes_no_which].
  - apply find_none with (x := name) in Hfind; [congruence | exact Hin].
Qed.

Lemma test_py_resolves_script_files_witness :
  outcome (TestPy.which_in_dir ["gradlew"; "GRADLEW.BAT"]%string "/proj")
          MoreSamples.capital_bat
  = Ret (Some "/proj/GRADLEW.BAT"%string)
  /\ access_x_ok MoreSamples.capital_bat "/proj/GRADLEW.BAT" = false.
Proof.
  destruct (test_py_resolves_script_files MoreSamples.capital_bat
              ["gradlew"; "GRADLEW.BAT"]%string "/proj"%string "GRADLEW.BAT"%string)
    as (first & _ & Hfirst & Hout & _).
  - right. left. reflexivity.
  - reflexivity.
  - reflexivity.
  - vm_compute in Hfirst. inversion Hfirst; subst first.
    split; [exact Hout | reflexivity].
Defined.

(** X11. Where a resolved tool comes from. What [which_in_dir] returns is
    either [dirpath/name] for a listed name, a path that exists and passes
    the script's test (execute bit, or in [test.py] a [.bat]/[.cmd] ending),
    or the non-empty answer of [shutil.which] for a listed name. *)
Theorem resolved_tool_provenance :
  forall (w : World) (names : list string) (dirpath x : string),
    (outcome (TestPy.which_in_dir names dirpath) w = Ret (Some x) ->
     (exists n, In n names /\ x = Path.join dirpath n
                /\ path_exists w x = true
                /\ (access_x_ok w x = true
                    \/ Str.endswith_any (Str.lower x) [".bat"; ".cmd"]%string = true))
     \/ (exists n, In n names /\ shutil_which w n = Some x /\ x <> ""%string))
    /\ (outcome (SpotlessApply.which_in_dir names dirpath) w = Ret (Some x) ->
        (exists n, In n names /\ x = Path.join dirpath n
                   /\ path_exists w x = true /\ access_x_ok w x = true)
        \/ (exists n, In n names /\ shutil_which w n = Some x /\ x <> ""%string)).
Proof.
  intros w names dirpath x.
  assert (Hpath : first_on_path w names = Some x ->
                  exists n, In n names /\ shutil_which w n = Some x /\ x <> ""%string).
  { unfold first_on_path. destruct (find _ names) as [n|] eqn:Hf; [|discriminate].
    apply find_some in Hf as [Hin Hn]. intros E. exists n.
    split; [exact Hin|]. split; [exact E|]. rewrite E in Hn. cbn in Hn.
    intros ->. discriminate. }
  destruct (test_which_in_dir_run w names dirpath) as (t & t' & Ht & _).
  destruct (spotless_which_in_dir_run w names dirpath) as (s & s' & Hs & _).
  unfold outcome. rewrite Ht, Hs. cbn [snd]. rewrite !find_map_first. split.
  - destruct (find (fun n => invocable_test_py w (Path.join dirpath n)) names)
      as [n|] eqn:Hf; cbn [option_map].
    + intros E. inversion E; subst x. left. apply find_some in Hf as [Hin Hn].
      unfold invocable_test_py in Hn. apply andb_true_iff in Hn as [He Hx].
      apply orb_true_iff in Hx. exists n. auto.
    + intros E. right. apply Hpath. now inversion E.
  - destruct (find (fun n => invocable_spotless w (Path.join dirpath n)) names)
      as [n|] eqn:Hf; cbn [option_map].
    + intros E. inversion E; subst x. left. apply find_some in Hf as [Hin Hn].
      unfold invocable_spotless in Hn. apply andb_true_iff in Hn as [He Hx].
      exists n. auto.
    + intros E. right. apply Hpath. now inversion E.
Qed.

Lemma resolved_tool_provenance_witness :
  ((exists n, In n MAVEN_WRAPPERS /\ "/proj/mvn"%string = Path.join "/proj" n
              /\ path_exists Sample.local_mvn "/proj/mvn" = true
              /\ access_x_ok Sample.local_mvn "/proj/mvn" = true)
   \/ (exists n, In n MAVEN_WRAPPERS
                 /\ shutil_which Sample.local_mvn n = Some "/proj/mvn"%string
                 /\ "/proj/mvn"%string <> ""%string))
  /\ ((exists n, In n MAVEN_WRAPPERS /\ "/opt/bin/mvnw.cmd"%string = Path.join "/proj" n
                 /\ path_exists MoreSamples.path_only "/opt/bin/mvnw.cmd" = true
                 /\ (access_x_ok MoreSamples.path_only "/opt/bin/mvnw.cmd" = true
                     \/ Str.endswith_any (Str.lower "/opt/bin/mvnw.cmd")
                                         [".bat"; ".cmd"]%string = true))
      \/ (exists n, In n MAVEN_WRAPPERS
                    /\ shutil_which MoreSamples.path_only n = Some "/opt/bin/mvnw.cmd"%string
                    /\ "/opt/bin/mvnw.cmd"%string <> ""%string)).
Proof.
  split.
  - destruct (resolved_tool_provenance Sample.local_mvn MAVEN_WRAPPERS "/proj"%string
                "/proj/mvn"%string) as [_ Hs].
    exact (Hs eq_refl).
  - destruct (resolved_tool_provenance MoreSamples.path_only MAVEN_WRAPPERS "/proj"%string
                "/opt/bin/mvnw.cmd"%string) as [Ht _].
    exact (Ht eq_refl).
Defined.

(** X12. An executable that cannot be started. When [subprocess.run]
    raises [FileNotFoundError] for [cmd] in [cwd], [run_cmd] of either
    script prints "Comando não encontrado: " followed by the first word of
    the command on the diagnostic stream and returns 127; and a run of
    either script that launched that command ends in [sys.exit(127)]. *)
Theorem missing_executable_gives_127 :
  forall (w : World) (cmd : list string) (cwd : string),
    subprocess_run w cmd cwd = Failed FileNotFoundError ->
    (forall c rest,
        cmd = c :: rest ->
        TestPy.run_cmd cmd cwd w
        = ([EvStdout ("Executando: " ++ String.concat " " cmd)%string;
            EvSpawn cmd cwd;
            EvStderr ("Comando não encontrado: " ++ c)%string], Ret 127%Z)
        /\ SpotlessApply.run_cmd cmd cwd w
           = ([EvStdout ("Executando: " ++ String.concat " " cmd)%string;
               EvSpawn cmd cwd;
               EvStderr ("Comando não encontrado: " ++ c)%string], Ret 127%Z))
    /\ (forall args,
           In (EvSpawn cmd cwd) (fst (script (TestPy.main args) w)) ->
           snd (script (TestPy.main args) w) = SysExit 127)
    /\ (In (EvSpawn cmd cwd) (fst (script SpotlessApply.main w)) ->
        snd (script SpotlessApply.main w) = SysExit 127).
Proof.
  intros w cmd cwd Hrun. split; [|split].
  - intros c rest ->. rewrite test_run_cmd_table, spotless_run_cmd_table, Hrun. auto.
  - intros args Hin.
    destruct (launched_ending TestPy.run_cmd w (TestPy.main args) cmd cwd
                (test_py_shape w args) (test_run_cmd_trace w) Hin) as (tool & task & -> & ->).
    now rewrite test_run_cmd_table, Hrun.
  - intros Hin.
    destruct (launched_ending SpotlessApply.run_cmd w SpotlessApply.main cmd cwd
                (spotless_shape w) (spotless_run_cmd_trace w) Hin) as (tool & task & -> & ->).
    now rewrite spotless_run_cmd_table, Hrun.
Qed.

Lemma missing_executable_gives_127_witness :
  script (TestPy.main TestPy.default_args) (Sample.nested_maven (Failed FileNotFoundError))
  = ([EvExists "/home/u/proj/src/main/pom.xml"; EvExists "/home/u/proj/src/pom.xml";
      EvExists "/home/u/proj/pom.xml";
      EvStdout "Projeto Maven detectado em: /home/u/proj";
      EvExists "/home/u/proj/mvnw"; EvAccess "/home/u/proj/mvnw";
      EvStdout "Executando: /home/u/proj/mvnw test";
      EvSpawn ["/home/u/proj/mvnw"; "test"]%string "/home/u/proj";
      EvStderr "Comando não encontrado: /home/u/proj/mvnw"],
     SysExit 127)
  /\ snd (script SpotlessApply.main (Sample.nested_maven (Failed FileNotFoundError)))
     = SysExit 127.
Proof.
  split.
  - destruct (missing_executable_gives_127 (Sample.nested_maven (Failed FileNotFoundError))
                ["/home/u/proj/mvnw"; "test"]%string "/home/u/proj"%string eq_refl)
      as (_ & Ht & _).
    rewrite (pair_eta (script (TestPy.main TestPy.default_args)
                              (Sample.nested_maven (Failed FileNotFoundError)))).
    rewrite (Ht TestPy.default_args); [reflexivity|].
    vm_compute. do 7 right. left. reflexivity.
  - destruct (missing_executable_gives_127 (Sample.nested_maven (Failed FileNotFoundError))
                ["/home/u/proj/mvnw"; "spotless:apply"]%string "/home/u/proj"%string eq_refl)
      as (_ & _ & Hs).
    apply Hs. vm_compute. do 7 right. left. reflexivity.
Defined.

(** X13. Any other launch failure. When [subprocess.run] raises an
    [Exception] other than [FileNotFoundError], with text [msg], [run_cmd]
    of either script prints "Erro ao executar comando: " followed by [msg]
    on the diagnostic stream and returns 1; and a run of either script that
    launched that command ends in [sys.exit(1)]. *)
Theorem launch_failure_gives_1 :
  forall (w : World) (cmd : list string) (cwd msg : string),
    subprocess_run w cmd cwd = Failed (OtherException msg) ->
    TestPy.run_cmd cmd cwd w
    = ([EvStdout ("Executando: " ++ String.concat " " cmd)%string;
        EvSpawn cmd cwd;
        EvStderr ("Erro ao executar comando: " ++ msg)%string], Ret 1%Z)
    /\ SpotlessApply.run_cmd cmd cwd w
       = ([EvStdout ("Executando: " ++ String.concat " " cmd)%string;
           EvSpawn cmd cwd;
           EvStderr ("Erro ao executar comando: " ++ msg)%string], Ret 1%Z)
    /\ (forall args,
           In (EvSpawn cmd cwd) (fst (script (TestPy.main args) w)) ->
           snd (script (TestPy.main args) w) = SysExit 1)
    /\ (In (EvSpawn cmd cwd) (fst (script SpotlessApply.main w)) ->
        snd (script SpotlessApply.main w) = SysExit 1).
Proof.
  intros w cmd cwd msg Hrun.
  assert (Ht : TestPy.run_cmd cmd cwd w
               = ([EvStdout ("Executando: " ++ String.concat " " cmd)%string;
                   EvSpawn cmd cwd;
                   EvStderr ("Erro ao executar comando: " ++ msg)%string], Ret 1%Z)).
  { unfold TestPy.run_cmd. rewrite bind_print. unfold try_except, run_process.
    now rewrite Hrun. }
  assert (Hs : SpotlessApply.run_cmd cmd cwd w
               = ([EvStdout ("Executando: " ++ String.concat " " cmd)%string;
                   EvSpawn cmd cwd;
                   EvStderr ("Erro ao executar comando: " ++ msg)%string], Ret 1%Z)).
  { unfold SpotlessApply.run_cmd. rewrite bind_print. unfold try_except, run_process.
    now rewrite Hrun. }
  split; [exact Ht|]. split; [exact Hs|]. split.
  - intros args Hin.
    destruct (launched_ending TestPy.run_cmd w (TestPy.main args) cmd cwd
                (test_py_shape w args) (test_run_cmd_trace w) Hin) as (tool & task & _ & ->).
    now rewrite Ht.
  - intros Hin.
    destruct (launched_ending SpotlessApply.run_cmd w SpotlessApply.main cmd cwd
                (spotless_shape w) (spotless_run_cmd_trace w) Hin) as (tool & task & _ & ->).
    now rewrite Hs.
Qed.

Lemma launch_failure_gives_1_witness :
  snd (script (TestPy.main TestPy.default_args)
              (Sample.nested_maven (Failed (OtherException "Permission denied"))))
  = SysExit 1
  /\ script SpotlessApply.main
            (Sample.nested_maven (Failed (OtherException "Permission denied")))
     = ([EvExists "/home/u/proj/src/main/pom.xml"; EvExists "/home/u/proj/src/pom.xml";
         EvExists "/home/u/proj/pom.xml";
         EvStdout "Projeto Maven detectado em: /home/u/proj";
         EvExists "/home/u/proj/mvnw"; EvAccess "/home/u/proj/mvnw";
         EvStdout "Executando: /home/u/proj/mvnw spotless:apply";
         EvSpawn ["/home/u/proj/mvnw"; "spotless:apply"]%string "/home/u/proj";
         EvStderr "Erro ao executar comando: Permission denied"],
        SysExit 1).
Proof.
  split.
  - destruct (launch_failure_gives_1
                (Sample.nested_maven (Failed (OtherException "Permission denied")))
                ["/home/u/proj/mvnw"; "test"]%string "/home/u/proj"%string
                "Permission denied"%string eq_refl) as (_ & _ & Ht & _).
    apply Ht. vm_compute. do 7 right. left. reflexivity.
  - destruct (launch_failure_gives_1
                (Sample.nested_maven (Failed (OtherException "Permission denied")))
                ["/home/u/proj/mvnw"; "spotless:apply"]%string "/home/u/proj"%string
                "Permission denied"%string eq_refl) as (_ & _ & _ & Hs).
    rewrite (pair_eta (script SpotlessApply.main
                              (Sample.nested_maven
                                 (Failed (OtherException "Permission denied"))))).
    rewrite Hs; [reflexivity|]. vm_compute. do 7 right. left. reflexivity.
Defined.

(** X14. [test.py] and the interrupt. In [test.py], when the child launched
    for [cmd] in [cwd] is interrupted ([subprocess.run] raises
    [KeyboardInterrupt]), [run_cmd] prints "Interrompido pelo usuário." on
    the diagnostic stream and returns 130, and a run of the script that
    launched that command ends in [sys.exit(130)]. *)
Theorem test_py_interrupt_gives_130 :
  forall (w : World) (cmd : list string) (cwd : string),
    subprocess_run w cmd cwd = Failed KeyboardInterrupt ->
    TestPy.run_cmd cmd cwd w
    = ([EvStdout ("Executando: " ++ String.concat " " cmd)%string;
        EvSpawn cmd cwd;
        EvStderr "Interrompido pelo usuário."], Ret 130%Z)
    /\ (forall args,
           In (EvSpawn cmd cwd) (fst (script (TestPy.main args) w)) ->
           snd (script (TestPy.main args) w) = SysExit 130).
Proof.
  intros w cmd cwd Hrun.
  assert (Ht : TestPy.run_cmd cmd cwd w
               = ([EvStdout ("Executando: " ++ String.concat " " cmd)%string;
                   EvSpawn cmd cwd;
                   EvStderr "Interrompido pelo usuário."], Ret 130%Z)).
  { unfold TestPy.run_cmd. rewrite bind_print. unfold try_except, run_process.
    now rewrite Hrun. }
  split; [exact Ht|].
  intros args Hin.
  destruct (launched_ending TestPy.run_cmd w (TestPy.main args) cmd cwd
              (test_py_shape w args) (test_run_cmd_trace w) Hin) as (tool & task & _ & ->).
  now rewrite Ht.
Qed.

Lemma test_py_interrupt_gives_130_witness :
  snd (script (TestPy.main MoreSamples.integration_args)
              (Sample.gradle_wrapper (Failed KeyboardInterrupt)))
  = SysExit 130.
Proof.
  destruct (test_py_interrupt_gives_130 (Sample.gradle_wrapper (Failed KeyboardInterrupt))
              ["/proj/gradlew"; "integrationTest"]%string "/proj"%string eq_refl)
    as [_ Ht].
  apply Ht. vm_compute. do 11 right. left. reflexivity.
Defined.

(** X15. The two [run_cmd] differ on the interrupt only. Unless
    [subprocess.run] raises [KeyboardInterrupt], [run_cmd] of [test.py] and
    of [spotless_apply.py] print the same lines and return the same status
    (or let the same exception through). *)
Theorem run_cmd_agree_unless_interrupted :
  forall (w : World) (cmd : list string) (cwd : string),
    subprocess_run w cmd cwd <> Failed KeyboardInterrupt ->
    TestPy.run_cmd cmd cwd w = SpotlessApply.run_cmd cmd cwd w.
Proof.
  intros w cmd cwd Hrun.
  unfold TestPy.run_cmd, SpotlessApply.run_cmd. rewrite !bind_print.
  unfold try_except, run_process.
  destruct (subprocess_run w cmd cwd) as [rc|[| |msg|msg]]; try reflexivity.
  now contradiction Hrun.
Qed.

Lemma run_cmd_agree_unless_interrupted_witness :
  TestPy.run_cmd ["gradle"; "test"]%string "/proj"
                 (Sample.bat_only (Failed FileNotFoundError))
  = SpotlessApply.run_cmd ["gradle"; "test"]%string "/proj"
                          (Sample.bat_only (Failed FileNotFoundError)).
Proof.
  apply run_cmd_agree_unless_interrupted. discriminate.
Defined.

(** X16. One process at most, and last. In any world a run of either
    script launches at most one process; nothing is launched before it, and
    after it the script only prints: no file is probed, the search path is
    not consulted and no second process is started. *)
Theorem at_most_one_launch :
  forall (w : World),
    (forall args,
        launches (fst (script (TestPy.main args) w)) <= 1
        /\ forall pre e post,
             fst (script (TestPy.main args) w) = pre ++ e :: post ->
             spawned e = true ->
             no_spawn pre /\ forallb printed post = true)
    /\ (launches (fst (script SpotlessApply.main w)) <= 1
        /\ forall pre e post,
             fst (script SpotlessApply.main w) = pre ++ e :: post ->
             spawned e = true ->
             no_spawn pre /\ forallb printed post = true).
Proof.
  intros w. split.
  - intros args. rewrite script_ending. cbn [fst].
    exact (one_launch TestPy.run_cmd w _ (test_py_shape w args) (test_run_cmd_trace w)).
  - rewrite script_ending. cbn [fst].
    exact (one_launch SpotlessApply.run_cmd w _ (spotless_shape w)
                      (spotless_run_cmd_trace w)).
Qed.

Lemma at_most_one_launch_witness :
  no_spawn [EvExists "/home/u/proj/src/main/pom.xml"; EvExists "/home/u/proj/src/pom.xml";
            EvExists "/home/u/proj/pom.xml";
            EvStdout "Projeto Maven detectado em: /home/u/proj";
            EvExists "/home/u/proj/mvnw"; EvAccess "/home/u/proj/mvnw";
            EvStdout "Executando: /home/u/proj/mvnw test"]%string
  /\ forallb printed [EvStderr "Interrompido pelo usuário."] = true.
Proof.
  destruct (at_most_one_launch (Sample.nested_maven (Failed KeyboardInterrupt)))
    as [Ht _].
  destruct (Ht TestPy.default_args) as [_ Hsplit].
  apply (Hsplit _ (EvSpawn ["/home/u/proj/mvnw"; "test"]%string "/home/u/proj"%string)
                [EvStderr "Interrompido pelo usuário."]); reflexivity.
Defined.





(** X19. Maven shadows Gradle. With [os.getcwd()] absolute, once the Maven
    marker locates a root, a run of either script asks nothing about a
    Gradle build file or a Gradle tool, whatever happens next (no tool, dry
    run, launch) and even where a Gradle build file lies closer to the
    start than the [pom.xml]. *)
Theorem maven_shadows_gradle :
  forall (w : World) (root : string),
    World_ok w ->
    (forall args,
        outcome (TestPy.find_project_root_with MAVEN_MARKERS (TestPy.cwd args)) w
        = Ret (Some root) ->
        Forall (fun e => ~ gradle_lookup e) (fst (script (TestPy.main args) w)))
    /\ (outcome (SpotlessApply.find_project_root_with MAVEN_MARKERS) w = Ret (Some root) ->
        Forall (fun e => ~ gradle_lookup e) (fst (script SpotlessApply.main w))).
Proof.
  intros w root Hok. split.
  - intros args. now apply test_py_maven_shadows.
  - now apply spotless_maven_shadows.
Qed.

Lemma maven_shadows_gradle_witness :
  Forall (fun e => ~ gradle_lookup e)
         (fst (script (TestPy.main TestPy.default_args)
                      (MoreSamples.gradle_inside_maven (Completed 0))))
  /\ Forall (fun e => ~ gradle_lookup e)
            (fst (script SpotlessApply.main (MoreSamples.gradle_inside_maven (Completed 0))))
  /\ path_exists (MoreSamples.gradle_inside_maven (Completed 0)) "/repo/app/build.gradle"
     = true.
Proof.
  destruct (maven_shadows_gradle (MoreSamples.gradle_inside_maven (Completed 0))
              "/repo"%string eq_refl) as [Ht Hs].
  split; [exact (Ht TestPy.default_args eq_refl)|].
  split; [exact (Hs eq_refl) | reflexivity].
Defined.

(** X20. What [test.py] launches. With [os.getcwd()] absolute and without
    [--dry-run], when a root is located and a tool resolves, [test.py]
    launches exactly the tool followed by the task, in the root, and ends
    the way [run_cmd] ends; for a Maven root, and for a Gradle root when
    there is no Maven one. *)
Theorem test_py_launches_tool_with_task :
  forall (w : World) (args : TestPy.Namespace) (root tool : string),
    World_ok w ->
    TestPy.dry_run args = false ->
    (outcome (TestPy.find_project_root_with MAVEN_MARKERS (TestPy.cwd args)) w
     = Ret (Some root) ->
     outcome (TestPy.which_in_dir MAVEN_WRAPPERS root) w = Ret (Some tool) ->
     script (TestPy.main args) w
     = (effects (TestPy.find_project_root_with MAVEN_MARKERS (TestPy.cwd args)) w
        ++ [EvStdout ("Projeto Maven detectado em: " ++ root)%string]
        ++ effects (TestPy.which_in_dir MAVEN_WRAPPERS root) w
        ++ effects (TestPy.run_cmd [tool; TestPy.task args] root) w,
        ending_of (outcome (TestPy.run_cmd [tool; TestPy.task args] root) w))
     /\ In (EvSpawn [tool; TestPy.task args] root) (fst (script (TestPy.main args) w)))
    /\ (outcome (TestPy.find_project_root_with MAVEN_MARKERS (TestPy.cwd args)) w
        = Ret None ->
        outcome (TestPy.find_project_root_with GRADLE_MARKERS (TestPy.cwd args)) w
        = Ret (Some root) ->
        outcome (TestPy.which_in_dir GRADLE_WRAPPERS root) w = Ret (Some tool) ->
        script (TestPy.main args) w
        = (effects (TestPy.find_project_root_with MAVEN_MARKERS (TestPy.cwd args)) w
           ++ effects (TestPy.find_project_root_with GRADLE_MARKERS (TestPy.cwd args)) w
           ++ [EvStdout ("Projeto Gradle detectado em: " ++ root)%string]
           ++ effects (TestPy.which_in_dir GRADLE_WRAPPERS root) w
           ++ effects (TestPy.run_cmd [tool; TestPy.task args] root) w,
           ending_of (outcome (TestPy.run_cmd [tool; TestPy.task args] root) w))
        /\ In (EvSpawn [tool; TestPy.task args] root)
              (fst (script (TestPy.main args) w))).
Proof.
  intros w args root tool Hok Hdry.
  assert (Hspawn : In (EvSpawn [tool; TestPy.task args] root)
                      (effects (TestPy.run_cmd [tool; TestPy.task args] root) w)).
  { destruct (test_run_cmd_trace w [tool; TestPy.task args] root) as (l & t & H & _).
    unfold effects. rewrite H. right. now left. }
  split.
  - intros Hfind Hwhich.
    rewrite (test_py_maven_runs w args root tool Hok Hdry Hfind Hwhich).
    split; [reflexivity|]. cbn [fst]. repeat (apply in_or_app; right). exact Hspawn.
  - intros Hm Hfind Hwhich.
    rewrite (test_py_gradle_runs w args root tool Hok Hdry Hm Hfind Hwhich).
    split; [reflexivity|]. cbn [fst]. repeat (apply in_or_app; right). exact Hspawn.
Qed.

Lemma test_py_launches_tool_with_task_witness :
  script (TestPy.main MoreSamples.integration_args) (Sample.gradle_wrapper (Completed 2))
  = ([EvExists "/proj/app/pom.xml"; EvExists "/proj/pom.xml"; EvExists "/pom.xml";
      EvExists "/proj/app/build.gradle"; EvExists "/proj/app/build.gradle.kts";
      EvExists "/proj/build.gradle"; EvExists "/proj/build.gradle.kts";
      EvStdout "Projeto Gradle detectado em: /proj";
      EvExists "/proj/gradlew"; EvAccess "/proj/gradlew";
      EvStdout "Executando: /proj/gradlew integrationTest";
      EvSpawn ["/proj/gradlew"; "integrationTest"]%string "/proj"],
     SysExit 2)
  /\ In (EvSpawn ["/home/u/proj/mvnw"; "integrationTest"]%string "/home/u/proj"%string)
        (fst (script (TestPy.main MoreSamples.integration_args)
                     (Sample.nested_maven (Completed 2)))).
Proof.
  split.
  - destruct (test_py_launches_tool_with_task (Sample.gradle_wrapper (Completed 2))
                MoreSamples.integration_args "/proj"%string "/proj/gradlew"%string
                eq_refl eq_refl) as [_ Hg].
    destruct (Hg eq_refl eq_refl eq_refl) as [Hrun _]. exact Hrun.
  - destruct (test_py_launches_tool_with_task (Sample.nested_maven (Completed 2))
                MoreSamples.integration_args "/home/u/proj"%string
                "/home/u/proj/mvnw"%string eq_refl eq_refl) as [Hm _].
    destruct (Hm eq_refl eq_refl) as [_ Hin]. exact Hin.
Defined.

(** X21. What [spotless_apply.py] launches. With [os.getcwd()] absolute,
    when a root is located and a tool resolves, [spotless_apply.py]
    launches the tool with [spotless:apply] in a Maven root, and with
    [spotlessApply] in a Gradle root when there is no Maven one, and ends
    the way [run_cmd] ends. *)
Theorem spotless_launches_fixed_goal :
  forall (w : World) (root tool : string),
    World_ok w ->
    (outcome (SpotlessApply.find_project_root_with MAVEN_MARKERS) w = Ret (Some root) ->
     outcome (SpotlessApply.which_in_dir MAVEN_WRAPPERS root) w = Ret (Some tool) ->
     script SpotlessApply.main w
     = (effects (SpotlessApply.find_project_root_with MAVEN_MARKERS) w
        ++ [EvStdout ("Projeto Maven detectado em: " ++ root)%string]
        ++ effects (SpotlessApply.which_in_dir MAVEN_WRAPPERS root) w
        ++ effects (SpotlessApply.run_cmd [tool; "spotless:apply"%string] root) w,
        ending_of (outcome (SpotlessApply.run_cmd [tool; "spotless:apply"%string] root) w))
     /\ In (EvSpawn [tool; "spotless:apply"%string] root)
           (fst (script SpotlessApply.main w)))
    /\ (outcome (SpotlessApply.find_project_root_with MAVEN_MARKERS) w = Ret None ->
        outcome (SpotlessApply.find_project_root_with GRADLE_MARKERS) w
        = Ret (Some root) ->
        outcome (SpotlessApply.which_in_dir GRADLE_WRAPPERS root) w = Ret (Some tool) ->
        script SpotlessApply.main w
        = (effects (SpotlessApply.find_project_root_with MAVEN_MARKERS) w
           ++ effects (SpotlessApply.find_project_root_with GRADLE_MARKERS) w
           ++ [EvStdout ("Projeto Gradle detectado em: " ++ root)%string]
           ++ effects (SpotlessApply.which_in_dir GRADLE_WRAPPERS root) w
           ++ effects (SpotlessApply.run_cmd [tool; "spotlessApply"%string] root) w,
           ending_of (outcome (SpotlessApply.run_cmd [tool; "spotlessApply"%string] root) w))
        /\ In (EvSpawn [tool; "spotlessApply"%string] root)
              (fst (script SpotlessApply.main w))).
Proof.
  intros w root tool Hok.
  assert (Hspawn : forall goal,
             In (EvSpawn [tool; goal] root)
                (effects (SpotlessApply.run_cmd [tool; goal] root) w)).
  { intros goal. destruct (spotless_run_cmd_trace w [tool; goal] root) as (l & t & H & _).
    unfold effects. rewrite H. right. now left. }
  split.
  - intros Hfind Hwhich.
    rewrite (spotless_maven_runs w root tool Hok Hfind Hwhich).
    split; [reflexivity|]. cbn [fst]. repeat (apply in_or_app; right). apply Hspawn.
  - intros Hm Hfind Hwhich.
    rewrite (spotless_gradle_runs w root tool Hok Hm Hfind Hwhich).
    split; [reflexivity|]. cbn [fst]. repeat (apply in_or_app; right). apply Hspawn.
Qed.

Lemma spotless_launches_fixed_goal_witness :
  script SpotlessApply.main (Sample.gradle_wrapper (Completed 0))
  = ([EvExists "/proj/app/pom.xml"; EvExists "/proj/pom.xml"; EvExists "/pom.xml";
      EvExists "/proj/app/build.gradle"; EvExists "/proj/app/build.gradle.kts";
      EvExists "/proj/build.gradle"; EvExists "/proj/build.gradle.kts";
      EvStdout "Projeto Gradle detectado em: /proj";
      EvExists "/proj/gradlew"; EvAccess "/proj/gradlew";
      EvStdout "Executando: /proj/gradlew spotlessApply";
      EvSpawn ["/proj/gradlew"; "spotlessApply"]%string "/proj"],
     SysExit 0)
  /\ In (EvSpawn ["/repo/mvnw"; "spotless:apply"]%string "/repo"%string)
        (fst (script SpotlessApply.main (MoreSamples.gradle_inside_maven (Completed 0)))).
Proof.
  split.
  - destruct (spotless_launches_fixed_goal (Sample.gradle_wrapper (Completed 0))
                "/proj"%string "/proj/gradlew"%string eq_refl) as [_ Hg].
    destruct (Hg eq_refl eq_refl eq_refl) as [Hrun _]. exact Hrun.
  - destruct (spotless_launches_fixed_goal (MoreSamples.gradle_inside_maven (Completed 0))
                "/repo"%string "/repo/mvnw"%string eq_refl) as [Hm _].
    destruct (Hm eq_refl eq_refl) as [_ Hin]. exact Hin.
Defined.
